(** * xk6-mcp: a k6 extension driving an MCP server

    A shallow embedding of the Go sources of the extension

    - [metrics/metrics.go]: the [K6Metrics] recorder ([NewK6Metrics], [Push]);
    - [mcp.go], the client revision: the JavaScript constructors
      ([newStdioClient], [newSSEClient], [newStreamableHTTPClient]), the HTTP
      client builder [newk6HTTPClient], [connect], and the methods of [Client]
      ([Ping], [ListTools], [ListAllTools], ..., [pushRequestMetrics]);
    - [mcp.go], the module revision: [Module.Connect], [Module.ListTools],
      [Module.CallTool] and its [pushRequestMetrics];
    - [mcp.go], the recorder revision: [CallTool] of the [Client] that
      records through [K6Metrics], and its [newk6HTTPClient];
    - [mcp.go], the first revision: its [newk6HTTPClient];

    followed by the properties of the specification that were checked on them.

    Conventions.  A Go [error] value that may be [nil] is an [option error];
    a pointer that may be [nil] is an [option].  A pair [(result, err)] returned
    by the MCP SDK is a sum [error + result]: the SDK sets exactly one of the
    two.  Everything outside the repository (the remote peer behind the
    [mcp.ClientSession], the clock, the k6 virtual user) is part of an explicit
    [World] that every operation threads. *)

From Stdlib Require Import ZArith String List Bool.
From Stdlib Require Import Floats.PrimFloat Numbers.Cyclic.Int63.Uint63.
From stdpp Require Import base option list strings gmap.

Open Scope string_scope.
Open Scope list_scope.
Open Scope Z_scope.

(** ** Go values shared by all packages *)

Module Go.

(** The [error] interface: a leaf error carrying its message, or an error
    built by [fmt.Errorf(prefix + "%w", inner)], which keeps [inner]
    reachable through [Unwrap]. *)
Inductive error : Type :=
| errors_New (msg : string)
| fmt_Errorf_w (prefix : string) (inner : error).

Fixpoint Error (e : error) : string :=
  match e with
  | errors_New msg => msg
  | fmt_Errorf_w prefix inner => prefix +:+ Error inner
  end.

Definition Unwrap (e : error) : option error :=
  match e with
  | errors_New _ => None
  | fmt_Errorf_w _ inner => Some inner
  end.

(** [time.Duration] is an [int64] count of nanoseconds. *)
Definition Duration := Z.
Definition Millisecond : Duration := 1000000.
Definition minDuration : Duration := - 2 ^ 63.
Definition maxDuration : Duration := 2 ^ 63 - 1.

(** [Time.Sub] saturates at the ends of the [Duration] range. *)
Definition Time_Sub (t u : Z) : Duration :=
  Z.max minDuration (Z.min maxDuration (t - u)).

(** Conversion [float64(d)] of an [int64]: to the nearest double.  The
    primitive conversion takes 63 bits, so the sign goes apart, and so does
    the one value whose magnitude needs 64. *)
Definition float64_of_int64 (d : Z) : float :=
  if d =? minDuration
  then PrimFloat.opp (PrimFloat.mul (PrimFloat.of_uint63 (Uint63.of_Z (2 ^ 62)))
                        (PrimFloat.of_uint63 (Uint63.of_Z 2)))
  else if d <? 0
  then PrimFloat.opp (PrimFloat.of_uint63 (Uint63.of_Z (- d)))
  else PrimFloat.of_uint63 (Uint63.of_Z d).

(** [context.Context], as far as the sources use it: the [nil] interface
    value, [context.Background()], never done, and the context of the virtual
    user, done once the iteration or the test run is over. *)
Inductive Context : Type := NilContext | Background | VUContext.

End Go.
Export Go.

(** ** The k6 collaborators: [go.k6.io/k6/metrics] and [go.k6.io/k6/lib] *)

Module k6.

Inductive MetricType : Type := Counter | Gauge | Trend | Rate.
Inductive ValueType : Type := Default | TimeValue | Data.

Record Metric : Type := mkMetric
  { metric_Name : string; metric_Type : MetricType; metric_Contains : ValueType }.

(** [Registry.MustNewMetric(name, typ, t...)]: the value type is [Default]
    unless one is given. *)
Definition MustNewMetric (name : string) (typ : MetricType) (t : option ValueType) : Metric :=
  mkMetric name typ (default Default t).

(** A [*TagSet] is an immutable map from tag names to values; [With] gives
    the set extended (or overridden) at one key. *)
Definition TagSet_With (key value : string) (tags : gmap string string) : gmap string string :=
  <[key := value]> tags.

Record TimeSeries : Type := mkTimeSeries
  { ts_Metric : Metric; ts_Tags : gmap string string }.

Record Sample : Type := mkSample
  { sample_TimeSeries : TimeSeries; sample_Time : Z; sample_Value : float }.

(** [null.Bool] of the options: unset, or set to a value. *)
Definition ValueOrZero (b : option bool) : bool := default false b.

Record Options : Type := mkOptions
  { NoConnectionReuse : option bool; NoVUConnectionReuse : option bool }.

Record TLSConfig : Type := mkTLSConfig
  { tls_ServerName : string; tls_NextProtos : list string }.

(** [lib.State], the part the extension reads: the current tags of the
    virtual user, its TLS policy, its dialer (an interface value, [nil] in a
    state that was built without one), options and round tripper (a pointer
    into the heap of HTTP objects below, or [nil]).  The [Samples] channel of
    the state is the [samples] queue of the world below. *)
Record State : Type := mkState
  { state_Tags : gmap string string;
    state_TLSConfig : option TLSConfig;
    state_Dialer : option string;
    state_Options : Options;
    state_Transport : option nat }.

(** A tracer comes from the provider of the init environment or from the
    provider of the running virtual user. *)
Inductive Tracer : Type := InitEnvTracer | StateTracer.

(** A finished span: its tracer, its name and its [rpc.method] attribute. *)
Record Span : Type := mkSpan
  { span_Tracer : Tracer; span_Name : string; span_rpc_method : string }.

End k6.
Export k6.

(** ** [net/http] and [golang.org/x/oauth2], as the extension uses them

    HTTP clients and round trippers are heap objects reached through
    pointers ([addr]): [oauth2.NewClient] builds a client that shares the base
    client's transport, and a statement about what is or is not mutated
    needs the sharing to be visible. *)

Definition addr := nat.

Module http.

Record Request : Type := mkRequest
  { req_Method : string; req_URL : string; req_Header : gmap string (list string) }.

(** [Header.Set(key, value)] replaces every value stored under [key]. *)
Definition Header_Set (key value : string) (h : gmap string (list string)) :
    gmap string (list string) :=
  <[key := [value]]> h.

(** [http.Transport], the fields the extension sets. *)
Record Transport : Type := mkTransport
  { DialContext : option string;
    ProxyFromEnvironment : bool;
    TLSClientConfig : option TLSConfig;
    DisableKeepAlives : bool }.

Record Client : Type := mkClient
  { client_Transport : addr; client_Timeout : Duration }.

End http.

Module oauth2.

(** [oauth2.Token]; [Expiry] stays the zero time in every token the
    extension builds, so a token never expires. *)
Record Token : Type := mkToken { AccessToken : string; TokenType : string }.

Definition lower (a : Ascii.ascii) : Ascii.ascii :=
  let n := Ascii.nat_of_ascii a in
  if (65 <=? n)%nat && (n <=? 90)%nat then Ascii.ascii_of_nat (n + 32) else a.

Fixpoint to_lower (s : string) : string :=
  match s with
  | EmptyString => EmptyString
  | String a s' => String (lower a) (to_lower s')
  end.

Definition EqualFold (s t : string) : bool := String.eqb (to_lower s) (to_lower t).

(** [Token.Type]: the type of the token, ["Bearer"] when none is set. *)
Definition Token_Type (t : Token) : string :=
  if EqualFold (TokenType t) "bearer" then "Bearer"
  else if EqualFold (TokenType t) "mac" then "MAC"
  else if EqualFold (TokenType t) "basic" then "Basic"
  else if negb (String.eqb (TokenType t) "") then TokenType t
  else "Bearer".

(** [Token.Valid] of a token without expiry. *)
Definition Token_Valid (t : option Token) : bool :=
  match t with
  | None => false
  | Some t => negb (String.eqb (AccessToken t) "")
  end.

(** [Token.SetAuthHeader]. *)
Definition SetAuthHeader (t : Token) (r : http.Request) : http.Request :=
  http.mkRequest (http.req_Method r) (http.req_URL r)
    (http.Header_Set "Authorization" (Token_Type t +:+ " " +:+ AccessToken t)
       (http.req_Header r)).

(** Token sources: [StaticTokenSource(t)] always answers [t];
    [ReuseTokenSource(t, src)] caches the last token while it is valid and
    asks [src] otherwise. *)
Inductive TokenSource : Type :=
| StaticTokenSource (t : Token)
| reuseTokenSource (t : option Token) (new : TokenSource).

Definition ReuseTokenSource (t : option Token) (src : TokenSource) : TokenSource :=
  match t, src with
  | None, reuseTokenSource _ _ => src
  | _, _ => reuseTokenSource t src
  end.

(** [TokenSource.Token()]: the token, and the source with its cache updated. *)
Fixpoint TokenSource_Token (src : TokenSource) : Token * TokenSource :=
  match src with
  | StaticTokenSource t => (t, src)
  | reuseTokenSource cached new =>
      match cached with
      | Some t =>
          if Token_Valid cached then (t, src)
          else let '(t', new') := TokenSource_Token new in
               (t', reuseTokenSource (Some t') new')
      | None =>
          let '(t', new') := TokenSource_Token new in
          (t', reuseTokenSource (Some t') new')
      end
  end.

(** [oauth2.Transport]: a round tripper over [Base] that authorizes each
    request with a token of [Source]. *)
Record Transport : Type := mkTransport { Source : TokenSource; Base : addr }.

End oauth2.

(** The fourth kind of object is the round tripper of
    [otelhttp.NewTransport(base)]; a [nil] base stands for
    [http.DefaultTransport]. *)
Inductive Object : Type :=
| ObjHTTPTransport (t : http.Transport)
| ObjOAuth2Transport (t : oauth2.Transport)
| ObjOtelTransport (base : option addr)
| ObjHTTPClient (c : http.Client).

(** Allocation: the new object gets the next free address. *)
Definition alloc (o : Object) (h : list Object) : addr * list Object :=
  (List.length h, h ++ [o]).

(** [RoundTrip] through the round tripper at [a]: the request as the
    bottom [http.Transport] puts it on the wire, and the heap afterwards.
    [oauth2.Transport.RoundTrip] clones the request, sets the header on the
    clone and hands it to its base.  The tracing round tripper hands the
    request on (the propagation headers it may add are not part of the
    model).  [fuel] bounds the chain of bases. *)
Fixpoint RoundTrip (fuel : nat) (h : list Object) (a : addr) (req : http.Request) :
    option (http.Request * list Object) :=
  match fuel with
  | O => None
  | S fuel' =>
      match h !! a with
      | Some (ObjHTTPTransport _) => Some (req, h)
      | Some (ObjOAuth2Transport t) =>
          let '(token, src') := oauth2.TokenSource_Token (oauth2.Source t) in
          let req2 := oauth2.SetAuthHeader token req in
          RoundTrip fuel' (<[a := ObjOAuth2Transport (oauth2.mkTransport src' (oauth2.Base t))]> h)
            (oauth2.Base t) req2
      | Some (ObjOtelTransport (Some base)) => RoundTrip fuel' h base req
      | Some (ObjOtelTransport None) => Some (req, h)
      | _ => None
      end
  end.

(** [Client.Do(req)]: one round trip through the client's transport. *)
Definition Client_Do (h : list Object) (c : addr) (req : http.Request) :
    option (http.Request * list Object) :=
  match h !! c with
  | Some (ObjHTTPClient cl) => RoundTrip (List.length h) h (http.client_Transport cl) req
  | _ => None
  end.

(** [oauth2.NewClient(ctx, src)] where [ctx] carries the client at [base]
    under the key [oauth2.HTTPClient]: a new client over a new
    [oauth2.Transport] whose base is the transport of the context's client. *)
Definition NewClient (base : addr) (src : oauth2.TokenSource) (h : list Object) :
    option (addr * list Object) :=
  match h !! base with
  | Some (ObjHTTPClient cc) =>
      let '(t, h1) :=
        alloc (ObjOAuth2Transport
                 (oauth2.mkTransport (oauth2.ReuseTokenSource None src)
                    (http.client_Transport cc))) h in
      Some (alloc (ObjHTTPClient (http.mkClient t (http.client_Timeout cc))) h1)
  | _ => None
  end.

(** ** [os/exec], as [newStdioClient] uses it *)

Module exec.

(** What [exec.Command] asks of the system the extension runs on:
    [filepath.Base] and [exec.LookPath], which answers a path (empty when it
    found none) and an error or [nil]. *)
Record OS : Type := mkOS
  { filepath_Base : string -> string;
    LookPath : string -> string * option error }.

(** [exec.Cmd]: [Env] is a slice, and a [nil] one makes the child inherit
    the environment of the calling process; [Stderr] says whether the standard
    error of the child is attached to [os.Stderr]. *)
Record Cmd : Type := mkCmd
  { Path : string;
    Args : list string;
    Env : option (list string);
    Stderr : bool;
    Err : option error }.

(** [exec.Command(name, arg...)] (on a system other than Windows): a name
    without path separators is looked up; the path found replaces the name,
    and a lookup error is kept in the command for [Start] to report. *)
Definition Command (os : OS) (name : string) (arg : list string) : Cmd :=
  let cmd := mkCmd name (name :: arg) None false None in
  if String.eqb (filepath_Base os name) name then
    let '(lp, err) := LookPath os name in
    let cmd :=
      if negb (String.eqb lp "")
      then mkCmd lp (Args cmd) (Env cmd) (Stderr cmd) (Err cmd)
      else cmd in
    match err with
    | Some _ => mkCmd (Path cmd) (Args cmd) (Env cmd) (Stderr cmd) err
    | None => cmd
    end
  else cmd.

(** [append(cmd.Env, s)] on a slice that may be [nil]. *)
Definition append_Env (env : option (list string)) (s : string) : option (list string) :=
  match env with
  | None => Some [s]
  | Some l => Some (l ++ [s])
  end.

End exec.

(** ** The MCP SDK: [github.com/modelcontextprotocol/go-sdk/mcp] *)

Module mcp.

Record Tool : Type := mkTool { tool_Name : string; tool_Description : string }.
Record Resource : Type := mkResource { resource_URI : string; resource_Name : string }.
Record Prompt : Type := mkPrompt { prompt_Name : string; prompt_Description : string }.

(** [mcp.Meta] is a map that may be [nil]. *)
Definition Meta := option (gmap string string).

Record ListToolsParams : Type := mkListToolsParams
  { lt_Meta : Meta; lt_Cursor : string }.
Record ListToolsResult : Type := mkListToolsResult
  { Tools : list (option Tool); lt_NextCursor : string }.

Record ListResourcesParams : Type := mkListResourcesParams
  { lr_Meta : Meta; lr_Cursor : string }.
Record ListResourcesResult : Type := mkListResourcesResult
  { Resources : list (option Resource); lr_NextCursor : string }.

Record ListPromptsParams : Type := mkListPromptsParams
  { lp_Meta : Meta; lp_Cursor : string }.
Record ListPromptsResult : Type := mkListPromptsResult
  { Prompts : list (option Prompt); lp_NextCursor : string }.

Record CallToolParams : Type := mkCallToolParams
  { ct_Name : string; ct_Arguments : gmap string string }.
Record CallToolResult : Type := mkCallToolResult
  { ct_Content : list string; ct_IsError : bool }.

Record ReadResourceParams : Type := mkReadResourceParams { rr_URI : string }.
Record ReadResourceResult : Type := mkReadResourceResult { rr_Contents : list string }.

Record GetPromptParams : Type := mkGetPromptParams
  { gp_Name : string; gp_Arguments : gmap string string }.
Record GetPromptResult : Type := mkGetPromptResult { gp_Messages : list string }.

Inductive Transport : Type :=
| CommandTransport (Command : exec.Cmd)
| SSEClientTransport (Endpoint : string) (HTTPClient : addr)
| StreamableClientTransport (Endpoint : string) (HTTPClient : addr).

(** A connected [*mcp.ClientSession]. *)
Definition ClientSession := nat.

(** The remote side and the SDK between it and the extension: what
    [Client.Connect] and each method of [ClientSession] answer in a state [S]
    of the peer, and the state afterwards. *)
Record Peer (S : Type) : Type := mkPeer
  { client_Connect : S -> Context -> Transport -> (error + ClientSession) * S;
    session_Ping : S -> Context -> option error * S;
    session_ListTools : S -> Context -> ListToolsParams -> (error + ListToolsResult) * S;
    session_CallTool : S -> Context -> CallToolParams -> (error + CallToolResult) * S;
    session_ListResources :
      S -> Context -> ListResourcesParams -> (error + ListResourcesResult) * S;
    session_ReadResource :
      S -> Context -> ReadResourceParams -> (error + ReadResourceResult) * S;
    session_ListPrompts :
      S -> Context -> ListPromptsParams -> (error + ListPromptsResult) * S;
    session_GetPrompt : S -> Context -> GetPromptParams -> (error + GetPromptResult) * S }.

End mcp.

Arguments mcp.client_Connect {S}.
Arguments mcp.session_Ping {S}.
Arguments mcp.session_ListTools {S}.
Arguments mcp.session_CallTool {S}.
Arguments mcp.session_ListResources {S}.
Arguments mcp.session_ReadResource {S}.
Arguments mcp.session_ListPrompts {S}.
Arguments mcp.session_GetPrompt {S}.

(** ** The world and the monad of operations *)

(** What an operation can read and change: the state of the peer, the state
    of the virtual user ([m.vu.State()], [nil] outside an iteration), whether
    the context of the virtual user is done, the queue behind the [Samples]
    channel (oldest first), the spans ended so far, the heap of HTTP objects,
    and a clock whose [n]-th reading is [clock n]. *)
Record World (S : Type) : Type := mkWorld
  { peer : S;
    vu_State : option State;
    vu_ctx_done : bool;
    samples : list Sample;
    spans : list Span;
    heap : list Object;
    clock : nat -> Z;
    ticks : nat }.

Arguments mkWorld {S}.
Arguments peer {S}.
Arguments vu_State {S}.
Arguments vu_ctx_done {S}.
Arguments samples {S}.
Arguments spans {S}.
Arguments heap {S}.
Arguments clock {S}.
Arguments ticks {S}.

(** An operation returns, or panics (a Go panic, which [common.Throw] raises
    on purpose to surface a JavaScript exception). *)
Inductive Res (W A : Type) : Type :=
| Ret (a : A) (w : W)
| Panic (e : error) (w : W).

Arguments Ret {W A}.
Arguments Panic {W A}.

Definition M (S A : Type) : Type := World S -> Res (World S) A.

Definition ret {S A} (a : A) : M S A := fun w => Ret a w.

Definition bind {S A B} (m : M S A) (k : A -> M S B) : M S B :=
  fun w => match m w with
           | Ret a w' => k a w'
           | Panic e w' => Panic e w'
           end.

Notation "'let*' x ':=' m 'in' k" := (bind m (fun x => k))
  (at level 10, x pattern, m at level 100, k at level 200).

Definition panic {S A} (e : error) : M S A := fun w => Panic e w.

(** [common.Throw(rt, err)]. *)
Definition common_Throw {S A} (err : error) : M S A := panic err.

Definition nil_dereference : error :=
  errors_New "runtime error: invalid memory address or nil pointer dereference".

Section WorldOps.
Context {S : Type}.

Definition set_peer (s : S) (w : World S) : World S :=
  mkWorld s (vu_State w) (vu_ctx_done w) (samples w) (spans w) (heap w) (clock w) (ticks w).

Definition set_samples (q : list Sample) (w : World S) : World S :=
  mkWorld (peer w) (vu_State w) (vu_ctx_done w) q (spans w) (heap w) (clock w) (ticks w).

Definition set_spans (l : list Span) (w : World S) : World S :=
  mkWorld (peer w) (vu_State w) (vu_ctx_done w) (samples w) l (heap w) (clock w) (ticks w).

Definition set_heap (h : list Object) (w : World S) : World S :=
  mkWorld (peer w) (vu_State w) (vu_ctx_done w) (samples w) (spans w) h (clock w) (ticks w).

Definition set_ticks (n : nat) (w : World S) : World S :=
  mkWorld (peer w) (vu_State w) (vu_ctx_done w) (samples w) (spans w) (heap w) (clock w) n.

(** [time.Now()]: the next reading of the clock. *)
Definition time_Now : M S Z :=
  fun w => Ret (clock w (ticks w)) (set_ticks (Datatypes.S (ticks w)) w).

(** [time.Since(start)]. *)
Definition time_Since (start : Z) : M S Duration :=
  let* now := time_Now in ret (Time_Sub now start).

(** [ctx.Err()]; calling it on the [nil] interface panics. *)
Definition ctx_Err (ctx : Context) : M S (option error) :=
  fun w => match ctx with
           | NilContext => Panic nil_dereference w
           | Background => Ret None w
           | VUContext =>
               Ret (if vu_ctx_done w then Some (errors_New "context canceled") else None) w
           end.

(** [metrics.PushIfNotDone(ctx, samples, sample)]: nothing is sent once the
    context is done.  The channel is taken to have room for the sample. *)
Definition PushIfNotDone (ctx : Context) (sample : Sample) : M S bool :=
  let* err := ctx_Err ctx in
  match err with
  | Some _ => ret false
  | None => fun w => Ret true (set_samples (samples w ++ [sample]) w)
  end.

(** A context on which [Err()] answers [nil]. *)
Definition live (ctx : Context) (w : World S) : bool :=
  match ctx with
  | NilContext => false
  | Background => true
  | VUContext => negb (vu_ctx_done w)
  end.

(** A call into the peer. *)
Definition call {A} (f : S -> A * S) : M S A :=
  fun w => let '(a, s') := f (peer w) in Ret a (set_peer s' w).

(** [m.vu.State()]. *)
Definition vu_State_get : M S (option State) := fun w => Ret (vu_State w) w.

(** A field read [m.vu.State().f]. *)
Definition vu_State_deref : M S State :=
  fun w => match vu_State w with
           | Some st => Ret st w
           | None => Panic nil_dereference w
           end.

(** The method value [dialer.DialContext] of the interface value [dialer]:
    evaluating it on the [nil] interface panics. *)
Definition Dialer_DialContext (dialer : option string) : M S string :=
  match dialer with
  | Some d => ret d
  | None => panic nil_dereference
  end.

(** Allocation of an HTTP object in the heap of the world. *)
Definition new (o : Object) : M S addr :=
  fun w => let '(a, h) := alloc o (heap w) in Ret a (set_heap h w).

(** [span.End()]. *)
Definition span_End (sp : Span) : M S unit :=
  fun w => Ret tt (set_spans (spans w ++ [sp]) w).

(** The block that [newk6HTTPClient] and [Module.Connect] share:
    [if cfg.Auth.BearerToken != "" { ...; httpClient = oauth2.NewClient(ctx,
    tokenSource) }], where [ctx] carries [httpClient] and [tokenSource] is
    the static source of a token whose [AccessToken] is the bearer token. *)
Definition withBearerToken (BearerToken : string) (httpClient : addr) : M S addr :=
  if negb (String.eqb BearerToken "") then
    let token := oauth2.mkToken BearerToken "" in
    let tokenSource := oauth2.StaticTokenSource token in
    fun w => match NewClient httpClient tokenSource (heap w) with
             | Some (a, h) => Ret a (set_heap h w)
             | None => Panic nil_dereference w
             end
  else ret httpClient.

End WorldOps.

(** [err] of an SDK answer [(result, err)]. *)
Definition err_of {A} (r : error + A) : option error :=
  match r with
  | inl e => Some e
  | inr _ => None
  end.

(** The value [float64(duration) / float64(time.Millisecond)] of a duration
    sample. *)
Definition milliseconds (duration : Duration) : float :=
  PrimFloat.div (float64_of_int64 duration) (float64_of_int64 Millisecond).

(** ** Package [metrics] ([metrics/metrics.go]) *)

Module metrics.

Definition requestDurationName := "mcp_request_duration".
Definition requestCountName := "mcp_request_count".
Definition requestErrorsName := "mcp_request_errors".
Definition requestErrorsDurationName := "mcp_request_errors_duration".

(** [K6Metrics]; its [samples] channel is the queue of the world. *)
Record K6Metrics : Type := mkK6Metrics
  { tagsAndMeta : gmap string string;
    requestDuration : Metric;
    requestCount : Metric;
    requestErrors : Metric;
    requestErrorsDuration : Metric }.

Definition NewK6Metrics (tagsAndMeta : gmap string string) : K6Metrics :=
  {| tagsAndMeta := tagsAndMeta;
     requestDuration := MustNewMetric requestDurationName Trend (Some TimeValue);
     requestCount := MustNewMetric requestCountName Counter None;
     requestErrors := MustNewMetric requestErrorsName Counter None;
     requestErrorsDuration :=
       MustNewMetric requestErrorsDurationName Trend (Some TimeValue) |}.

Section Push.
Context {S : Type}.

Definition Push (k : K6Metrics) (ctx : Context) (method : string)
    (duration : Duration) (err : option error) : M S unit :=
  let tags := TagSet_With "method" method (tagsAndMeta k) in
  let* now := time_Now in
  let* _ := PushIfNotDone ctx
              (mkSample (mkTimeSeries (requestDuration k) tags) now (milliseconds duration)) in
  let* now := time_Now in
  let* _ := PushIfNotDone ctx
              (mkSample (mkTimeSeries (requestCount k) tags) now PrimFloat.one) in
  match err with
  | Some _ =>
      let* now := time_Now in
      let* _ := PushIfNotDone ctx
                  (mkSample (mkTimeSeries (requestErrors k) tags) now PrimFloat.one) in
      let* now := time_Now in
      let* _ := PushIfNotDone ctx
                  (mkSample (mkTimeSeries (requestErrorsDuration k) tags) now
                     (milliseconds duration)) in
      ret tt
  | None => ret tt
  end.

End Push.
End metrics.

(** ** [mcp.go], the client revision: one [Client] per connected session *)

Module ClientAPI.

Definition requestDurationName := "mcp_request_duration".
Definition requestCountName := "mcp_request_count".
Definition requestErrorsName := "mcp_request_errors".
Definition listToolsMethodName := "tools/list".
Definition callToolMethodName := "tools/call".
Definition listResourcesMethodName := "resources/list".
Definition readResourceMethodName := "resources/read".
Definition listPromptsMethodName := "prompts/list".
Definition getPromptMethodName := "prompts/get".

Record mcpMetrics : Type := mkMcpMetrics
  { RequestDuration : Metric; RequestCount : Metric; RequestErrors : Metric }.

(** The global [mcp_metrics], as [NewModuleInstance] sets it. *)
Definition mcp_metrics : mcpMetrics :=
  {| RequestDuration := MustNewMetric requestDurationName Trend None;
     RequestCount := MustNewMetric requestCountName Counter None;
     RequestErrors := MustNewMetric requestErrorsName Counter None |}.

Record AuthConfig : Type := mkAuthConfig { BearerToken : string }.

(** [ClientConfig]; [cfg_Env] lists the entries of the [Env] map in the order
    the [range] loop of [newStdioClient] visits them. *)
Record ClientConfig : Type := mkClientConfig
  { cfg_Path : string;
    cfg_Args : list string;
    cfg_Env : list (string * string);
    cfg_Debug : bool;
    cfg_BaseURL : string;
    cfg_Timeout : Duration;
    cfg_Auth : AuthConfig }.

(** A pointer to the state of the virtual user. *)
Inductive StateRef : Type := vuState.

Record Client : Type := mkClient
  { session : option mcp.ClientSession;
    k6_state : option StateRef;
    ctx : Context }.

Record ListAllToolsParams : Type := mkListAllToolsParams { lat_Meta : mcp.Meta }.
Record ListAllToolsResult : Type := mkListAllToolsResult { lat_Tools : list mcp.Tool }.
Record ListAllResourcesParams : Type := mkListAllResourcesParams { lar_Meta : mcp.Meta }.
Record ListAllResourcesResult : Type :=
  mkListAllResourcesResult { lar_Resources : list mcp.Resource }.
Record ListAllPromptsParams : Type := mkListAllPromptsParams { lap_Meta : mcp.Meta }.
Record ListAllPromptsResult : Type := mkListAllPromptsResult { lap_Prompts : list mcp.Prompt }.

Section Operations.
Context {S : Type} (P : mcp.Peer S) (os : exec.OS).

(** Reading through a [*lib.State]. *)
Definition deref (p : option StateRef) : M S State :=
  fun w => match p, vu_State w with
           | Some vuState, Some st => Ret st w
           | _, _ => Panic nil_dereference w
           end.

(** Reading through the [*mcp.ClientSession] of a client. *)
Definition the_session (c : Client) : M S mcp.ClientSession :=
  match session c with
  | Some s => ret s
  | None => panic nil_dereference
  end.

Definition pushRequestMetrics (client : Client) (method : string)
    (duration : Duration) (err : option error) : M S unit :=
  let* st := deref (k6_state client) in
  let tags := TagSet_With "method" method (state_Tags st) in
  let* now := time_Now in
  let* _ := PushIfNotDone (ctx client)
              (mkSample (mkTimeSeries (RequestDuration mcp_metrics) tags) now
                 (milliseconds duration)) in
  let* now := time_Now in
  let* _ := PushIfNotDone (ctx client)
              (mkSample (mkTimeSeries (RequestCount mcp_metrics) tags) now PrimFloat.one) in
  match err with
  | Some _ =>
      let* now := time_Now in
      let* _ := PushIfNotDone (ctx client)
                  (mkSample (mkTimeSeries (RequestErrors mcp_metrics) tags) now
                     PrimFloat.one) in
      ret tt
  | None => ret tt
  end.

(** The shape shared by the six instrumented methods and by each page
    fetch of the aggregate loops: read the clock, call into the session,
    record the call, hand the answer back as it came. *)
Definition instrumented {A} (c : Client) (method : string)
    (rpc : S -> (error + A) * S) : M S (error + A) :=
  let* start := time_Now in
  let* _ := the_session c in
  let* r := call rpc in
  let* d := time_Since start in
  let* _ := pushRequestMetrics c method d (err_of r) in
  ret r.

Definition Ping (c : Client) : M S bool :=
  let* _ := the_session c in
  let* err := call (fun s => mcp.session_Ping P s (ctx c)) in
  ret (match err with None => true | Some _ => false end).

Definition ListTools (c : Client) (r : mcp.ListToolsParams) :
    M S (error + mcp.ListToolsResult) :=
  instrumented c listToolsMethodName (fun s => mcp.session_ListTools P s (ctx c) r).

Definition CallTool (c : Client) (r : mcp.CallToolParams) :
    M S (error + mcp.CallToolResult) :=
  instrumented c callToolMethodName (fun s => mcp.session_CallTool P s (ctx c) r).

Definition ListResources (c : Client) (r : mcp.ListResourcesParams) :
    M S (error + mcp.ListResourcesResult) :=
  instrumented c listResourcesMethodName (fun s => mcp.session_ListResources P s (ctx c) r).

Definition ReadResource (c : Client) (r : mcp.ReadResourceParams) :
    M S (error + mcp.ReadResourceResult) :=
  instrumented c readResourceMethodName (fun s => mcp.session_ReadResource P s (ctx c) r).

Definition ListPrompts (c : Client) (r : mcp.ListPromptsParams) :
    M S (error + mcp.ListPromptsResult) :=
  instrumented c listPromptsMethodName (fun s => mcp.session_ListPrompts P s (ctx c) r).

Definition GetPrompt (c : Client) (r : mcp.GetPromptParams) :
    M S (error + mcp.GetPromptResult) :=
  instrumented c getPromptMethodName (fun s => mcp.session_GetPrompt P s (ctx c) r).

(** *** The aggregate list operations *)

(** [if r.Meta == nil { r.Meta = mcp.Meta{} }]. *)
Definition nonNilMeta (m : mcp.Meta) : mcp.Meta :=
  match m with None => Some ∅ | Some m => Some m end.

(** [ListAllTools], [ListAllResources] and [ListAllPrompts] are the same
    loop over three item types; [listAll_loop] is that loop, with the session
    method [rpc], its metric [method], the constructor [mkParams] of its
    parameters and the two fields [items] and [NextCursor] of its result left
    open.  The Go loop has no bound: [fuel] counts the page fetches the
    model may make, and [None] says that more were needed. *)
Section ListAll.
Context {PT RT T : Type}.
Variables (method : string)
          (rpc : Context -> PT -> S -> (error + RT) * S)
          (mkParams : mcp.Meta -> string -> PT)
          (items : RT -> list (option T))
          (NextCursor : RT -> string).

(** [for _, t := range items { if t != nil { all = append(all, *t) } }]. *)
Definition append_items (all : list T) (page : list (option T)) : list T :=
  fold_left (fun all t => match t with Some v => all ++ [v] | None => all end) page all.

Fixpoint listAll_loop (fuel : nat) (c : Client) (meta : mcp.Meta) (cursor : string)
    (all : list T) (w : World S) : option (Res (World S) (option error * list T)) :=
  match fuel with
  | O => None
  | Datatypes.S fuel' =>
      let params := mkParams meta (if String.eqb cursor "" then "" else cursor) in
      match instrumented c method (rpc (ctx c) params) w with
      | Panic e w' => Some (Panic e w')
      | Ret (inl err) w' => Some (Ret (Some err, all) w')
      | Ret (inr result) w' =>
          let all' := append_items all (items result) in
          if String.eqb (NextCursor result) "" then Some (Ret (None, all') w')
          else listAll_loop fuel' c meta (NextCursor result) all' w'
      end
  end.

(** The function around the loop: a [nil] [Meta] becomes an empty one, and
    after the loop an error is wrapped and returned alone. *)
Definition listAll {Result : Type} (failed : string) (mkResult : list T -> Result)
    (fuel : nat) (c : Client) (r_Meta : mcp.Meta) (w : World S) :
    option (Res (World S) (error + Result)) :=
  match listAll_loop fuel c (nonNilMeta r_Meta) "" [] w with
  | None => None
  | Some (Panic e w') => Some (Panic e w')
  | Some (Ret (Some err, _) w') => Some (Ret (inl (fmt_Errorf_w failed err)) w')
  | Some (Ret (None, all) w') => Some (Ret (inr (mkResult all)) w')
  end.

End ListAll.

Definition ListAllTools (fuel : nat) (c : Client) (r : ListAllToolsParams) :=
  listAll listToolsMethodName (fun ctx r s => mcp.session_ListTools P s ctx r)
    mcp.mkListToolsParams mcp.Tools mcp.lt_NextCursor
    "failed to list tools: " mkListAllToolsResult fuel c (lat_Meta r).

Definition ListAllResources (fuel : nat) (c : Client) (r : ListAllResourcesParams) :=
  listAll listResourcesMethodName (fun ctx r s => mcp.session_ListResources P s ctx r)
    mcp.mkListResourcesParams mcp.Resources mcp.lr_NextCursor
    "failed to list resources: " mkListAllResourcesResult fuel c (lar_Meta r).

Definition ListAllPrompts (fuel : nat) (c : Client) (r : ListAllPromptsParams) :=
  listAll listPromptsMethodName (fun ctx r s => mcp.session_ListPrompts P s ctx r)
    mcp.mkListPromptsParams mcp.Prompts mcp.lp_NextCursor
    "failed to list prompts: " mkListAllPromptsResult fuel c (lap_Meta r).

(** *** The constructors *)

(** [rt.ExportTo(c.Argument(0), &cfg)], whose outcome [arg0] is the
    configuration or the conversion error, followed by the [Throw]. *)
Definition exportConfig (arg0 : error + ClientConfig) : M S ClientConfig :=
  match arg0 with
  | inl err => common_Throw (fmt_Errorf_w "invalid config: " err)
  | inr cfg => ret cfg
  end.

Definition connect (transport : mcp.Transport) (isSSE : bool) : M S Client :=
  let* r := call (fun s => mcp.client_Connect P s VUContext transport) in
  match r with
  | inl err => common_Throw (fmt_Errorf_w "connection error: " err)
  | inr session => ret (mkClient (Some session) None NilContext)
  end.

(** The client handed to the script: the session of [client] (read back
    from the object [connect] returned, a conversion that cannot fail on a
    [*Client]), the state and the context of the virtual user. *)
Definition wrapClient (client : Client) : M S Client :=
  let* st := vu_State_get in
  ret (mkClient (session client)
         (match st with Some _ => Some vuState | None => None end) VUContext).

Definition newk6HTTPClient (cfg : ClientConfig) : M S addr :=
  let* st := vu_State_deref in
  let tlsConfig :=
    match state_TLSConfig st with
    | Some t => Some (mkTLSConfig (tls_ServerName t) ["http/1.1"])
    | None => None
    end in
  let* dialContext := Dialer_DialContext (state_Dialer st) in
  let* transport :=
    new (ObjHTTPTransport
           {| http.DialContext := Some dialContext;
              http.ProxyFromEnvironment := true;
              http.TLSClientConfig := tlsConfig;
              http.DisableKeepAlives :=
                ValueOrZero (NoConnectionReuse (state_Options st))
                || ValueOrZero (NoVUConnectionReuse (state_Options st)) |}) in
  let* httpClient := new (ObjHTTPClient (http.mkClient transport (cfg_Timeout cfg))) in
  withBearerToken (BearerToken (cfg_Auth cfg)) httpClient.

(** The command of [newStdioClient]: [exec.Command(cfg.Path, cfg.Args...)],
    one [k=v] appended to its environment per entry of [cfg.Env], and its
    standard error sent to [os.Stderr] when [cfg.Debug] is set. *)
Definition stdioCommand (cfg : ClientConfig) : exec.Cmd :=
  let cmd := exec.Command os (cfg_Path cfg) (cfg_Args cfg) in
  let cmd :=
    fold_left
      (fun cmd kv =>
         exec.mkCmd (exec.Path cmd) (exec.Args cmd)
           (exec.append_Env (exec.Env cmd) (fst kv +:+ "=" +:+ snd kv))
           (exec.Stderr cmd) (exec.Err cmd))
      (cfg_Env cfg) cmd in
  if cfg_Debug cfg
  then exec.mkCmd (exec.Path cmd) (exec.Args cmd) (exec.Env cmd) true (exec.Err cmd)
  else cmd.

Definition newStdioClient (arg0 : error + ClientConfig) : M S Client :=
  let* cfg := exportConfig arg0 in
  let transport := mcp.CommandTransport (stdioCommand cfg) in
  let* client := connect transport false in
  wrapClient client.

Definition newSSEClient (arg0 : error + ClientConfig) : M S Client :=
  let* cfg := exportConfig arg0 in
  let* httpClient := newk6HTTPClient cfg in
  let transport := mcp.SSEClientTransport (cfg_BaseURL cfg) httpClient in
  let* client := connect transport true in
  wrapClient client.

Definition newStreamableHTTPClient (arg0 : error + ClientConfig) : M S Client :=
  let* cfg := exportConfig arg0 in
  let* httpClient := newk6HTTPClient cfg in
  let transport := mcp.StreamableClientTransport (cfg_BaseURL cfg) httpClient in
  let* client := connect transport false in
  wrapClient client.

End Operations.
End ClientAPI.

(** ** [mcp.go], the module revision: one session per module instance *)

Module ModuleAPI.

Definition tracerScope := "github.com/grafana/xk6-mcp".
Definition connectSpanName := "Connect".
Definition listToolsSpanName := "ListTools".
Definition callToolSpanName := "CallTool".
Definition requestDurationMetricName := "mcp_request_duration".
Definition requestCountMetricName := "mcp_request_count".
Definition requestErrorsMetricName := "mcp_request_errors".
Definition connectMethodName := "connect".
Definition listToolsMethodName := "tools/list".
Definition callToolMethodName := "tools/call".

Record AuthConfig : Type := mkAuthConfig { BearerToken : string }.

Record Config : Type := mkConfig
  { cfg_BaseURL : string; cfg_Auth : AuthConfig; cfg_TracingEnabled : bool }.

Record mcpMetrics : Type := mkMcpMetrics
  { RequestDuration : Metric; RequestCount : Metric; RequestErrors : Metric;
    TagsAndMeta : gmap string string }.

(** The struct [MCP] behind a [Module]; its [vu] is the world. *)
Record MCP : Type := mkMCP
  { session : option mcp.ClientSession;
    tracer : option Tracer;
    metrics : mcpMetrics }.

(** [NewModuleInstance]: no session, no tracer yet. *)
Definition NewModuleInstance (rootTagSet : gmap string string) : MCP :=
  {| session := None;
     tracer := None;
     metrics :=
       {| RequestDuration := MustNewMetric requestDurationMetricName Trend (Some TimeValue);
          RequestCount := MustNewMetric requestCountMetricName Counter None;
          RequestErrors := MustNewMetric requestErrorsMetricName Counter None;
          TagsAndMeta := rootTagSet |} |}.

Section Operations.
Context {S : Type} (P : mcp.Peer S).

(** [getTracer] caches the tracer in [m.tracer]. *)
Definition getTracer (m : MCP) : M S (Tracer * MCP) :=
  match tracer m with
  | Some t => ret (t, m)
  | None =>
      let* st := vu_State_get in
      let t := match st with None => InitEnvTracer | Some _ => StateTracer end in
      ret (t, mkMCP (session m) (Some t) (metrics m))
  end.

Definition getContext : Context := Background.

(** [getK6Transport]: the round tripper of the state, or
    [http.DefaultClient.Transport], which is [nil]. *)
Definition getK6Transport : M S (option addr) :=
  let* st := vu_State_get in
  ret (match st with Some st => state_Transport st | None => None end).

Definition pushRequestMetrics (m : MCP) (method : string) (duration : Duration)
    (err : option error) : M S unit :=
  let* st := vu_State_get in
  match st with
  | None => ret tt
  | Some st =>
      let tags := TagSet_With "method" method (state_Tags st) in
      let* now := time_Now in
      let* _ := PushIfNotDone getContext
                  (mkSample (mkTimeSeries (RequestDuration (metrics m)) tags) now
                     (milliseconds duration)) in
      let* now := time_Now in
      let* _ := PushIfNotDone getContext
                  (mkSample (mkTimeSeries (RequestCount (metrics m)) tags) now
                     PrimFloat.one) in
      match err with
      | Some _ =>
          let* now := time_Now in
          let* _ := PushIfNotDone getContext
                      (mkSample (mkTimeSeries (RequestErrors (metrics m)) tags) now
                         PrimFloat.one) in
          ret tt
      | None => ret tt
      end
  end.

(** The part shared by [Connect], [ListTools] and [CallTool] once the guard
    on [m.session] is passed: a span around the call into the SDK, then the
    samples. *)
Definition traced {A} (m : MCP) (spanName method : string)
    (rpc : S -> (error + A) * S) : M S ((error + A) * MCP) :=
  let* startTime := time_Now in
  let* (t, m) := getTracer m in
  let span := mkSpan t spanName method in
  let* r := call rpc in
  let* duration := time_Since startTime in
  let* _ := span_End span in
  let* _ := pushRequestMetrics m method duration (err_of r) in
  ret (r, m).

Definition Connect (cfg : Config) (m : MCP) : M S (option error * MCP) :=
  match session m with
  | Some _ => ret (None, m)
  | None =>
      let* k6Transport := getK6Transport in
      let* baseTransport := new (ObjOtelTransport k6Transport) in
      let* httpClient := new (ObjHTTPClient (http.mkClient baseTransport 0)) in
      let* httpClient := withBearerToken (BearerToken (cfg_Auth cfg)) httpClient in
      let mcpTransport := mcp.StreamableClientTransport (cfg_BaseURL cfg) httpClient in
      let* (r, m) :=
        traced m connectSpanName connectMethodName
          (fun s => mcp.client_Connect P s getContext mcpTransport) in
      match r with
      | inl err => ret (Some err, m)
      | inr session => ret (None, mkMCP (Some session) (tracer m) (metrics m))
      end
  end.

Definition ListTools (params : mcp.ListToolsParams) (m : MCP) :
    M S ((error + mcp.ListToolsResult) * MCP) :=
  match session m with
  | None => ret (inl (errors_New "must call `Connect()` before calling `ListTools()`"), m)
  | Some _ =>
      traced m listToolsSpanName listToolsMethodName
        (fun s => mcp.session_ListTools P s getContext params)
  end.

Definition CallTool (params : mcp.CallToolParams) (m : MCP) :
    M S ((error + mcp.CallToolResult) * MCP) :=
  match session m with
  | None => ret (inl (errors_New "must call `Connect()` before calling `CallTool()`"), m)
  | Some _ =>
      traced m callToolSpanName callToolMethodName
        (fun s => mcp.session_CallTool P s getContext params)
  end.

End Operations.
End ModuleAPI.

(** ** [mcp.go], the recorder revision: a [Client] that records through
    package [metrics] *)

Module RecorderAPI.

Definition CallToolMethod := "tools/call".

Record AuthConfig : Type := mkAuthConfig { BearerToken : string }.

Record ClientConfig : Type := mkClientConfig
  { cfg_Path : string;
    cfg_Args : list string;
    cfg_Env : list (string * string);
    cfg_Debug : bool;
    cfg_BaseURL : string;
    cfg_Auth : AuthConfig }.

Record Client : Type := mkClient
  { ctx : Context;
    session : option mcp.ClientSession;
    metrics : option metrics.K6Metrics }.

Section Operations.
Context {S : Type} (P : mcp.Peer S).

(** [newk6HTTPClient] of this revision: the TLS policy and the options are
    read only when there is a state, the dialer is read without that check
    but used only when it is not [nil]. *)
Definition newk6HTTPClient (cfg : ClientConfig) : M S addr :=
  let* st := vu_State_get in
  let tlsConfig :=
    match st with
    | Some st =>
        match state_TLSConfig st with
        | Some t => Some (mkTLSConfig (tls_ServerName t) ["http/1.1"])
        | None => None
        end
    | None => None
    end in
  let disableKeepAlives :=
    match st with
    | Some st =>
        ValueOrZero (NoConnectionReuse (state_Options st))
        || ValueOrZero (NoVUConnectionReuse (state_Options st))
    | None => false
    end in
  let* st := vu_State_deref in
  let* transport :=
    new (ObjHTTPTransport
           {| http.DialContext := state_Dialer st;
              http.ProxyFromEnvironment := true;
              http.TLSClientConfig := tlsConfig;
              http.DisableKeepAlives := disableKeepAlives |}) in
  let* httpClient := new (ObjHTTPClient (http.mkClient transport 0)) in
  withBearerToken (BearerToken (cfg_Auth cfg)) httpClient.

(** The recorder a constructor builds:
    [metrics.NewK6Metrics(m.registry, m.vu.State().Samples,
    m.vu.State().Tags.GetCurrentValues())]. *)
Definition newMetrics : M S metrics.K6Metrics :=
  let* st := vu_State_deref in
  ret (metrics.NewK6Metrics (state_Tags st)).

Definition CallTool (c : Client) (r : mcp.CallToolParams) :
    M S (error + mcp.CallToolResult) :=
  let* start := time_Now in
  let* _ := match session c with Some s => ret s | None => panic nil_dereference end in
  let* result := call (fun s => mcp.session_CallTool P s (ctx c) r) in
  let* d := time_Since start in
  let* k := match metrics c with Some k => ret k | None => panic nil_dereference end in
  let* _ := metrics.Push k (ctx c) CallToolMethod d (err_of result) in
  ret result.

End Operations.
End RecorderAPI.

(** ** [mcp.go], the first revision: the HTTP client builder that checks for
    a state *)

Module FirstAPI.

Record AuthConfig : Type := mkAuthConfig { BearerToken : string }.

Record ClientConfig : Type := mkClientConfig
  { cfg_Path : string;
    cfg_Args : list string;
    cfg_Env : list (string * string);
    cfg_Debug : bool;
    cfg_BaseURL : string;
    cfg_Auth : AuthConfig }.

Section Operations.
Context {S : Type}.

(** [newk6HTTPClient] of this revision reads the state only after checking
    that there is one, and sets no [Timeout]. *)
Definition newk6HTTPClient (cfg : ClientConfig) : M S addr :=
  let* st := vu_State_get in
  let tlsConfig :=
    match st with
    | Some st =>
        match state_TLSConfig st with
        | Some t => Some (mkTLSConfig (tls_ServerName t) ["http/1.1"])
        | None => None
        end
    | None => None
    end in
  let transport :=
    {| http.DialContext := None;
       http.ProxyFromEnvironment := true;
       http.TLSClientConfig := tlsConfig;
       http.DisableKeepAlives := false |} in
  let* transport :=
    match st with
    | Some st =>
        let disableKeepAlives :=
          ValueOrZero (NoConnectionReuse (state_Options st))
          || ValueOrZero (NoVUConnectionReuse (state_Options st)) in
        let* dialContext := Dialer_DialContext (state_Dialer st) in
        ret {| http.DialContext := Some dialContext;
               http.ProxyFromEnvironment := http.ProxyFromEnvironment transport;
               http.TLSClientConfig := http.TLSClientConfig transport;
               http.DisableKeepAlives := disableKeepAlives |}
    | None => ret transport
    end in
  let* transport := new (ObjHTTPTransport transport) in
  let* httpClient := new (ObjHTTPClient (http.mkClient transport 0)) in
  withBearerToken (BearerToken (cfg_Auth cfg)) httpClient.

End Operations.
End FirstAPI.

(** ** Concrete peers and worlds, for examples *)

Module Examples.

Definition unsupported {A} : error + A := inl (errors_New "method not found").

(** A peer that answers the list requests from a script, one entry per
    request, whatever the cursor; every other request fails. *)
Record Script : Type := mkScript
  { tools_script : list (error + mcp.ListToolsResult);
    resources_script : list (error + mcp.ListResourcesResult);
    prompts_script : list (error + mcp.ListPromptsResult) }.

Definition scripted : mcp.Peer Script :=
  {| mcp.client_Connect := fun s _ _ => (inr 1%nat, s);
     mcp.session_Ping := fun s _ => (None, s);
     mcp.session_ListTools := fun s _ _ =>
       match tools_script s with
       | [] => (unsupported, s)
       | r :: rest => (r, mkScript rest (resources_script s) (prompts_script s))
       end;
     mcp.session_CallTool := fun s _ _ => (unsupported, s);
     mcp.session_ListResources := fun s _ _ =>
       match resources_script s with
       | [] => (unsupported, s)
       | r :: rest => (r, mkScript (tools_script s) rest (prompts_script s))
       end;
     mcp.session_ReadResource := fun s _ _ => (unsupported, s);
     mcp.session_ListPrompts := fun s _ _ =>
       match prompts_script s with
       | [] => (unsupported, s)
       | r :: rest => (r, mkScript (tools_script s) (resources_script s) rest)
       end;
     mcp.session_GetPrompt := fun s _ _ => (unsupported, s) |}.

(** The server of the tests of package [metrics]: one tool, [myTool], which
    answers with its name; a call of any other tool is an error. *)
Definition toolName := "myTool".

Definition echo : mcp.Peer unit :=
  {| mcp.client_Connect := fun s _ _ => (inr 1%nat, s);
     mcp.session_Ping := fun s _ => (None, s);
     mcp.session_ListTools := fun s _ _ =>
       (inr (mcp.mkListToolsResult [Some (mcp.mkTool toolName "")] ""), s);
     mcp.session_CallTool := fun s _ r =>
       (if String.eqb (mcp.ct_Name r) toolName
        then inr (mcp.mkCallToolResult [toolName] false)
        else inl (errors_New "unknown tool"), s);
     mcp.session_ListResources := fun s _ _ => (unsupported, s);
     mcp.session_ReadResource := fun s _ _ => (unsupported, s);
     mcp.session_ListPrompts := fun s _ _ => (unsupported, s);
     mcp.session_GetPrompt := fun s _ _ => (unsupported, s) |}.

(** A peer whose list answers always carry the same non-empty cursor. *)
Definition endless : mcp.Peer unit :=
  {| mcp.client_Connect := fun s _ _ => (inr 1%nat, s);
     mcp.session_Ping := fun s _ => (None, s);
     mcp.session_ListTools := fun s _ _ => (inr (mcp.mkListToolsResult [] "again"), s);
     mcp.session_CallTool := fun s _ _ => (unsupported, s);
     mcp.session_ListResources := fun s _ _ =>
       (inr (mcp.mkListResourcesResult [] "again"), s);
     mcp.session_ReadResource := fun s _ _ => (unsupported, s);
     mcp.session_ListPrompts := fun s _ _ => (inr (mcp.mkListPromptsResult [] "again"), s);
     mcp.session_GetPrompt := fun s _ _ => (unsupported, s) |}.

(** A peer that records every transport it is asked to connect, and on
    which connecting fails as it does on a real system when the command or
    the endpoint is empty. *)
Definition recording : mcp.Peer (list mcp.Transport) :=
  {| mcp.client_Connect := fun s _ t =>
       (match t with
        | mcp.CommandTransport cmd =>
            if String.eqb (exec.Path cmd) "" then inl (errors_New "exec: no command")
            else inr 1%nat
        | mcp.SSEClientTransport e _ | mcp.StreamableClientTransport e _ =>
            if String.eqb e "" then inl (errors_New "unsupported protocol scheme")
            else inr 1%nat
        end, s ++ [t]);
     mcp.session_Ping := fun s _ => (None, s);
     mcp.session_ListTools := fun s _ _ => (unsupported, s);
     mcp.session_CallTool := fun s _ _ => (unsupported, s);
     mcp.session_ListResources := fun s _ _ => (unsupported, s);
     mcp.session_ReadResource := fun s _ _ => (unsupported, s);
     mcp.session_ListPrompts := fun s _ _ => (unsupported, s);
     mcp.session_GetPrompt := fun s _ _ => (unsupported, s) |}.

Definition vu_state : State :=
  {| state_Tags := {[ "group" := "" ]};
     state_TLSConfig := None;
     state_Dialer := Some "k6";
     state_Options := mkOptions None None;
     state_Transport := None |}.

(** The state the tests of package [metrics] build: tags and a round
    tripper, no dialer. *)
Definition test_state : State :=
  {| state_Tags := {[ "group" := "" ]};
     state_TLSConfig := None;
     state_Dialer := None;
     state_Options := mkOptions None None;
     state_Transport := None |}.

(** [filepath.Base] for the separator [/]. *)
Definition is_slash (a : Ascii.ascii) : bool := Ascii.eqb a (Ascii.ascii_of_nat 47).

Fixpoint drop_slashes (l : list Ascii.ascii) : list Ascii.ascii :=
  match l with
  | a :: l' => if is_slash a then drop_slashes l' else l
  | [] => []
  end.

Fixpoint up_to_slash (l : list Ascii.ascii) : list Ascii.ascii :=
  match l with
  | a :: l' => if is_slash a then [] else a :: up_to_slash l'
  | [] => []
  end.

Definition Base (path : string) : string :=
  if String.eqb path "" then "."
  else
    let last := up_to_slash (drop_slashes (rev (list_ascii_of_string path))) in
    match last with
    | [] => "/"
    | _ => string_of_list_ascii (rev last)
    end.

(** A system on which [sh] is the only command on the search path. *)
Definition unix : exec.OS :=
  {| exec.filepath_Base := Base;
     exec.LookPath := fun file =>
       if String.eqb file "sh" then ("/bin/sh", None)
       else ("", Some (errors_New "executable file not found in $PATH")) |}.

(** A world inside an iteration: state present, context live, nothing
    sent yet, a clock that advances one millisecond per reading. *)
Definition world {S} (s : S) : World S :=
  {| peer := s; vu_State := Some vu_state; vu_ctx_done := false; samples := [];
     spans := []; heap := []; clock := fun n => Z.of_nat n * 1000000; ticks := 0 |}.

Definition client : ClientAPI.Client :=
  ClientAPI.mkClient (Some 1%nat) (Some ClientAPI.vuState) VUContext.

(** The same world once the context of the virtual user is done. *)
Definition world_done {S} (s : S) : World S :=
  {| peer := s; vu_State := Some vu_state; vu_ctx_done := true; samples := [];
     spans := []; heap := []; clock := fun n => Z.of_nat n * 1000000; ticks := 0 |}.

(** A world inside an iteration whose state is the one of the tests. *)
Definition world_test {S} (s : S) : World S :=
  {| peer := s; vu_State := Some test_state; vu_ctx_done := false; samples := [];
     spans := []; heap := []; clock := fun n => Z.of_nat n * 1000000; ticks := 0 |}.

(** A world outside an iteration: no state yet. *)
Definition world_init {S} (s : S) : World S :=
  {| peer := s; vu_State := None; vu_ctx_done := false; samples := [];
     spans := []; heap := []; clock := fun n => Z.of_nat n * 1000000; ticks := 0 |}.

Definition stdio_cfg : ClientAPI.ClientConfig :=
  ClientAPI.mkClientConfig "/usr/bin/server" ["--stdio"] [("MODE", "test"); ("A", "")]
    true "" 0 (ClientAPI.mkAuthConfig "").

Definition http_cfg : ClientAPI.ClientConfig :=
  ClientAPI.mkClientConfig "" [] [] false "http://localhost:3000/mcp" 0
    (ClientAPI.mkAuthConfig "").

Definition recording_client : RecorderAPI.Client :=
  RecorderAPI.mkClient VUContext (Some 1%nat)
    (Some (metrics.NewK6Metrics (state_Tags vu_state))).

Definition t1 : mcp.Tool := mcp.mkTool "echo" "echoes its input".
Definition t2 : mcp.Tool := mcp.mkTool "add" "adds two numbers".
Definition t3 : mcp.Tool := mcp.mkTool "time" "tells the time".

Definition two_pages : Script :=
  mkScript [inr (mcp.mkListToolsResult [Some t1; Some t2] "p2");
            inr (mcp.mkListToolsResult [Some t3] "")] [] [].

Definition r1 : mcp.Resource := mcp.mkResource "file:///etc/motd" "motd".
Definition p1 : mcp.Prompt := mcp.mkPrompt "greet" "greets the user".

Definition tools_page_with_nil : mcp.ListToolsResult :=
  mcp.mkListToolsResult [Some t1; None; Some t2] "".
Definition resources_page_with_nil : mcp.ListResourcesResult :=
  mcp.mkListResourcesResult [None; Some r1] "".
Definition prompts_page_with_nil : mcp.ListPromptsResult :=
  mcp.mkListPromptsResult [Some p1; None] "".

Definition page_with_nil : Script :=
  mkScript [inr tools_page_with_nil] [inr resources_page_with_nil]
    [inr prompts_page_with_nil].

Definition no_script : Script := mkScript [] [] [].

(** A configuration with every field empty but the bearer token. *)
Definition cfg_token_only : ClientAPI.ClientConfig :=
  ClientAPI.mkClientConfig "" [] [] false "" 0 (ClientAPI.mkAuthConfig "T").

Definition post (body_url : string) : http.Request := http.mkRequest "POST" body_url ∅.

Definition second_page_fails : Script :=
  mkScript [inr (mcp.mkListToolsResult [Some t1; Some t2] "p2");
            inl (errors_New "connection reset")] [] [].

End Examples.


(** ** Vocabulary of the statements *)

(** The samples one recording adds to the queue, read off the world before
    and after. *)
Definition emitted {S} (w w' : World S) : list Sample :=
  drop (List.length (samples w)) (samples w').

Definition metric_of (s : Sample) : string := metric_Name (ts_Metric (sample_TimeSeries s)).

(** A client whose methods do not panic in [w]: it has a session, its
    [k6_state] points to the state of the virtual user, which exists, and its
    context is not the [nil] interface.  Every client a constructor returns
    inside an iteration is of this kind. *)
Definition usable {S} (c : ClientAPI.Client) (w : World S) : Prop :=
  is_Some (ClientAPI.session c) /\ ClientAPI.k6_state c = Some ClientAPI.vuState /\
  is_Some (vu_State w) /\ ClientAPI.ctx c <> NilContext.

Section PageSequences.
Context {S PT RT : Type}.
Variables (rpc : Context -> PT -> S -> (error + RT) * S)
          (mkParams : mcp.Meta -> string -> PT)
          (NextCursor : RT -> string)
          (ctx : Context) (meta : mcp.Meta).

(** [Serves s cursor pages s']: asked for the page at [cursor] in state [s],
    and then for the page at each cursor it hands out, the peer answers the
    pages [P1 .. Pn] of [pages] without error, [P1 .. P(n-1)] with a non-empty
    [nextCursor] and [Pn] with an empty one, and is left in state [s']. *)
Inductive Serves : S -> string -> list RT -> S -> Prop :=
| Serves_last s cursor r s' :
    rpc ctx (mkParams meta cursor) s = (inr r, s') ->
    NextCursor r = "" ->
    Serves s cursor [r] s'
| Serves_more s cursor r s1 pages s' :
    rpc ctx (mkParams meta cursor) s = (inr r, s1) ->
    NextCursor r <> "" ->
    Serves s1 (NextCursor r) pages s' ->
    Serves s cursor (r :: pages) s'.

(** [FailsAfter s cursor pages e s']: the peer answers the pages of [pages],
    each with a non-empty [nextCursor], and fails the next fetch with [e]. *)
Inductive FailsAfter : S -> string -> list RT -> error -> S -> Prop :=
| Fails_now s cursor e s' :
    rpc ctx (mkParams meta cursor) s = (inl e, s') ->
    FailsAfter s cursor [] e s'
| Fails_later s cursor r s1 pages e s' :
    rpc ctx (mkParams meta cursor) s = (inr r, s1) ->
    NextCursor r <> "" ->
    FailsAfter s1 (NextCursor r) pages e s' ->
    FailsAfter s cursor (r :: pages) e s'.

(** [stops_within n s cursor]: one of the first [n] answers of the peer,
    fetched from [cursor] on, is an error or carries an empty [nextCursor]. *)
Fixpoint stops_within (n : nat) (s : S) (cursor : string) : Prop :=
  match n with
  | O => False
  | Datatypes.S n' =>
      match rpc ctx (mkParams meta cursor) s with
      | (inl _, _) => True
      | (inr r, s') => NextCursor r = "" \/ stops_within n' s' (NextCursor r)
      end
  end.

End PageSequences.

(** A [nil] entry of a page. *)
Definition is_nil {T} (t : option T) : bool :=
  match t with None => true | Some _ => false end.

(** The three list operations of a session, in the argument order of
    [listAll]. *)
Definition rpcTools {S} (P : mcp.Peer S) :=
  fun ctx r s => mcp.session_ListTools P s ctx r.
Definition rpcResources {S} (P : mcp.Peer S) :=
  fun ctx r s => mcp.session_ListResources P s ctx r.
Definition rpcPrompts {S} (P : mcp.Peer S) :=
  fun ctx r s => mcp.session_ListPrompts P s ctx r.

(** [n] requests sent one after the other through the client at [c]. *)
Fixpoint Do_all (h : list Object) (c : addr) (reqs : list http.Request) :
    option (list http.Request * list Object) :=
  match reqs with
  | [] => Some ([], h)
  | req :: rest =>
      match Client_Do h c req with
      | Some (sent, h') =>
          match Do_all h' c rest with
          | Some (sents, h'') => Some (sent :: sents, h'')
          | None => None
          end
      | None => None
      end
  end.

(** The heap [newk6HTTPClient] leaves: the heap [h0] it found, then the
    base transport and the base client over it. *)
Definition base_heap (h0 : list Object) (bt : http.Transport) (timeout : Duration) :
    list Object :=
  h0 ++ [ObjHTTPTransport bt; ObjHTTPClient (http.mkClient (List.length h0) timeout)].

(** The same with a bearer token: two more objects, the [oauth2.Transport]
    over the base transport, whose source has [cache] as its last token, and
    the client over it. *)
Definition auth_heap (h0 : list Object) (bt : http.Transport) (timeout : Duration)
    (tok : oauth2.Token) (cache : option oauth2.Token) : list Object :=
  h0 ++ [ObjHTTPTransport bt;
         ObjHTTPClient (http.mkClient (List.length h0) timeout);
         ObjOAuth2Transport
           (oauth2.mkTransport
              (oauth2.reuseTokenSource cache (oauth2.StaticTokenSource tok))
              (List.length h0));
         ObjHTTPClient (http.mkClient (List.length h0 + 2)%nat timeout)].

(** What [connect] and the wrapping after it make of the answer of the
    peer. *)
Definition connected {S} (r : (error + mcp.ClientSession) * S) (w : World S) :
    Res (World S) ClientAPI.Client :=
  match r with
  | (inl e, s') => Panic (fmt_Errorf_w "connection error: " e) (set_peer s' w)
  | (inr session, s') =>
      Ret (ClientAPI.mkClient (Some session)
             (match vu_State w with Some _ => Some ClientAPI.vuState | None => None end)
             VUContext)
          (set_peer s' w)
  end.

(** The samples one recorded call sends, for the three metrics of a
    revision: the duration at the clock reading [t], the count at the next
    one, and for a failed call the error count at the one after. *)
Definition request_samples (duration count errors : Metric) (tags : gmap string string)
    (d : Duration) (err : option error) (clock : nat -> Z) (t : nat) : list Sample :=
  [mkSample (mkTimeSeries duration tags) (clock t) (milliseconds d);
   mkSample (mkTimeSeries count tags) (clock (Datatypes.S t)) PrimFloat.one]
  ++ match err with
     | Some _ =>
         [mkSample (mkTimeSeries errors tags) (clock (Datatypes.S (Datatypes.S t)))
            PrimFloat.one]
     | None => []
     end.

(** The samples of the client revision for a call of [method] that took [d]
    when the tags of the virtual user are those of [st]. *)
Definition client_samples (st : State) (method : string) (d : Duration)
    (err : option error) (clock : nat -> Z) (t : nat) : list Sample :=
  request_samples (ClientAPI.RequestDuration ClientAPI.mcp_metrics)
    (ClientAPI.RequestCount ClientAPI.mcp_metrics)
    (ClientAPI.RequestErrors ClientAPI.mcp_metrics)
    (TagSet_With "method" method (state_Tags st)) d err clock t.

(** The samples of the module revision: none outside an iteration. *)
Definition module_samples (ms : ModuleAPI.mcpMetrics) (st : option State) (method : string)
    (d : Duration) (err : option error) (clock : nat -> Z) (t : nat) : list Sample :=
  match st with
  | None => []
  | Some st =>
      request_samples (ModuleAPI.RequestDuration ms) (ModuleAPI.RequestCount ms)
        (ModuleAPI.RequestErrors ms) (TagSet_With "method" method (state_Tags st))
        d err clock t
  end.

(** The time a call took on the clock of [w]: the reading after it minus the
    reading before it, the first two readings from [ticks w] on. *)
Definition elapsed {S} (w : World S) : Duration :=
  Time_Sub (clock w (Datatypes.S (ticks w))) (clock w (ticks w)).

(** The tracer a traced call of the module revision uses in [w]. *)
Definition chosen_tracer {S} (m : ModuleAPI.MCP) (w : World S) : Tracer :=
  match ModuleAPI.tracer m with
  | Some t => t
  | None => match vu_State w with None => InitEnvTracer | Some _ => StateTracer end
  end.

(** The metrics of the samples of [n] successful page fetches, in order. *)
Definition page_metrics {A} (pages : list A) : list string :=
  flat_map (fun _ => ["mcp_request_duration"; "mcp_request_count"]) pages.

(** The tag a sample carries under [key]. *)
Definition tag_of (key : string) (s : Sample) : option string :=
  ts_Tags (sample_TimeSeries s) !! key.

(** [c] holds the session the SDK gave when it was asked, in the state [s]
    of the peer, to connect the transport [t], which left the peer in
    [s']. *)
Definition session_given {S} (P : mcp.Peer S) (t : mcp.Transport) (s : S)
    (c : ClientAPI.Client) (s' : S) : Prop :=
  exists session,
    mcp.client_Connect P s VUContext t = (inr session, s') /\
    ClientAPI.session c = Some session.

(** A client without session, as no constructor returns it. *)
Definition sessionless (k6_state : option ClientAPI.StateRef) (ctx : Context) :
    ClientAPI.Client :=
  ClientAPI.mkClient None k6_state ctx.

(** An error thrown for a configuration that could not be used. *)
Definition isConfigError (e : error) : Prop :=
  exists inner, e = fmt_Errorf_w "invalid config: " inner.

(** * Properties *)

(** ** Samples *)

Section SampleLemmas.
Context {S : Type}.
Implicit Types (w : World S) (ctx : Context).

Lemma live_set_samples ctx q w : live ctx (set_samples q w) = live ctx w.
Proof. by destruct ctx. Qed.

Lemma live_set_ticks ctx n w : live ctx (set_ticks n w) = live ctx w.
Proof. by destruct ctx. Qed.

Lemma PushIfNotDone_live ctx sample w :
  live ctx w = true ->
  PushIfNotDone ctx sample w = Ret true (set_samples (samples w ++ [sample]) w).
Proof.
  unfold PushIfNotDone, bind, ctx_Err, live.
  destruct ctx; simpl; try discriminate; [done |].
  by intros ->%negb_true_iff.
Qed.

Lemma PushIfNotDone_done sample w :
  vu_ctx_done w = true -> PushIfNotDone VUContext sample w = Ret false w.
Proof. unfold PushIfNotDone, bind, ctx_Err. by intros ->. Qed.

End SampleLemmas.

Section RecorderCounts.
Context {S : Type}.
Implicit Types (w : World S) (ctx : Context).

Lemma emitted_app w w' l : samples w' = samples w ++ l -> emitted w w' = l.
Proof. unfold emitted. intros ->. by rewrite drop_app_length. Qed.

(** The recorder of the client revision: two samples for a call that
    succeeded, three for a call that failed. *)
Lemma pushRequestMetrics_samples (c : ClientAPI.Client) method d err w st :
  ClientAPI.k6_state c = Some ClientAPI.vuState ->
  vu_State w = Some st ->
  live (ClientAPI.ctx c) w = true ->
  exists w',
    ClientAPI.pushRequestMetrics c method d err w = Ret tt w' /\
    peer w' = peer w /\ vu_State w' = vu_State w /\ vu_ctx_done w' = vu_ctx_done w /\
    heap w' = heap w /\ spans w' = spans w /\
    map (fun s => (metric_of s, sample_Value s)) (emitted w w') =
      [("mcp_request_duration", milliseconds d); ("mcp_request_count", PrimFloat.one)]
      ++ match err with
         | Some _ => [("mcp_request_errors", PrimFloat.one)]
         | None => []
         end.
Proof.
  intros Hk Hst Hlive.
  unfold ClientAPI.pushRequestMetrics, ClientAPI.deref, bind, time_Now.
  rewrite Hk, Hst.
  rewrite PushIfNotDone_live by (by rewrite live_set_ticks).
  rewrite PushIfNotDone_live
    by (by rewrite live_set_ticks, live_set_samples, live_set_ticks).
  destruct err as [e|].
  - rewrite PushIfNotDone_live
      by (by rewrite live_set_ticks, live_set_samples, live_set_ticks,
               live_set_samples, live_set_ticks).
    eexists. split; [reflexivity |]. do 5 (split; [by simpl |]).
    erewrite emitted_app; last (simpl; by rewrite <- !app_assoc). reflexivity.
  - eexists. split; [reflexivity |]. do 5 (split; [by simpl |]).
    erewrite emitted_app; last (simpl; by rewrite <- !app_assoc). reflexivity.
Qed.

(** The recorder of package [metrics]: two samples for a call that
    succeeded, four for a call that failed. *)
Lemma Push_samples (k : metrics.K6Metrics) ctx method d err w :
  live ctx w = true ->
  exists w',
    metrics.Push k ctx method d err w = Ret tt w' /\
    peer w' = peer w /\
    map (fun s => (sample_TimeSeries s, sample_Value s)) (emitted w w') =
      let tags := TagSet_With "method" method (metrics.tagsAndMeta k) in
      [(mkTimeSeries (metrics.requestDuration k) tags, milliseconds d);
       (mkTimeSeries (metrics.requestCount k) tags, PrimFloat.one)]
      ++ match err with
         | Some _ =>
             [(mkTimeSeries (metrics.requestErrors k) tags, PrimFloat.one);
              (mkTimeSeries (metrics.requestErrorsDuration k) tags, milliseconds d)]
         | None => []
         end.
Proof.
  intros Hlive.
  unfold metrics.Push, bind, time_Now.
  rewrite PushIfNotDone_live by (by rewrite live_set_ticks).
  rewrite PushIfNotDone_live
    by (by rewrite live_set_ticks, live_set_samples, live_set_ticks).
  destruct err as [e|].
  - rewrite PushIfNotDone_live
      by (by rewrite live_set_ticks, live_set_samples, live_set_ticks,
               live_set_samples, live_set_ticks).
    rewrite PushIfNotDone_live
      by (by rewrite live_set_ticks, live_set_samples, live_set_ticks,
               live_set_samples, live_set_ticks, live_set_samples, live_set_ticks).
    eexists. split; [reflexivity |]. split; [by simpl |].
    erewrite emitted_app; last (simpl; by rewrite <- !app_assoc). reflexivity.
  - eexists. split; [reflexivity |]. split; [by simpl |].
    erewrite emitted_app; last (simpl; by rewrite <- !app_assoc). reflexivity.
Qed.

End RecorderCounts.

(** C1 (the recorder of package [metrics] breaks it).  For a call that
    failed, [K6Metrics.Push] sends four samples on a live context: the
    duration, the count, the error count, and a fourth one on
    [mcp_request_errors_duration].  The specification, the test
    [TestK6ErrorMetrics] and [pushRequestMetrics] all say three. *)
Theorem Push_failed_call_emits_four_samples {S} (k : metrics.K6Metrics) (ctx : Context)
    (method : string) (d : Duration) (e : error) (w : World S) :
  live ctx w = true ->
  exists w',
    metrics.Push k ctx method d (Some e) w = Ret tt w' /\
    List.length (emitted w w') = 4%nat /\
    map metric_of (emitted w w') =
      [metric_Name (metrics.requestDuration k); metric_Name (metrics.requestCount k);
       metric_Name (metrics.requestErrors k);
       metric_Name (metrics.requestErrorsDuration k)].
Proof.
  intros Hlive.
  destruct (Push_samples k ctx method d (Some e) w Hlive) as (w' & Hrun & _ & Hem).
  exists w'. split; [exact Hrun |].
  assert (Hlen : List.length (emitted w w') = 4%nat).
  { erewrite <- (length_map _ (emitted w w')), Hem. reflexivity. }
  split; [exact Hlen |].
  replace (map metric_of (emitted w w'))
    with (map (fun p : TimeSeries * float => metric_Name (ts_Metric (fst p)))
            (map (fun s => (sample_TimeSeries s, sample_Value s)) (emitted w w')))
    by (rewrite map_map; reflexivity).
  rewrite Hem. reflexivity.
Qed.

(** The failed call of [TestK6ErrorMetrics], on a live context. *)
Lemma Push_failed_call_emits_four_samples_witness :
  exists w',
    metrics.Push (metrics.NewK6Metrics ∅) VUContext "tools/call" 2500000
      (Some (errors_New "unknown tool")) (Examples.world tt) = Ret tt w' /\
    List.length (emitted (Examples.world tt) w') = 4%nat /\
    map metric_of (emitted (Examples.world tt) w') =
      ["mcp_request_duration"; "mcp_request_count"; "mcp_request_errors";
       "mcp_request_errors_duration"].
Proof.
  apply (Push_failed_call_emits_four_samples (metrics.NewK6Metrics ∅) VUContext
           "tools/call" 2500000 (errors_New "unknown tool") (Examples.world tt)).
  reflexivity.
Defined.

(** The two calls of the tests of package [metrics], through [CallTool] of
    the recorder revision: two samples for [myTool], four for [myToolbad]. *)
Example CallTool_of_the_tests :
  (exists w',
      RecorderAPI.CallTool Examples.echo Examples.recording_client
        (mcp.mkCallToolParams "myTool" {[ "id" := "1" ]}) (Examples.world tt)
      = Ret (inr (mcp.mkCallToolResult ["myTool"] false)) w' /\
      map metric_of (samples w') = ["mcp_request_duration"; "mcp_request_count"]) /\
  (exists w',
      RecorderAPI.CallTool Examples.echo Examples.recording_client
        (mcp.mkCallToolParams "myToolbad" {[ "id" := "1" ]}) (Examples.world tt)
      = Ret (inl (errors_New "unknown tool")) w' /\
      map metric_of (samples w')
      = ["mcp_request_duration"; "mcp_request_count"; "mcp_request_errors";
         "mcp_request_errors_duration"]).
Proof. split; vm_compute; eexists; split; reflexivity. Qed.

(** The same failed call through the recorder of the client revision:
    three samples. *)
Example pushRequestMetrics_failed_call :
  exists w',
    ClientAPI.pushRequestMetrics Examples.client "tools/call" 2500000
      (Some (errors_New "unknown tool")) (Examples.world tt) = Ret tt w' /\
    map (fun s => (metric_of s, sample_Value s)) (emitted (Examples.world tt) w') =
      [("mcp_request_duration", 2.5%float); ("mcp_request_count", 1%float);
       ("mcp_request_errors", 1%float)].
Proof.
  destruct (pushRequestMetrics_samples Examples.client "tools/call" 2500000
              (Some (errors_New "unknown tool")) (Examples.world tt) Examples.vu_state
              eq_refl eq_refl eq_refl) as (w' & Hrun & _ & _ & _ & _ & _ & Hem).
  exists w'. split; [exact Hrun |]. rewrite Hem. reflexivity.
Qed.

(** ** The instrumented call *)

Section Instrumented.
Context {S : Type}.
Implicit Types (w : World S) (c : ClientAPI.Client).

Lemma usable_same c w w' :
  vu_State w' = vu_State w -> usable c w -> usable c w'.
Proof. unfold usable. intros ->. tauto. Qed.

(** On a usable client the call reaches the peer once, hands its answer
    back unchanged, and leaves the client usable. *)
Lemma instrumented_run {A} c method (rpc : S -> (error + A) * S) w r s' :
  usable c w ->
  rpc (peer w) = (r, s') ->
  exists w',
    ClientAPI.instrumented c method rpc w = Ret r w' /\ peer w' = s' /\
    vu_State w' = vu_State w /\ heap w' = heap w /\ spans w' = spans w.
Proof.
  intros ([sess Hs] & Hk & [st Hst] & Hctx) Hrpc.
  unfold ClientAPI.instrumented, ClientAPI.the_session, ClientAPI.pushRequestMetrics,
    ClientAPI.deref, PushIfNotDone, ctx_Err, time_Since, time_Now, call, bind, ret.
  rewrite Hs, Hk.
  destruct w as [p vs done smp sp h clk tk]. simpl in *. subst vs. rewrite Hrpc.
  destruct (ClientAPI.ctx c); [done | |];
    destruct r as [e|a]; try destruct done; simpl; by eexists.
Qed.

(** A client without session panics before anything is sent. *)
Lemma instrumented_without_session {A} c method (rpc : S -> (error + A) * S) w :
  ClientAPI.session c = None ->
  exists w', ClientAPI.instrumented c method rpc w = Panic nil_dereference w' /\
             peer w' = peer w.
Proof.
  intros Hs.
  unfold ClientAPI.instrumented, ClientAPI.the_session, time_Now, bind, panic.
  rewrite Hs. by eexists.
Qed.

(** The same, with all that is left of the call: one reading of the
    clock. *)
Lemma instrumented_no_session {A} c method (rpc : S -> (error + A) * S) w :
  ClientAPI.session c = None ->
  ClientAPI.instrumented c method rpc w
  = Panic nil_dereference (set_ticks (Datatypes.S (ticks w)) w).
Proof.
  intros Hs.
  unfold ClientAPI.instrumented, ClientAPI.the_session, time_Now, bind, panic.
  by rewrite Hs.
Qed.

End Instrumented.

(** ** The aggregate loop *)

Section ListAllLemmas.
Context {S PT RT T : Type}.
Variables (method : string)
          (rpc : Context -> PT -> S -> (error + RT) * S)
          (mkParams : mcp.Meta -> string -> PT)
          (items : RT -> list (option T))
          (NextCursor : RT -> string).
Implicit Types (w : World S) (c : ClientAPI.Client) (all : list T).

Local Abbreviation loop := (ClientAPI.listAll_loop method rpc mkParams items NextCursor).

Lemma append_items_spec all (page : list (option T)) :
  ClientAPI.append_items all page = all ++ omap id page.
Proof.
  unfold ClientAPI.append_items.
  revert all. induction page as [|[v|] page IH]; intros all; simpl.
  - by rewrite app_nil_r.
  - rewrite IH. by rewrite <- app_assoc.
  - apply IH.
Qed.

Lemma sent_cursor (cursor : string) : (if String.eqb cursor "" then "" else cursor) = cursor.
Proof. by destruct (String.eqb_spec cursor ""). Qed.

Lemma eqb_empty (cursor : string) : cursor <> "" -> String.eqb cursor "" = false.
Proof. by destruct (String.eqb_spec cursor ""). Qed.

(** One turn of the loop, in the three ways it can go. *)
Lemma loop_step fuel c meta cursor all w r s' :
  usable c w ->
  rpc (ClientAPI.ctx c) (mkParams meta cursor) (peer w) = (r, s') ->
  exists w',
    peer w' = s' /\ vu_State w' = vu_State w /\
    loop (Datatypes.S fuel) c meta cursor all w =
      match r with
      | inl err => Some (Ret (Some err, all) w')
      | inr result =>
          if String.eqb (NextCursor result) ""
          then Some (Ret (None, all ++ omap id (items result)) w')
          else loop fuel c meta (NextCursor result) (all ++ omap id (items result)) w'
      end.
Proof.
  intros Hu Hrpc. simpl. rewrite sent_cursor.
  destruct (instrumented_run c method _ w r s' Hu Hrpc) as (w' & -> & Hp & Hst & _).
  exists w'. do 2 (split; [done |]).
  destruct r as [err|result]; [done |]. by rewrite append_items_spec.
Qed.

Lemma loop_serves c meta s cursor pages s' :
  Serves rpc mkParams NextCursor (ClientAPI.ctx c) meta s cursor pages s' ->
  forall fuel all w,
    usable c w -> peer w = s -> (List.length pages <= fuel)%nat ->
    exists w',
      loop fuel c meta cursor all w =
        Some (Ret (None, all ++ omap id (concat (map items pages))) w') /\
      peer w' = s'.
Proof.
  induction 1 as [s cursor r s' Hrpc Hlast | s cursor r s1 pages s' Hrpc Hmore _ IH];
    intros fuel all w Hu <- Hfuel; (destruct fuel as [|fuel]; [simpl in Hfuel; lia |]).
  - destruct (loop_step fuel c meta cursor all w _ _ Hu Hrpc) as (w' & Hp & _ & ->).
    rewrite Hlast. simpl. rewrite app_nil_r. by exists w'.
  - destruct (loop_step fuel c meta cursor all w _ _ Hu Hrpc) as (w' & Hp & Hst & ->).
    rewrite (eqb_empty _ Hmore).
    destruct (IH fuel (all ++ omap id (items r)) w') as (w'' & -> & Hp'').
    + by eapply usable_same.
    + done.
    + simpl in Hfuel. lia.
    + exists w''. split; [| done].
      simpl. by rewrite omap_app, app_assoc.
Qed.

Lemma loop_fails c meta s cursor pages e s' :
  FailsAfter rpc mkParams NextCursor (ClientAPI.ctx c) meta s cursor pages e s' ->
  forall fuel all w,
    usable c w -> peer w = s -> (List.length pages < fuel)%nat ->
    exists w',
      loop fuel c meta cursor all w =
        Some (Ret (Some e, all ++ omap id (concat (map items pages))) w') /\
      peer w' = s'.
Proof.
  induction 1 as [s cursor e s' Hrpc | s cursor r s1 pages e s' Hrpc Hmore _ IH];
    intros fuel all w Hu <- Hfuel; (destruct fuel as [|fuel]; [simpl in Hfuel; lia |]).
  - destruct (loop_step fuel c meta cursor all w _ _ Hu Hrpc) as (w' & Hp & _ & ->).
    simpl. rewrite app_nil_r. by exists w'.
  - destruct (loop_step fuel c meta cursor all w _ _ Hu Hrpc) as (w' & Hp & Hst & ->).
    rewrite (eqb_empty _ Hmore).
    destruct (IH fuel (all ++ omap id (items r)) w') as (w'' & -> & Hp'').
    + by eapply usable_same.
    + done.
    + simpl in Hfuel. lia.
    + exists w''. split; [| done].
      simpl. by rewrite omap_app, app_assoc.
Qed.

(** The loop comes to an end within [fuel] fetches exactly when the peer
    stops within [fuel] answers. *)
Lemma loop_ends_iff c meta fuel :
  forall cursor all w,
    usable c w ->
    is_Some (loop fuel c meta cursor all w) <->
    stops_within rpc mkParams NextCursor (ClientAPI.ctx c) meta fuel (peer w) cursor.
Proof.
  induction fuel as [|fuel IH]; intros cursor all w Hu.
  - simpl. split; [by intros [? ?] | done].
  - destruct (rpc (ClientAPI.ctx c) (mkParams meta cursor) (peer w)) as [r s'] eqn:Hrpc.
    destruct (loop_step fuel c meta cursor all w _ _ Hu Hrpc) as (w' & Hp & Hst & ->).
    cbn [stops_within]. rewrite Hrpc.
    destruct r as [err|result]; [by split |].
    destruct (String.eqb_spec (NextCursor result) "") as [Hlast|Hmore].
    + split; [by left | done].
    + rewrite IH by (by eapply usable_same). rewrite Hp. split; [by right | by intros [|]].
Qed.

End ListAllLemmas.

Section ListAllWrapper.
Context {S PT RT T Result : Type}.
Variables (method : string)
          (rpc : Context -> PT -> S -> (error + RT) * S)
          (mkParams : mcp.Meta -> string -> PT)
          (items : RT -> list (option T))
          (NextCursor : RT -> string)
          (failed : string) (mkResult : list T -> Result).
Implicit Types (w : World S) (c : ClientAPI.Client).

Local Abbreviation all_pages :=
  (ClientAPI.listAll method rpc mkParams items NextCursor failed mkResult).

Lemma listAll_serves c r_Meta w pages s' fuel :
  usable c w ->
  Serves rpc mkParams NextCursor (ClientAPI.ctx c) (ClientAPI.nonNilMeta r_Meta) (peer w) ""
    pages s' ->
  (List.length pages <= fuel)%nat ->
  exists w',
    all_pages fuel c r_Meta w =
      Some (Ret (inr (mkResult (omap id (concat (map items pages))))) w') /\
    peer w' = s'.
Proof.
  intros Hu Hserves Hfuel. unfold ClientAPI.listAll.
  destruct (loop_serves method rpc mkParams items NextCursor c _ _ _ _ _ Hserves
              fuel [] w Hu eq_refl Hfuel) as (w' & Hloop & Hp).
  rewrite Hloop. by exists w'.
Qed.

Lemma listAll_fails c r_Meta w pages e s' fuel :
  usable c w ->
  FailsAfter rpc mkParams NextCursor (ClientAPI.ctx c) (ClientAPI.nonNilMeta r_Meta) (peer w) ""
    pages e s' ->
  (List.length pages < fuel)%nat ->
  exists w',
    all_pages fuel c r_Meta w = Some (Ret (inl (fmt_Errorf_w failed e)) w') /\
    peer w' = s'.
Proof.
  intros Hu Hfails Hfuel. unfold ClientAPI.listAll.
  destruct (loop_fails method rpc mkParams items NextCursor c _ _ _ _ _ _ Hfails
              fuel [] w Hu eq_refl Hfuel) as (w' & Hloop & Hp).
  rewrite Hloop. by exists w'.
Qed.

Lemma listAll_ends_iff c r_Meta w fuel :
  usable c w ->
  is_Some (all_pages fuel c r_Meta w) <->
  stops_within rpc mkParams NextCursor (ClientAPI.ctx c) (ClientAPI.nonNilMeta r_Meta) fuel
    (peer w) "".
Proof.
  intros Hu.
  rewrite <- (loop_ends_iff method rpc mkParams items NextCursor c _ fuel "" [] w Hu).
  unfold ClientAPI.listAll.
  destruct (ClientAPI.listAll_loop _ _ _ _ _ _ _ _ _ _ _) as [[[[e|] all] w'|e w']|].
  all: split; intros [? H]; try discriminate H; by eexists.
Qed.

End ListAllWrapper.

(** ** The aggregate operations: results *)

Section Entries.
Context {T : Type}.

Lemma no_nil_entries (l : list (option T)) :
  Forall (fun t => is_nil t = false) l -> map Some (omap id l) = l.
Proof.
  induction 1 as [|[v|] l Hv _ IH]; simpl; [done | | done].
  f_equal. exact IH.
Qed.

Lemma append_items_length (all : list T) (page : list (option T)) :
  (List.length (ClientAPI.append_items all page) + List.length (List.filter is_nil page)
   = List.length all + List.length page)%nat.
Proof.
  rewrite append_items_spec, length_app. unfold omap.
  induction page as [|[v|] page IH]; simpl in *; lia.
Qed.

End Entries.

(** C2, as the code has it.  When the peer serves the pages [P1 .. Pn]
    without error, [P1 .. P(n-1)] with a non-empty [nextCursor] and [Pn] with
    an empty one, [ListAllTools] returns, without error and after [n]
    fetches, the entries of [P1 .. Pn] that are not [nil], in order; and
    likewise [ListAllResources] and [ListAllPrompts]. *)
Theorem ListAll_returns_non_nil_items_in_order {S} (P : mcp.Peer S)
    (c : ClientAPI.Client) (w : World S) :
  usable c w ->
  (forall r pages s' fuel,
      Serves (rpcTools P) mcp.mkListToolsParams mcp.lt_NextCursor (ClientAPI.ctx c)
        (ClientAPI.nonNilMeta (ClientAPI.lat_Meta r)) (peer w) "" pages s' ->
      (List.length pages <= fuel)%nat ->
      exists w',
        ClientAPI.ListAllTools P fuel c r w =
          Some (Ret (inr (ClientAPI.mkListAllToolsResult
                            (omap id (concat (map mcp.Tools pages))))) w') /\
        peer w' = s') /\
  (forall r pages s' fuel,
      Serves (rpcResources P) mcp.mkListResourcesParams mcp.lr_NextCursor (ClientAPI.ctx c)
        (ClientAPI.nonNilMeta (ClientAPI.lar_Meta r)) (peer w) "" pages s' ->
      (List.length pages <= fuel)%nat ->
      exists w',
        ClientAPI.ListAllResources P fuel c r w =
          Some (Ret (inr (ClientAPI.mkListAllResourcesResult
                            (omap id (concat (map mcp.Resources pages))))) w') /\
        peer w' = s') /\
  (forall r pages s' fuel,
      Serves (rpcPrompts P) mcp.mkListPromptsParams mcp.lp_NextCursor (ClientAPI.ctx c)
        (ClientAPI.nonNilMeta (ClientAPI.lap_Meta r)) (peer w) "" pages s' ->
      (List.length pages <= fuel)%nat ->
      exists w',
        ClientAPI.ListAllPrompts P fuel c r w =
          Some (Ret (inr (ClientAPI.mkListAllPromptsResult
                            (omap id (concat (map mcp.Prompts pages))))) w') /\
        peer w' = s').
Proof.
  intros Hu. repeat split; intros r pages s' fuel Hserves Hfuel.
  - exact (listAll_serves _ _ _ _ _ _ _ c _ w pages s' fuel Hu Hserves Hfuel).
  - exact (listAll_serves _ _ _ _ _ _ _ c _ w pages s' fuel Hu Hserves Hfuel).
  - exact (listAll_serves _ _ _ _ _ _ _ c _ w pages s' fuel Hu Hserves Hfuel).
Qed.

Lemma usable_example {S} (s : S) : usable Examples.client (Examples.world s).
Proof. repeat split; try by eexists. discriminate. Qed.

Lemma two_pages_served :
  Serves (rpcTools Examples.scripted) mcp.mkListToolsParams mcp.lt_NextCursor VUContext
    (Some ∅) Examples.two_pages ""
    [mcp.mkListToolsResult [Some Examples.t1; Some Examples.t2] "p2";
     mcp.mkListToolsResult [Some Examples.t3] ""]
    Examples.no_script.
Proof.
  eapply Serves_more; [reflexivity | discriminate |].
  eapply Serves_last; reflexivity.
Qed.

(** Two pages of tools, served in order. *)
Lemma ListAll_returns_non_nil_items_in_order_witness :
  exists w',
    ClientAPI.ListAllTools Examples.scripted 2 Examples.client
      (ClientAPI.mkListAllToolsParams None) (Examples.world Examples.two_pages) =
      Some (Ret (inr (ClientAPI.mkListAllToolsResult
                        [Examples.t1; Examples.t2; Examples.t3])) w') /\
    peer w' = Examples.no_script.
Proof.
  exact (proj1 (ListAll_returns_non_nil_items_in_order Examples.scripted Examples.client
                  (Examples.world Examples.two_pages) (usable_example _))
           (ClientAPI.mkListAllToolsParams None) _ _ 2%nat two_pages_served (le_n 2)).
Defined.

(** C2, as the specification words it, fails on a page with a [nil] entry:
    the peer serves one page of three entries and [ListAllTools] returns two
    tools, which is not the concatenation of the entries served. *)
Lemma ListAllTools_is_not_the_concatenation :
  Serves (rpcTools Examples.scripted) mcp.mkListToolsParams mcp.lt_NextCursor VUContext
    (Some ∅) Examples.page_with_nil "" [Examples.tools_page_with_nil]
    (Examples.mkScript [] [inr Examples.resources_page_with_nil]
       [inr Examples.prompts_page_with_nil]) /\
  exists tools w',
    ClientAPI.ListAllTools Examples.scripted 1 Examples.client
      (ClientAPI.mkListAllToolsParams None) (Examples.world Examples.page_with_nil) =
      Some (Ret (inr (ClientAPI.mkListAllToolsResult tools)) w') /\
    map Some tools <> concat (map mcp.Tools [Examples.tools_page_with_nil]) /\
    List.length tools = 2%nat /\
    List.length (concat (map mcp.Tools [Examples.tools_page_with_nil])) = 3%nat.
Proof.
  assert (Hserves :
    Serves (rpcTools Examples.scripted) mcp.mkListToolsParams mcp.lt_NextCursor VUContext
      (Some ∅) Examples.page_with_nil "" [Examples.tools_page_with_nil]
      (Examples.mkScript [] [inr Examples.resources_page_with_nil]
         [inr Examples.prompts_page_with_nil]))
    by (eapply Serves_last; reflexivity).
  split; [exact Hserves |].
  destruct (listAll_serves ClientAPI.listToolsMethodName (rpcTools Examples.scripted)
              mcp.mkListToolsParams mcp.Tools mcp.lt_NextCursor "failed to list tools: "
              ClientAPI.mkListAllToolsResult Examples.client None
              (Examples.world Examples.page_with_nil) _ _ 1%nat
              (usable_example _) Hserves (le_n 1)) as (w' & Hrun & _).
  exists [Examples.t1; Examples.t2], w'. split; [exact Hrun |].
  split; [discriminate | split; reflexivity].
Qed.

(** What [fmt.Errorf] with [%w] keeps of the error it wraps. *)
Lemma Errorf_w_wraps (prefix : string) (e : error) :
  Unwrap (fmt_Errorf_w prefix e) = Some e /\
  Error (fmt_Errorf_w prefix e) = prefix +:+ Error e.
Proof. by split. Qed.

(** C3.  When the peer serves [k - 1] pages with a non-empty [nextCursor]
    and fails the [k]-th fetch with [e], [ListAllTools] returns the error
    [failed to list tools: e], which wraps [e], and no result at all: the
    tools of the first [k - 1] pages are dropped.  Likewise
    [ListAllResources] and [ListAllPrompts], each under its own prefix. *)
Theorem ListAll_page_error_discards_items {S} (P : mcp.Peer S)
    (c : ClientAPI.Client) (w : World S) :
  usable c w ->
  (forall r pages e s' fuel,
      FailsAfter (rpcTools P) mcp.mkListToolsParams mcp.lt_NextCursor (ClientAPI.ctx c)
        (ClientAPI.nonNilMeta (ClientAPI.lat_Meta r)) (peer w) "" pages e s' ->
      (List.length pages < fuel)%nat ->
      exists w',
        ClientAPI.ListAllTools P fuel c r w =
          Some (Ret (inl (fmt_Errorf_w "failed to list tools: " e)) w') /\
        peer w' = s') /\
  (forall r pages e s' fuel,
      FailsAfter (rpcResources P) mcp.mkListResourcesParams mcp.lr_NextCursor
        (ClientAPI.ctx c) (ClientAPI.nonNilMeta (ClientAPI.lar_Meta r)) (peer w) ""
        pages e s' ->
      (List.length pages < fuel)%nat ->
      exists w',
        ClientAPI.ListAllResources P fuel c r w =
          Some (Ret (inl (fmt_Errorf_w "failed to list resources: " e)) w') /\
        peer w' = s') /\
  (forall r pages e s' fuel,
      FailsAfter (rpcPrompts P) mcp.mkListPromptsParams mcp.lp_NextCursor (ClientAPI.ctx c)
        (ClientAPI.nonNilMeta (ClientAPI.lap_Meta r)) (peer w) "" pages e s' ->
      (List.length pages < fuel)%nat ->
      exists w',
        ClientAPI.ListAllPrompts P fuel c r w =
          Some (Ret (inl (fmt_Errorf_w "failed to list prompts: " e)) w') /\
        peer w' = s').
Proof.
  intros Hu. repeat split; intros r pages e s' fuel Hfails Hfuel.
  - exact (listAll_fails _ _ _ _ _ _ _ c _ w pages e s' fuel Hu Hfails Hfuel).
  - exact (listAll_fails _ _ _ _ _ _ _ c _ w pages e s' fuel Hu Hfails Hfuel).
  - exact (listAll_fails _ _ _ _ _ _ _ c _ w pages e s' fuel Hu Hfails Hfuel).
Qed.

Lemma second_page_fails_run :
  FailsAfter (rpcTools Examples.scripted) mcp.mkListToolsParams mcp.lt_NextCursor VUContext
    (Some ∅) Examples.second_page_fails ""
    [mcp.mkListToolsResult [Some Examples.t1; Some Examples.t2] "p2"]
    (errors_New "connection reset") Examples.no_script.
Proof.
  eapply Fails_later; [reflexivity | discriminate |].
  eapply Fails_now; reflexivity.
Qed.

(** One page of tools, then a failure: the two tools of the page are
    gone. *)
Lemma ListAll_page_error_discards_items_witness :
  exists w',
    ClientAPI.ListAllTools Examples.scripted 2 Examples.client
      (ClientAPI.mkListAllToolsParams None) (Examples.world Examples.second_page_fails) =
      Some (Ret (inl (fmt_Errorf_w "failed to list tools: "
                        (errors_New "connection reset"))) w') /\
    peer w' = Examples.no_script.
Proof.
  exact (proj1 (ListAll_page_error_discards_items Examples.scripted Examples.client
                  (Examples.world Examples.second_page_fails) (usable_example _))
           (ClientAPI.mkListAllToolsParams None) _ _ _ 2%nat second_page_fails_run
           (le_n 2)).
Defined.

(** C4, as the code has it.  The loops have no bound on the number of
    fetches and keep no record of the cursors seen: [ListAllTools] comes to
    an end within [fuel] fetches exactly when one of the first [fuel] answers
    of the peer is an error or carries an empty [nextCursor]; likewise
    [ListAllResources] and [ListAllPrompts]. *)
Theorem ListAll_ends_iff_peer_stops {S} (P : mcp.Peer S)
    (c : ClientAPI.Client) (w : World S) :
  usable c w ->
  (forall r fuel,
      is_Some (ClientAPI.ListAllTools P fuel c r w) <->
      stops_within (rpcTools P) mcp.mkListToolsParams mcp.lt_NextCursor (ClientAPI.ctx c)
        (ClientAPI.nonNilMeta (ClientAPI.lat_Meta r)) fuel (peer w) "") /\
  (forall r fuel,
      is_Some (ClientAPI.ListAllResources P fuel c r w) <->
      stops_within (rpcResources P) mcp.mkListResourcesParams mcp.lr_NextCursor
        (ClientAPI.ctx c) (ClientAPI.nonNilMeta (ClientAPI.lar_Meta r)) fuel (peer w) "") /\
  (forall r fuel,
      is_Some (ClientAPI.ListAllPrompts P fuel c r w) <->
      stops_within (rpcPrompts P) mcp.mkListPromptsParams mcp.lp_NextCursor
        (ClientAPI.ctx c) (ClientAPI.nonNilMeta (ClientAPI.lap_Meta r)) fuel (peer w) "").
Proof.
  intros Hu. split; [| split]; intros r fuel.
  - exact (listAll_ends_iff _ _ _ _ _ _ _ c _ w fuel Hu).
  - exact (listAll_ends_iff _ _ _ _ _ _ _ c _ w fuel Hu).
  - exact (listAll_ends_iff _ _ _ _ _ _ _ c _ w fuel Hu).
Qed.

(** Two pages, two fetches. *)
Lemma ListAll_ends_iff_peer_stops_witness :
  is_Some (ClientAPI.ListAllTools Examples.scripted 2 Examples.client
             (ClientAPI.mkListAllToolsParams None) (Examples.world Examples.two_pages)) <->
  stops_within (rpcTools Examples.scripted) mcp.mkListToolsParams mcp.lt_NextCursor
    VUContext (Some ∅) 2 Examples.two_pages "".
Proof.
  exact (proj1 (ListAll_ends_iff_peer_stops Examples.scripted Examples.client
                  (Examples.world Examples.two_pages) (usable_example _))
           (ClientAPI.mkListAllToolsParams None) 2%nat).
Defined.

Lemma endless_never_stops fuel (cursor : string) :
  ~ stops_within (rpcTools Examples.endless) mcp.mkListToolsParams mcp.lt_NextCursor
      VUContext (Some ∅) fuel tt cursor.
Proof.
  revert cursor. induction fuel as [|fuel IH]; intros cursor; simpl; [tauto |].
  intros [Hempty | Hmore]; [discriminate | by eapply IH].
Qed.

(** C4, as the specification words it, fails: against a peer that hands out
    the same non-empty cursor for ever, no number of fetches brings
    [ListAllTools] to an end. *)
Lemma ListAllTools_runs_unbounded :
  ~ exists fuel,
      is_Some (ClientAPI.ListAllTools Examples.endless fuel Examples.client
                 (ClientAPI.mkListAllToolsParams None) (Examples.world tt)).
Proof.
  intros [fuel Hends].
  apply (listAll_ends_iff ClientAPI.listToolsMethodName (rpcTools Examples.endless)
           mcp.mkListToolsParams mcp.Tools mcp.lt_NextCursor "failed to list tools: "
           ClientAPI.mkListAllToolsResult Examples.client None (Examples.world tt) fuel
           (usable_example _)) in Hends.
  exact (endless_never_stops fuel "" Hends).
Qed.

(** C10.  The inner loop of the three aggregate operations appends the
    entries of a page that are not [nil], dereferenced and in order, and
    nothing for a [nil] entry; so the result holds values only, and has one
    element less than the pages have entries for every [nil] among them, as
    on the three pages of the example. *)
Theorem ListAll_appends_only_non_nil_items :
  (forall (T : Type) (all : list T) (page : list (option T)),
      ClientAPI.append_items all page = all ++ omap id page /\
      (List.length (ClientAPI.append_items all page) + List.length (List.filter is_nil page)
       = List.length all + List.length page)%nat) /\
  (exists w',
      ClientAPI.ListAllTools Examples.scripted 1 Examples.client
        (ClientAPI.mkListAllToolsParams None) (Examples.world Examples.page_with_nil) =
        Some (Ret (inr (ClientAPI.mkListAllToolsResult [Examples.t1; Examples.t2])) w')) /\
  (exists w',
      ClientAPI.ListAllResources Examples.scripted 1 Examples.client
        (ClientAPI.mkListAllResourcesParams None) (Examples.world Examples.page_with_nil) =
        Some (Ret (inr (ClientAPI.mkListAllResourcesResult [Examples.r1])) w')) /\
  (exists w',
      ClientAPI.ListAllPrompts Examples.scripted 1 Examples.client
        (ClientAPI.mkListAllPromptsParams None) (Examples.world Examples.page_with_nil) =
        Some (Ret (inr (ClientAPI.mkListAllPromptsResult [Examples.p1])) w')).
Proof.
  split; [| split; [| split]].
  - intros T all page. split; [apply append_items_spec | apply append_items_length].
  - destruct (listAll_serves ClientAPI.listToolsMethodName (rpcTools Examples.scripted)
                mcp.mkListToolsParams mcp.Tools mcp.lt_NextCursor "failed to list tools: "
                ClientAPI.mkListAllToolsResult Examples.client None
                (Examples.world Examples.page_with_nil)
                [Examples.tools_page_with_nil] _ 1%nat (usable_example _)
                ltac:(eapply Serves_last; reflexivity) (le_n 1)) as (w' & Hrun & _).
    by exists w'.
  - destruct (listAll_serves ClientAPI.listResourcesMethodName
                (rpcResources Examples.scripted)
                mcp.mkListResourcesParams mcp.Resources mcp.lr_NextCursor
                "failed to list resources: "
                ClientAPI.mkListAllResourcesResult Examples.client None
                (Examples.world Examples.page_with_nil)
                [Examples.resources_page_with_nil] _ 1%nat (usable_example _)
                ltac:(eapply Serves_last; reflexivity) (le_n 1)) as (w' & Hrun & _).
    by exists w'.
  - destruct (listAll_serves ClientAPI.listPromptsMethodName (rpcPrompts Examples.scripted)
                mcp.mkListPromptsParams mcp.Prompts mcp.lp_NextCursor
                "failed to list prompts: "
                ClientAPI.mkListAllPromptsResult Examples.client None
                (Examples.world Examples.page_with_nil)
                [Examples.prompts_page_with_nil] _ 1%nat (usable_example _)
                ltac:(eapply Serves_last; reflexivity) (le_n 1)) as (w' & Hrun & _).
    by exists w'.
Qed.

(** ** [Connect] in the module revision *)

(** Past the guard, the traced call always returns: it hands back the
    answer of the peer and a module with the session it had. *)
Lemma traced_run {S A} (m : ModuleAPI.MCP) (spanName method : string)
    (rpc : S -> (error + A) * S) (w : World S) :
  exists t' w',
    ModuleAPI.traced m spanName method rpc w =
      Ret (fst (rpc (peer w)),
           ModuleAPI.mkMCP (ModuleAPI.session m) (Some t') (ModuleAPI.metrics m)) w' /\
    peer w' = snd (rpc (peer w)).
Proof.
  destruct w as [p vs done smp sp h clk tk]. destruct m as [s [t|] ms].
  all: unfold ModuleAPI.traced, ModuleAPI.getTracer, ModuleAPI.pushRequestMetrics,
         PushIfNotDone, ctx_Err, span_End, time_Since, time_Now, call, vu_State_get,
         bind, ret; simpl.
  all: destruct (rpc p) as [[e|a] s']; destruct vs; simpl; by do 2 eexists.
Qed.

(** A first [Connect] ends with an error and no session, or with no error
    and a session. *)
Lemma Connect_first_outcome {S} (P : mcp.Peer S) (cfg : ModuleAPI.Config)
    (t : option Tracer) (ms : ModuleAPI.mcpMetrics) (w : World S) :
  match ModuleAPI.Connect P cfg (ModuleAPI.mkMCP None t ms) w with
  | Ret (Some _, m') _ => ModuleAPI.session m' = None
  | Ret (None, m') _ => is_Some (ModuleAPI.session m')
  | Panic _ _ => True
  end.
Proof.
  unfold ModuleAPI.Connect, bind. simpl.
  destruct (withBearerToken _ _ _) as [httpClient w1|e w1]; [| exact I].
  destruct (traced_run (ModuleAPI.mkMCP None t ms) ModuleAPI.connectSpanName
              ModuleAPI.connectMethodName
              (fun s => mcp.client_Connect P s ModuleAPI.getContext
                          (mcp.StreamableClientTransport (ModuleAPI.cfg_BaseURL cfg)
                             httpClient)) w1) as (t' & w' & -> & _).
  destruct (fst _) as [e|session]; simpl; [done | by eexists].
Qed.

(** C7.  [Connect] on a module that already has a session returns [nil]
    at once: no HTTP client or transport is built, the peer is not contacted,
    nothing is recorded, and the session stays the one it was, whatever the
    configuration.  In particular a [Connect] that follows a [Connect] that
    succeeded changes neither the module nor the world. *)
Theorem Connect_connected_is_noop :
  forall (S : Type) (P : mcp.Peer S),
    (forall (cfg : ModuleAPI.Config) (session : mcp.ClientSession) (t : option Tracer)
            (ms : ModuleAPI.mcpMetrics) (w : World S),
        ModuleAPI.Connect P cfg (ModuleAPI.mkMCP (Some session) t ms) w =
          Ret (None, ModuleAPI.mkMCP (Some session) t ms) w) /\
    (forall (cfg cfg' : ModuleAPI.Config) (m m1 : ModuleAPI.MCP) (w w1 : World S),
        ModuleAPI.Connect P cfg m w = Ret (None, m1) w1 ->
        ModuleAPI.Connect P cfg' m1 w1 = Ret (None, m1) w1).
Proof.
  intros S P. split; [reflexivity |].
  intros cfg cfg' [[session|] t ms] m1 w w1 Hfirst.
  - injection Hfirst as <- <-. reflexivity.
  - pose proof (Connect_first_outcome P cfg t ms w) as Hout.
    rewrite Hfirst in Hout. destruct m1 as [[session|] t1 ms1]; [reflexivity |].
    by destruct Hout.
Qed.

(** A first [Connect], for contrast: it builds the transport and asks the
    peer to connect it. *)
Example Connect_first_reaches_peer :
  exists m' w',
    ModuleAPI.Connect Examples.recording
      (ModuleAPI.mkConfig "http://localhost:3000/mcp" (ModuleAPI.mkAuthConfig "") false)
      (ModuleAPI.NewModuleInstance ∅) (Examples.world []) = Ret (None, m') w' /\
    ModuleAPI.session m' = Some 1%nat /\
    peer w' = [mcp.StreamableClientTransport "http://localhost:3000/mcp" 1%nat] /\
    map metric_of (samples w') = ["mcp_request_duration"; "mcp_request_count"] /\
    map span_Name (spans w') = ["Connect"].
Proof. vm_compute. do 2 eexists. repeat split. Qed.

(** A second [Connect], with another configuration, after the first. *)
Lemma Connect_connected_is_noop_witness :
  exists m1 w1,
    ModuleAPI.Connect Examples.recording
      (ModuleAPI.mkConfig "http://localhost:3000/mcp" (ModuleAPI.mkAuthConfig "") false)
      (ModuleAPI.NewModuleInstance ∅) (Examples.world []) = Ret (None, m1) w1 /\
    ModuleAPI.Connect Examples.recording
      (ModuleAPI.mkConfig "http://localhost:4000/mcp" (ModuleAPI.mkAuthConfig "T") true)
      m1 w1 = Ret (None, m1) w1.
Proof.
  destruct Connect_first_reaches_peer as (m1 & w1 & Hfirst & _).
  exists m1, w1. split; [exact Hfirst |].
  exact (proj2 (Connect_connected_is_noop (list mcp.Transport) Examples.recording)
           _ _ _ _ _ _ Hfirst).
Defined.

(** ** [Ping] and the other methods of a client *)

(** C8.  [Ping] answers with a boolean and nothing else: [true] when the
    ping request returned no error, [false] for every error.  The six other
    methods hand the answer of the session, error included, back as it
    came. *)
Theorem Ping_alone_collapses_errors {S} (P : mcp.Peer S) (c : ClientAPI.Client)
    (w : World S) :
  usable c w ->
  ClientAPI.Ping P c w =
    Ret (is_nil (fst (mcp.session_Ping P (peer w) (ClientAPI.ctx c))))
        (set_peer (snd (mcp.session_Ping P (peer w) (ClientAPI.ctx c))) w) /\
  (forall r, exists w',
      ClientAPI.ListTools P c r w =
        Ret (fst (mcp.session_ListTools P (peer w) (ClientAPI.ctx c) r)) w') /\
  (forall r, exists w',
      ClientAPI.CallTool P c r w =
        Ret (fst (mcp.session_CallTool P (peer w) (ClientAPI.ctx c) r)) w') /\
  (forall r, exists w',
      ClientAPI.ListResources P c r w =
        Ret (fst (mcp.session_ListResources P (peer w) (ClientAPI.ctx c) r)) w') /\
  (forall r, exists w',
      ClientAPI.ReadResource P c r w =
        Ret (fst (mcp.session_ReadResource P (peer w) (ClientAPI.ctx c) r)) w') /\
  (forall r, exists w',
      ClientAPI.ListPrompts P c r w =
        Ret (fst (mcp.session_ListPrompts P (peer w) (ClientAPI.ctx c) r)) w') /\
  (forall r, exists w',
      ClientAPI.GetPrompt P c r w =
        Ret (fst (mcp.session_GetPrompt P (peer w) (ClientAPI.ctx c) r)) w').
Proof.
  intros Hu. split.
  - destruct Hu as ([sess Hs] & _).
    unfold ClientAPI.Ping, ClientAPI.the_session, call, bind, ret. rewrite Hs.
    destruct (mcp.session_Ping P (peer w) (ClientAPI.ctx c)) as [[e|] s']; reflexivity.
  - repeat split; intros r.
    all: match goal with
         | |- exists w', _ = Ret (fst ?call) w' => destruct call as [a s'] eqn:Hrpc
         end.
    all: unfold ClientAPI.ListTools, ClientAPI.CallTool, ClientAPI.ListResources,
           ClientAPI.ReadResource, ClientAPI.ListPrompts, ClientAPI.GetPrompt.
    all: match goal with
         | |- exists w', ClientAPI.instrumented _ ?m ?rpc ?w0 = _ =>
             destruct (instrumented_run c m rpc w0 a s' Hu Hrpc) as (w' & Hrun & _);
             exists w'; exact Hrun
         end.
Qed.

(** A ping that succeeds, and a tool call that fails with the error of
    the peer. *)
Lemma Ping_alone_collapses_errors_witness :
  ClientAPI.Ping Examples.scripted Examples.client (Examples.world Examples.two_pages) =
    Ret true (Examples.world Examples.two_pages) /\
  exists w',
    ClientAPI.CallTool Examples.scripted Examples.client
      (mcp.mkCallToolParams "myToolbad" ∅) (Examples.world Examples.two_pages) =
      Ret (inl (errors_New "method not found")) w'.
Proof.
  destruct (Ping_alone_collapses_errors Examples.scripted Examples.client
              (Examples.world Examples.two_pages) (usable_example _))
    as (Hping & _ & Hcall & _).
  split; [exact Hping | exact (Hcall (mcp.mkCallToolParams "myToolbad" ∅))].
Defined.

(** ** The bearer token *)

Section BearerToken.
Implicit Types (h : list Object) (bt : http.Transport) (tok : oauth2.Token).

Lemma lookup_app_plus {A} (l1 l2 : list A) (k : nat) :
  (l1 ++ l2) !! (List.length l1 + k)%nat = l2 !! k.
Proof. rewrite lookup_app_r by lia. f_equal. lia. Qed.

Lemma base_heap_length h bt timeout :
  List.length (base_heap h bt timeout) = Datatypes.S (Datatypes.S (List.length h)).
Proof. unfold base_heap. rewrite length_app. simpl. lia. Qed.

Lemma auth_heap_length h bt timeout tok cache :
  List.length (auth_heap h bt timeout tok cache)
  = Datatypes.S (Datatypes.S (List.length h + 2))%nat.
Proof. unfold auth_heap. rewrite length_app. simpl. lia. Qed.

(** Through the base client a request goes out as it is. *)
Lemma Client_Do_base h bt timeout req :
  Client_Do (base_heap h bt timeout) (List.length h + 1)%nat req
  = Some (req, base_heap h bt timeout).
Proof.
  unfold Client_Do. rewrite base_heap_length.
  unfold base_heap at 1. rewrite lookup_app_plus. simpl.
  unfold base_heap at 1.
  rewrite <- (Nat.add_0_r (List.length h)) at 1. rewrite lookup_app_plus. reflexivity.
Qed.

Lemma Authorization_header (T : string) (req : http.Request) :
  http.req_Header (oauth2.SetAuthHeader (oauth2.mkToken T "") req) !! "Authorization"
  = Some ["Bearer " +:+ T].
Proof. unfold oauth2.SetAuthHeader, http.Header_Set. simpl. by rewrite lookup_insert_eq. Qed.

Lemma RoundTrip_http fuel h a t req :
  h !! a = Some (ObjHTTPTransport t) ->
  RoundTrip (Datatypes.S fuel) h a req = Some (req, h).
Proof. intros Ha. simpl. by rewrite Ha. Qed.

Lemma RoundTrip_oauth2 fuel h a t req tok src' :
  h !! a = Some (ObjOAuth2Transport t) ->
  oauth2.TokenSource_Token (oauth2.Source t) = (tok, src') ->
  RoundTrip (Datatypes.S fuel) h a req
  = RoundTrip fuel (<[a := ObjOAuth2Transport (oauth2.mkTransport src' (oauth2.Base t))]> h)
      (oauth2.Base t) (oauth2.SetAuthHeader tok req).
Proof. intros Ha Htok. simpl. by rewrite Ha, Htok. Qed.

Lemma auth_heap_client h bt timeout tok cache :
  auth_heap h bt timeout tok cache !! (List.length h + 3)%nat
  = Some (ObjHTTPClient (http.mkClient (List.length h + 2)%nat timeout)).
Proof. unfold auth_heap. by rewrite lookup_app_plus. Qed.

Lemma auth_heap_oauth2 h bt timeout tok cache :
  auth_heap h bt timeout tok cache !! (List.length h + 2)%nat
  = Some (ObjOAuth2Transport
            (oauth2.mkTransport
               (oauth2.reuseTokenSource cache (oauth2.StaticTokenSource tok))
               (List.length h))).
Proof. unfold auth_heap. by rewrite lookup_app_plus. Qed.

Lemma auth_heap_base h bt timeout tok cache :
  auth_heap h bt timeout tok cache !! List.length h = Some (ObjHTTPTransport bt).
Proof.
  unfold auth_heap. rewrite <- (Nat.add_0_r (List.length h)) at 1.
  by rewrite lookup_app_plus.
Qed.

(** A static token that is not empty is handed out on every request,
    first by the static source and then from the cache. *)
Lemma static_token_reused (T : string) cache :
  T <> "" ->
  cache = None \/ cache = Some (oauth2.mkToken T "") ->
  oauth2.TokenSource_Token
    (oauth2.reuseTokenSource cache (oauth2.StaticTokenSource (oauth2.mkToken T "")))
  = (oauth2.mkToken T "",
     oauth2.reuseTokenSource (Some (oauth2.mkToken T ""))
       (oauth2.StaticTokenSource (oauth2.mkToken T ""))).
Proof.
  intros HT [-> | ->]; [reflexivity |]. simpl.
  by destruct (String.eqb_spec T "").
Qed.

(** Through the client around the [oauth2.Transport] a request goes out
    with the header of the token, and only the cache of the token source
    changes in the heap. *)
Lemma Client_Do_auth h bt timeout (T : string) cache req :
  T <> "" ->
  cache = None \/ cache = Some (oauth2.mkToken T "") ->
  Client_Do (auth_heap h bt timeout (oauth2.mkToken T "") cache) (List.length h + 3)%nat req
  = Some (oauth2.SetAuthHeader (oauth2.mkToken T "") req,
          auth_heap h bt timeout (oauth2.mkToken T "") (Some (oauth2.mkToken T ""))).
Proof.
  intros HT Hcache.
  unfold Client_Do. rewrite auth_heap_client, auth_heap_length.
  cbn [http.client_Transport].
  erewrite RoundTrip_oauth2;
    [| apply auth_heap_oauth2 | apply (static_token_reused T cache HT Hcache)].
  cbn [oauth2.Base].
  replace (<[(List.length h + 2)%nat := _]> (auth_heap h bt timeout _ cache))
    with (auth_heap h bt timeout (oauth2.mkToken T "") (Some (oauth2.mkToken T "")))
    by (unfold auth_heap; by rewrite insert_app_r).
  apply RoundTrip_http with (t := bt). apply auth_heap_base.
Qed.

Lemma Do_all_base h bt timeout reqs :
  Do_all (base_heap h bt timeout) (List.length h + 1)%nat reqs
  = Some (reqs, base_heap h bt timeout).
Proof.
  induction reqs as [|req reqs IH]; [done |].
  cbn [Do_all]. by rewrite Client_Do_base, IH.
Qed.

Lemma Do_all_auth h bt timeout (T : string) cache reqs :
  T <> "" ->
  cache = None \/ cache = Some (oauth2.mkToken T "") ->
  exists cache',
    Do_all (auth_heap h bt timeout (oauth2.mkToken T "") cache) (List.length h + 3)%nat reqs
    = Some (map (oauth2.SetAuthHeader (oauth2.mkToken T "")) reqs,
            auth_heap h bt timeout (oauth2.mkToken T "") cache').
Proof.
  intros HT. revert cache. induction reqs as [|req reqs IH]; intros cache Hcache.
  - by exists cache.
  - cbn [Do_all]. rewrite (Client_Do_auth _ _ _ _ cache) by done.
    destruct (IH (Some (oauth2.mkToken T ""))) as [cache' ->]; [by right |].
    by exists cache'.
Qed.

Lemma auth_heap_keeps_base h bt timeout tok cache :
  take (List.length h + 2)%nat (auth_heap h bt timeout tok cache) = base_heap h bt timeout.
Proof.
  unfold auth_heap, base_heap. rewrite take_app_add'; [| done]. reflexivity.
Qed.

End BearerToken.

Section NewK6HTTPClient.
Context {S : Type}.
Implicit Types (w : World S) (cfg : ClientAPI.ClientConfig).

Lemma withBearerToken_empty (httpClient : addr) w :
  withBearerToken "" httpClient w = Ret httpClient w.
Proof. reflexivity. Qed.

(** The base client [newk6HTTPClient] builds before it looks at the token. *)
Lemma newk6HTTPClient_base cfg w st d :
  vu_State w = Some st ->
  state_Dialer st = Some d ->
  exists bt,
    http.DialContext bt = Some d /\
    ClientAPI.newk6HTTPClient cfg w =
      withBearerToken (ClientAPI.BearerToken (ClientAPI.cfg_Auth cfg))
        (List.length (heap w) + 1)%nat
        (set_heap (base_heap (heap w) bt (ClientAPI.cfg_Timeout cfg)) w).
Proof.
  intros Hst Hd.
  unfold ClientAPI.newk6HTTPClient, vu_State_deref, Dialer_DialContext, new, alloc, bind.
  rewrite Hst. simpl. rewrite Hd. simpl. eexists. split.
  2: { rewrite length_app, <- app_assoc. simpl. unfold base_heap. reflexivity. }
  reflexivity.
Qed.

Lemma withBearerToken_token (T : string) h bt timeout w :
  T <> "" ->
  heap w = base_heap h bt timeout ->
  withBearerToken T (List.length h + 1)%nat w =
    Ret (List.length h + 3)%nat
        (set_heap (auth_heap h bt timeout (oauth2.mkToken T "") None) w).
Proof.
  intros HT Hheap. unfold withBearerToken.
  rewrite (eqb_empty T HT). cbn [negb]. unfold NewClient, alloc. rewrite Hheap.
  unfold base_heap at 1. rewrite lookup_app_plus. cbn [lookup list_lookup].
  rewrite length_app, base_heap_length.
  replace (Datatypes.S (Datatypes.S (List.length h))) with (List.length h + 2)%nat by lia.
  unfold base_heap, auth_heap. rewrite <- !app_assoc. cbn.
  f_equal. lia.
Qed.

End NewK6HTTPClient.

(** C6.  With an empty bearer token the block that wraps the HTTP client
    returns the client it was given and changes nothing, so
    [newk6HTTPClient], where it gets as far as building a base client (the
    virtual user has a state and the state a dialer), returns that base client
    and requests go out through it as they are.  With a token [T] that is
    not empty,
    [newk6HTTPClient] returns a new client over an [oauth2.Transport] whose
    source is the static source of [T]: every request sent through it goes
    out with the header [Authorization: Bearer T], and in every heap along
    the way the base transport and the base client are the objects they were
    when built. *)
Theorem bearer_token_on_every_request {S} (cfg : ClientAPI.ClientConfig) (w : World S)
    (st : State) (d : string) :
  vu_State w = Some st ->
  state_Dialer st = Some d ->
  exists bt : http.Transport,
    (forall httpClient (w0 : World S), withBearerToken "" httpClient w0 = Ret httpClient w0) /\
    (ClientAPI.BearerToken (ClientAPI.cfg_Auth cfg) = "" ->
     ClientAPI.newk6HTTPClient cfg w =
       Ret (List.length (heap w) + 1)%nat
           (set_heap (base_heap (heap w) bt (ClientAPI.cfg_Timeout cfg)) w) /\
     forall reqs,
       Do_all (base_heap (heap w) bt (ClientAPI.cfg_Timeout cfg))
         (List.length (heap w) + 1)%nat reqs
       = Some (reqs, base_heap (heap w) bt (ClientAPI.cfg_Timeout cfg))) /\
    (ClientAPI.BearerToken (ClientAPI.cfg_Auth cfg) <> "" ->
     ClientAPI.newk6HTTPClient cfg w =
       Ret (List.length (heap w) + 3)%nat
           (set_heap
              (auth_heap (heap w) bt (ClientAPI.cfg_Timeout cfg)
                 (oauth2.mkToken (ClientAPI.BearerToken (ClientAPI.cfg_Auth cfg)) "") None)
              w) /\
     (forall reqs, exists cache,
         Do_all
           (auth_heap (heap w) bt (ClientAPI.cfg_Timeout cfg)
              (oauth2.mkToken (ClientAPI.BearerToken (ClientAPI.cfg_Auth cfg)) "") None)
           (List.length (heap w) + 3)%nat reqs
         = Some (map (oauth2.SetAuthHeader
                        (oauth2.mkToken (ClientAPI.BearerToken (ClientAPI.cfg_Auth cfg)) ""))
                   reqs,
                 auth_heap (heap w) bt (ClientAPI.cfg_Timeout cfg)
                   (oauth2.mkToken (ClientAPI.BearerToken (ClientAPI.cfg_Auth cfg)) "")
                   cache)) /\
     (forall req,
         http.req_Header
           (oauth2.SetAuthHeader
              (oauth2.mkToken (ClientAPI.BearerToken (ClientAPI.cfg_Auth cfg)) "") req)
           !! "Authorization"
         = Some ["Bearer " +:+ ClientAPI.BearerToken (ClientAPI.cfg_Auth cfg)]) /\
     (forall cache,
         take (List.length (heap w) + 2)%nat
           (auth_heap (heap w) bt (ClientAPI.cfg_Timeout cfg)
              (oauth2.mkToken (ClientAPI.BearerToken (ClientAPI.cfg_Auth cfg)) "") cache)
         = base_heap (heap w) bt (ClientAPI.cfg_Timeout cfg))).
Proof.
  intros Hst Hd. destruct (newk6HTTPClient_base cfg w st d Hst Hd) as (bt & _ & Hbase).
  exists bt. split; [intros; apply withBearerToken_empty |]. split.
  - intros Hempty. rewrite Hbase, Hempty. split; [reflexivity | apply Do_all_base].
  - intros HT. rewrite Hbase. split; [| split; [| split]].
    + by rewrite (withBearerToken_token _ (heap w) bt (ClientAPI.cfg_Timeout cfg)).
    + intros reqs. apply Do_all_auth; [done | by left].
    + apply Authorization_header.
    + intros cache. apply auth_heap_keeps_base.
Qed.

(** Two requests through the client built for the token [T]. *)
Lemma bearer_token_on_every_request_witness :
  exists w',
    ClientAPI.newk6HTTPClient Examples.cfg_token_only (Examples.world tt) = Ret 3%nat w' /\
    exists h',
      Do_all (heap w') 3%nat [Examples.post "/mcp"; Examples.post "/mcp"]
      = Some ([http.mkRequest "POST" "/mcp" {[ "Authorization" := ["Bearer T"] ]};
               http.mkRequest "POST" "/mcp" {[ "Authorization" := ["Bearer T"] ]}], h').
Proof.
  destruct (bearer_token_on_every_request Examples.cfg_token_only (Examples.world tt)
              Examples.vu_state "k6" eq_refl eq_refl) as (bt & _ & _ & Htoken).
  destruct (Htoken ltac:(discriminate)) as (Hrun & Hall & _ & _).
  eexists. split; [exact Hrun |].
  destruct (Hall [Examples.post "/mcp"; Examples.post "/mcp"]) as [cache Hdo].
  eexists. exact Hdo.
Defined.

(** ** The constructors *)

Section Constructors.
Context {S : Type} (P : mcp.Peer S) (os : exec.OS).
Implicit Types (w : World S) (cfg : ClientAPI.ClientConfig).

Lemma newk6HTTPClient_returns cfg w st d :
  vu_State w = Some st ->
  state_Dialer st = Some d ->
  exists httpClient h1,
    ClientAPI.newk6HTTPClient cfg w = Ret httpClient (set_heap (heap w ++ h1) w) /\
    (exists cl, (heap w ++ h1) !! httpClient = Some (ObjHTTPClient cl)) /\
    (exists bt, (heap w ++ h1) !! List.length (heap w) = Some (ObjHTTPTransport bt) /\
                http.DialContext bt = Some d).
Proof.
  intros Hst Hd. destruct (newk6HTTPClient_base cfg w st d Hst Hd) as (bt & Hbt & ->).
  destruct (String.eqb_spec (ClientAPI.BearerToken (ClientAPI.cfg_Auth cfg)) "") as [-> | HT].
  - rewrite withBearerToken_empty. unfold base_heap.
    eexists _, _. split; [reflexivity |]. split.
    + rewrite lookup_app_plus. by eexists.
    + exists bt. split; [| exact Hbt].
      rewrite <- (Nat.add_0_r (List.length (heap w))) at 1. by rewrite lookup_app_plus.
  - erewrite withBearerToken_token; [| done | done]. unfold auth_heap.
    eexists _, _. split; [reflexivity |]. split.
    + rewrite lookup_app_plus. by eexists.
    + exists bt. split; [| exact Hbt].
      rewrite <- (Nat.add_0_r (List.length (heap w))) at 1. by rewrite lookup_app_plus.
Qed.

(** Without a state, or with a state that has no dialer, [newk6HTTPClient]
    panics before it has built anything. *)
Lemma newk6HTTPClient_panics cfg w :
  match vu_State w with
  | Some st => state_Dialer st = None
  | None => True
  end ->
  ClientAPI.newk6HTTPClient cfg w = Panic nil_dereference w.
Proof.
  unfold ClientAPI.newk6HTTPClient, vu_State_deref, Dialer_DialContext, bind, panic.
  destruct (vu_State w) as [st|]; [| done].
  by intros ->.
Qed.

Lemma connect_wrapClient (t : mcp.Transport) (isSSE : bool) w :
  bind (ClientAPI.connect P t isSSE) ClientAPI.wrapClient w
  = connected (mcp.client_Connect P (peer w) VUContext t) w.
Proof.
  unfold ClientAPI.connect, ClientAPI.wrapClient, connected, call, vu_State_get,
    common_Throw, panic, bind, ret.
  by destruct (mcp.client_Connect P (peer w) VUContext t) as [[e|session] s'].
Qed.

Lemma newSSEClient_steps cfg w :
  ClientAPI.newSSEClient P (inr cfg) w
  = match ClientAPI.newk6HTTPClient cfg w with
    | Ret httpClient w1 =>
        connected
          (mcp.client_Connect P (peer w1) VUContext
             (mcp.SSEClientTransport (ClientAPI.cfg_BaseURL cfg) httpClient)) w1
    | Panic e w1 => Panic e w1
    end.
Proof.
  change (ClientAPI.newSSEClient P (inr cfg) w)
    with (bind (ClientAPI.newk6HTTPClient cfg)
            (fun httpClient =>
               bind (ClientAPI.connect P
                       (mcp.SSEClientTransport (ClientAPI.cfg_BaseURL cfg) httpClient) true)
                 ClientAPI.wrapClient) w).
  unfold bind at 1.
  destruct (ClientAPI.newk6HTTPClient cfg w); [apply connect_wrapClient | reflexivity].
Qed.

Lemma newStreamableHTTPClient_steps cfg w :
  ClientAPI.newStreamableHTTPClient P (inr cfg) w
  = match ClientAPI.newk6HTTPClient cfg w with
    | Ret httpClient w1 =>
        connected
          (mcp.client_Connect P (peer w1) VUContext
             (mcp.StreamableClientTransport (ClientAPI.cfg_BaseURL cfg) httpClient)) w1
    | Panic e w1 => Panic e w1
    end.
Proof.
  change (ClientAPI.newStreamableHTTPClient P (inr cfg) w)
    with (bind (ClientAPI.newk6HTTPClient cfg)
            (fun httpClient =>
               bind (ClientAPI.connect P
                       (mcp.StreamableClientTransport (ClientAPI.cfg_BaseURL cfg) httpClient)
                       false)
                 ClientAPI.wrapClient) w).
  unfold bind at 1.
  destruct (ClientAPI.newk6HTTPClient cfg w); [apply connect_wrapClient | reflexivity].
Qed.

(** A client that a constructor returns inside an iteration is usable. *)
Lemma constructed_client_usable (r : (error + mcp.ClientSession) * S) w c w' :
  is_Some (vu_State w) ->
  connected r w = Ret c w' ->
  usable c w'.
Proof.
  intros [st Hst] Hret. unfold connected in Hret. rewrite Hst in Hret.
  destruct r as [[e|session] s']; [discriminate |].
  injection Hret as <- <-. unfold usable. simpl. rewrite Hst.
  repeat split; by eauto.
Qed.

Lemma connected_Ret (r : (error + mcp.ClientSession) * S) w c w' :
  connected r w = Ret c w' ->
  exists session, fst r = inr session /\
    c = ClientAPI.mkClient (Some session)
          (match vu_State w with Some _ => Some ClientAPI.vuState | None => None end)
          VUContext /\
    w' = set_peer (snd r) w.
Proof.
  unfold connected. destruct r as [[e|session] s']; [discriminate |].
  intros Hret. injection Hret as <- <-. by exists session.
Qed.

Lemma newStdioClient_steps cfg w :
  ClientAPI.newStdioClient P os (inr cfg) w
  = connected
      (mcp.client_Connect P (peer w) VUContext
         (mcp.CommandTransport (ClientAPI.stdioCommand os cfg))) w.
Proof.
  unfold ClientAPI.newStdioClient, ClientAPI.exportConfig.
  unfold bind at 1. unfold ret at 1. apply connect_wrapClient.
Qed.

(** What a constructor returns is a client with a session. *)
Lemma constructed_client_has_session (arg0 : error + ClientAPI.ClientConfig) w c w' :
  ClientAPI.newStdioClient P os arg0 w = Ret c w' \/
  ClientAPI.newSSEClient P arg0 w = Ret c w' \/
  ClientAPI.newStreamableHTTPClient P arg0 w = Ret c w' ->
  is_Some (ClientAPI.session c).
Proof.
  destruct arg0 as [err|cfg]; [by intros [H | [H | H]] |].
  rewrite newStdioClient_steps, newSSEClient_steps, newStreamableHTTPClient_steps.
  intros [H | [H | H]].
  - destruct (connected_Ret _ _ _ _ H) as (session & _ & -> & _). by eexists.
  - destruct (ClientAPI.newk6HTTPClient cfg w) as [a w1|e w1]; [| discriminate].
    destruct (connected_Ret _ _ _ _ H) as (session & _ & -> & _). by eexists.
  - destruct (ClientAPI.newk6HTTPClient cfg w) as [a w1|e w1]; [| discriminate].
    destruct (connected_Ret _ _ _ _ H) as (session & _ & -> & _). by eexists.
Qed.

End Constructors.

(** C9, as the code has it.  The constructors check nothing in the
    configuration.  They throw [invalid config: ...] only when the argument
    cannot be converted to a [ClientConfig], and then nothing else happens.
    For every configuration that was converted, an empty [Path] or [BaseURL]
    included: [newStdioClient] builds the command and asks the SDK to connect
    it; [newSSEClient] and [newStreamableHTTPClient] first build the HTTP
    client, which panics on a [nil] dereference, with nothing built and
    nothing attempted, when the virtual user has no state or its state has no
    dialer, and otherwise ask the SDK to connect the transport over that
    client.  A constructor that asked the SDK to connect fails exactly when
    the SDK answers with an error, with [connection error: ...] around that
    error; otherwise it returns a client with the session the SDK gave. *)
Theorem constructors_fail_on_export_or_connect_only :
  forall (S : Type) (P : mcp.Peer S) (os : exec.OS) (w : World S),
    (forall err,
        ClientAPI.newStdioClient P os (inl err) w
        = Panic (fmt_Errorf_w "invalid config: " err) w /\
        ClientAPI.newSSEClient P (inl err) w = Panic (fmt_Errorf_w "invalid config: " err) w /\
        ClientAPI.newStreamableHTTPClient P (inl err) w
        = Panic (fmt_Errorf_w "invalid config: " err) w) /\
    (forall cfg,
        ClientAPI.newStdioClient P os (inr cfg) w
        = connected
            (mcp.client_Connect P (peer w) VUContext
               (mcp.CommandTransport (ClientAPI.stdioCommand os cfg))) w) /\
    (forall cfg,
        match vu_State w with
        | None =>
            ClientAPI.newSSEClient P (inr cfg) w = Panic nil_dereference w /\
            ClientAPI.newStreamableHTTPClient P (inr cfg) w = Panic nil_dereference w
        | Some st =>
            match state_Dialer st with
            | None =>
                ClientAPI.newSSEClient P (inr cfg) w = Panic nil_dereference w /\
                ClientAPI.newStreamableHTTPClient P (inr cfg) w = Panic nil_dereference w
            | Some _ =>
                exists httpClient h1,
                  ClientAPI.newk6HTTPClient cfg w = Ret httpClient (set_heap (heap w ++ h1) w) /\
                  (exists cl, (heap w ++ h1) !! httpClient = Some (ObjHTTPClient cl)) /\
                  ClientAPI.newSSEClient P (inr cfg) w
                  = connected
                      (mcp.client_Connect P (peer w) VUContext
                         (mcp.SSEClientTransport (ClientAPI.cfg_BaseURL cfg) httpClient))
                      (set_heap (heap w ++ h1) w) /\
                  ClientAPI.newStreamableHTTPClient P (inr cfg) w
                  = connected
                      (mcp.client_Connect P (peer w) VUContext
                         (mcp.StreamableClientTransport (ClientAPI.cfg_BaseURL cfg)
                            httpClient))
                      (set_heap (heap w ++ h1) w)
            end
        end) /\
    (forall (r : (error + mcp.ClientSession) * S) (w1 : World S),
        match connected r w1 with
        | Ret c w' =>
            exists session, fst r = inr session /\ ClientAPI.session c = Some session /\
                            w' = set_peer (snd r) w1
        | Panic e w' =>
            exists inner, fst r = inl inner /\
                          e = fmt_Errorf_w "connection error: " inner /\
                          w' = set_peer (snd r) w1
        end).
Proof.
  intros S P os w. split; [done |]. split; [| split].
  - intros cfg. unfold ClientAPI.newStdioClient, ClientAPI.exportConfig.
    unfold bind at 1. unfold ret at 1. apply connect_wrapClient.
  - intros cfg. destruct (vu_State w) as [st|] eqn:Hst.
    + destruct (state_Dialer st) as [d|] eqn:Hd.
      * destruct (newk6HTTPClient_returns cfg w st d Hst Hd)
          as (httpClient & h1 & Hrun & Hcl & _).
        exists httpClient, h1. split; [exact Hrun |]. split; [exact Hcl |].
        rewrite newSSEClient_steps, newStreamableHTTPClient_steps, Hrun.
        split; reflexivity.
      * rewrite newSSEClient_steps, newStreamableHTTPClient_steps.
        rewrite newk6HTTPClient_panics; [done |]. by rewrite Hst.
    + rewrite newSSEClient_steps, newStreamableHTTPClient_steps.
      rewrite newk6HTTPClient_panics; [done |]. by rewrite Hst.
  - intros [[e|session] s'] w1; simpl; by eexists.
Qed.

(** C9, as the specification words it, fails.  With an empty [Path] the
    command transport is built and handed to the SDK, and the call fails
    with the error of the connection attempt, not with a configuration
    error; with an empty [BaseURL] the HTTP client and the transport are built
    and handed over in the same way. *)
Lemma empty_configuration_reaches_connect :
  (exists w',
      ClientAPI.newStdioClient Examples.recording Examples.unix
        (inr Examples.cfg_token_only) (Examples.world [])
      = Panic (fmt_Errorf_w "connection error: " (errors_New "exec: no command")) w' /\
      peer w' = [mcp.CommandTransport (exec.mkCmd "" [""] None false None)]) /\
  (exists w',
      ClientAPI.newSSEClient Examples.recording (inr Examples.cfg_token_only)
        (Examples.world [])
      = Panic (fmt_Errorf_w "connection error: " (errors_New "unsupported protocol scheme"))
          w' /\
      peer w' = [mcp.SSEClientTransport "" 3%nat] /\ List.length (heap w') = 4%nat) /\
  (exists w',
      ClientAPI.newStreamableHTTPClient Examples.recording (inr Examples.cfg_token_only)
        (Examples.world [])
      = Panic (fmt_Errorf_w "connection error: " (errors_New "unsupported protocol scheme"))
          w' /\
      peer w' = [mcp.StreamableClientTransport "" 3%nat] /\
      List.length (heap w') = 4%nat) /\
  ~ isConfigError (fmt_Errorf_w "connection error: " (errors_New "exec: no command")) /\
  ~ isConfigError
      (fmt_Errorf_w "connection error: " (errors_New "unsupported protocol scheme")).
Proof.
  split; [| split; [| split; [| split]]].
  - vm_compute. eexists. split; reflexivity.
  - vm_compute. eexists. split; [reflexivity | split; reflexivity].
  - vm_compute. eexists. split; [reflexivity | split; reflexivity].
  - intros [inner Hinner]. discriminate Hinner.
  - intros [inner Hinner]. discriminate Hinner.
Qed.

(** ** Calls without a session *)

Section WithoutSession.
Context {S : Type} (P : mcp.Peer S).
Implicit Types (w : World S) (c : ClientAPI.Client).

Lemma Ping_no_session c w :
  ClientAPI.session c = None -> ClientAPI.Ping P c w = Panic nil_dereference w.
Proof.
  intros Hs. unfold ClientAPI.Ping, ClientAPI.the_session, bind, panic. by rewrite Hs.
Qed.

Lemma listAll_no_session {PT RT T Result : Type} (method : string)
    (rpc : Context -> PT -> S -> (error + RT) * S) (mkParams : mcp.Meta -> string -> PT)
    (items : RT -> list (option T)) (NextCursor : RT -> string) (failed : string)
    (mkResult : list T -> Result) fuel c r_Meta w :
  ClientAPI.session c = None ->
  ClientAPI.listAll method rpc mkParams items NextCursor failed mkResult
    (Datatypes.S fuel) c r_Meta w
  = Some (Panic nil_dereference (set_ticks (Datatypes.S (ticks w)) w)).
Proof.
  intros Hs. unfold ClientAPI.listAll. cbn [ClientAPI.listAll_loop].
  by rewrite instrumented_no_session.
Qed.

End WithoutSession.

(** C5, as the code has it.  The guard exists in the module revision only,
    and with another message: [ListTools] and [CallTool] called while
    [m.session] is [nil] return the error [must call `Connect()` before
    calling `ListTools()`] (or [`CallTool()`]) and touch nothing: the peer is
    not contacted, no sample and no span is recorded, the module is
    unchanged.  A module starts in that state and a [Connect] that returns an
    error leaves it there; there is no [Close].  The methods of a [Client]
    have no guard: on a client without session [Ping], the six instrumented
    methods and the three aggregate ones panic on the [nil] session; nothing
    reaches the peer and no sample is sent, an instrumented call has only read
    the clock once.  No constructor returns such a client. *)
Theorem calls_without_session_touch_nothing :
  forall (S : Type) (P : mcp.Peer S) (w : World S),
    (forall (t : option Tracer) (ms : ModuleAPI.mcpMetrics),
        (forall params,
            ModuleAPI.ListTools P params (ModuleAPI.mkMCP None t ms) w =
              Ret (inl (errors_New "must call `Connect()` before calling `ListTools()`"),
                   ModuleAPI.mkMCP None t ms) w) /\
        (forall params,
            ModuleAPI.CallTool P params (ModuleAPI.mkMCP None t ms) w =
              Ret (inl (errors_New "must call `Connect()` before calling `CallTool()`"),
                   ModuleAPI.mkMCP None t ms) w) /\
        (forall cfg,
            match ModuleAPI.Connect P cfg (ModuleAPI.mkMCP None t ms) w with
            | Ret (Some _, m') _ => ModuleAPI.session m' = None
            | Ret (None, m') _ => is_Some (ModuleAPI.session m')
            | Panic _ _ => True
            end)) /\
    (forall tags, ModuleAPI.session (ModuleAPI.NewModuleInstance tags) = None) /\
    (forall (k6_state : option ClientAPI.StateRef) (ctx : Context),
        let c := sessionless k6_state ctx in
        let w' := set_ticks (Datatypes.S (ticks w)) w in
        ClientAPI.Ping P c w = Panic nil_dereference w /\
        (forall r, ClientAPI.ListTools P c r w = Panic nil_dereference w') /\
        (forall r, ClientAPI.CallTool P c r w = Panic nil_dereference w') /\
        (forall r, ClientAPI.ListResources P c r w = Panic nil_dereference w') /\
        (forall r, ClientAPI.ReadResource P c r w = Panic nil_dereference w') /\
        (forall r, ClientAPI.ListPrompts P c r w = Panic nil_dereference w') /\
        (forall r, ClientAPI.GetPrompt P c r w = Panic nil_dereference w') /\
        (forall r fuel,
            ClientAPI.ListAllTools P (Datatypes.S fuel) c r w
            = Some (Panic nil_dereference w')) /\
        (forall r fuel,
            ClientAPI.ListAllResources P (Datatypes.S fuel) c r w
            = Some (Panic nil_dereference w')) /\
        (forall r fuel,
            ClientAPI.ListAllPrompts P (Datatypes.S fuel) c r w
            = Some (Panic nil_dereference w')) /\
        peer w' = peer w /\ samples w' = samples w /\ spans w' = spans w /\
        heap w' = heap w) /\
    (forall (os : exec.OS) (arg0 : error + ClientAPI.ClientConfig) c w1,
        ClientAPI.newStdioClient P os arg0 w = Ret c w1 \/
        ClientAPI.newSSEClient P arg0 w = Ret c w1 \/
        ClientAPI.newStreamableHTTPClient P arg0 w = Ret c w1 ->
        is_Some (ClientAPI.session c)).
Proof.
  intros S P w. split; [| split; [done |]; split].
  - intros t ms. split; [done |]. split; [done |].
    intros cfg. apply Connect_first_outcome.
  - intros k6_state ctx c w'.
    split; [by apply Ping_no_session |].
    do 6 (split; [intros r; by apply instrumented_no_session |]).
    do 3 (split; [intros r fuel; by apply listAll_no_session |]).
    by destruct w.
  - intros os arg0 c w1. apply constructed_client_has_session.
Qed.

(** C5, as the specification words it, fails: a method of a [Client]
    without session does not return an error, it panics; and the error of the
    module revision is not of the form [must connect before calling
    <method>]. *)
Lemma Client_without_session_panics :
  (exists w',
      ClientAPI.CallTool Examples.echo (sessionless (Some ClientAPI.vuState) VUContext)
        (mcp.mkCallToolParams "myTool" ∅) (Examples.world tt)
      = Panic nil_dereference w') /\
  ClientAPI.Ping Examples.echo (sessionless (Some ClientAPI.vuState) VUContext)
    (Examples.world tt)
  = Panic nil_dereference (Examples.world tt) /\
  (exists e m,
      ModuleAPI.ListTools Examples.echo (mcp.mkListToolsParams None "")
        (ModuleAPI.NewModuleInstance ∅) (Examples.world tt)
      = Ret (inl e, m) (Examples.world tt) /\
      Error e = "must call `Connect()` before calling `ListTools()`" /\
      Error e <> "must connect before calling ListTools").
Proof.
  split; [| split].
  - vm_compute. by eexists.
  - reflexivity.
  - eexists _, _. split; [reflexivity |]. split; [reflexivity | discriminate].
Qed.

(** * Further properties of the code *)

(** ** The command of a stdio client *)

Lemma append_Env_fold (l : list string) (env : option (list string)) :
  fold_left exec.append_Env l env
  = match l with
    | [] => env
    | _ => Some (default [] env ++ l)
    end.
Proof.
  revert env. induction l as [|s l IH]; intros env; [reflexivity |].
  simpl. rewrite IH. destruct l as [|s' l]; destruct env as [e|]; simpl;
    by rewrite <- ?app_assoc.
Qed.

Lemma add_env_fold (env : list (string * string)) (cmd : exec.Cmd) :
  fold_left
    (fun cmd kv =>
       exec.mkCmd (exec.Path cmd) (exec.Args cmd)
         (exec.append_Env (exec.Env cmd) (fst kv +:+ "=" +:+ snd kv))
         (exec.Stderr cmd) (exec.Err cmd))
    env cmd
  = exec.mkCmd (exec.Path cmd) (exec.Args cmd)
      (fold_left exec.append_Env (map (fun kv => fst kv +:+ "=" +:+ snd kv) env)
         (exec.Env cmd))
      (exec.Stderr cmd) (exec.Err cmd).
Proof.
  revert cmd. induction env as [|kv env IH]; intros cmd; simpl.
  - by destruct cmd.
  - by rewrite IH.
Qed.

Lemma Command_fields (os : exec.OS) (name : string) (arg : list string) :
  exec.Args (exec.Command os name arg) = name :: arg /\
  exec.Env (exec.Command os name arg) = None /\
  exec.Stderr (exec.Command os name arg) = false.
Proof.
  unfold exec.Command.
  destruct (String.eqb (exec.filepath_Base os name) name); [| done].
  destruct (exec.LookPath os name) as [lp [e|]]; by destruct (String.eqb lp "").
Qed.

(** X1.  The command [newStdioClient] hands to the transport is the one
    [exec.Command(cfg.Path, cfg.Args...)] gives, with its [Env] and [Stderr]
    set and nothing else touched.  Its argument vector is [cfg.Path] followed
    by [cfg.Args]; its path and its pending error are those [exec.Command]
    chose: [cfg.Path] and no error when [cfg.Path] is not a bare name, the
    outcome of the lookup otherwise.  Its [Env] stays [nil] when [cfg.Env]
    is empty, so that the child inherits the environment of the k6 process,
    and otherwise holds exactly one entry [k=v] per entry of [cfg.Env], in
    the order the loop visits them.  Its standard error is attached exactly
    when [cfg.Debug] is set. *)
Theorem stdioCommand_fields :
  forall (os : exec.OS) (cfg : ClientAPI.ClientConfig),
    let name := ClientAPI.cfg_Path cfg in
    let cmd := ClientAPI.stdioCommand os cfg in
    exec.Args cmd = name :: ClientAPI.cfg_Args cfg /\
    exec.Path cmd = exec.Path (exec.Command os name (ClientAPI.cfg_Args cfg)) /\
    exec.Err cmd = exec.Err (exec.Command os name (ClientAPI.cfg_Args cfg)) /\
    (if String.eqb (exec.filepath_Base os name) name
     then exec.Path cmd
          = (if String.eqb (fst (exec.LookPath os name)) "" then name
             else fst (exec.LookPath os name)) /\
          exec.Err cmd = snd (exec.LookPath os name)
     else exec.Path cmd = name /\ exec.Err cmd = None) /\
    exec.Env cmd
    = match ClientAPI.cfg_Env cfg with
      | [] => None
      | env => Some (map (fun kv => fst kv +:+ "=" +:+ snd kv) env)
      end /\
    exec.Stderr cmd = ClientAPI.cfg_Debug cfg.
Proof.
  intros os cfg name cmd. subst cmd. unfold ClientAPI.stdioCommand.
  rewrite add_env_fold, append_Env_fold. fold name.
  destruct (Command_fields os name (ClientAPI.cfg_Args cfg)) as (HArgs & HEnv & HStderr).
  rewrite HEnv.
  assert (HPath :
    if String.eqb (exec.filepath_Base os name) name
    then exec.Path (exec.Command os name (ClientAPI.cfg_Args cfg))
         = (if String.eqb (fst (exec.LookPath os name)) "" then name
            else fst (exec.LookPath os name)) /\
         exec.Err (exec.Command os name (ClientAPI.cfg_Args cfg))
         = snd (exec.LookPath os name)
    else exec.Path (exec.Command os name (ClientAPI.cfg_Args cfg)) = name /\
         exec.Err (exec.Command os name (ClientAPI.cfg_Args cfg)) = None).
  { unfold exec.Command.
    destruct (String.eqb (exec.filepath_Base os name) name); [| done].
    destruct (exec.LookPath os name) as [lp [e|]]; simpl; by destruct (String.eqb lp ""). }
  destruct (ClientAPI.cfg_Debug cfg), (ClientAPI.cfg_Env cfg) as [|kv env]; simpl;
    rewrite ?HArgs, ?HStderr; by repeat split.
Qed.

(** A server given by a bare name with an empty environment, and one given
    by its path with two variables. *)
Example stdioCommand_examples :
  ClientAPI.stdioCommand Examples.unix
    (ClientAPI.mkClientConfig "sh" ["-c"; "server"] [] false "" 0 (ClientAPI.mkAuthConfig ""))
  = exec.mkCmd "/bin/sh" ["sh"; "-c"; "server"] None false None /\
  ClientAPI.stdioCommand Examples.unix
    (ClientAPI.mkClientConfig "server" [] [] false "" 0 (ClientAPI.mkAuthConfig ""))
  = exec.mkCmd "server" ["server"] None false
      (Some (errors_New "executable file not found in $PATH")) /\
  ClientAPI.stdioCommand Examples.unix Examples.stdio_cfg
  = exec.mkCmd "/usr/bin/server" ["/usr/bin/server"; "--stdio"]
      (Some ["MODE=test"; "A="]) true None.
Proof. by vm_compute. Qed.

(** ** What one recorded call sends *)

Section RecordedCalls.
Context {S : Type}.
Implicit Types (w : World S) (c : ClientAPI.Client).

(** On a live context the recorder of the client revision reads the clock
    once per sample and appends the samples of the call. *)
Lemma pushRequestMetrics_live c method d err w st :
  ClientAPI.k6_state c = Some ClientAPI.vuState ->
  vu_State w = Some st ->
  live (ClientAPI.ctx c) w = true ->
  exists w',
    ClientAPI.pushRequestMetrics c method d err w = Ret tt w' /\
    peer w' = peer w /\ vu_State w' = vu_State w /\ vu_ctx_done w' = vu_ctx_done w /\
    spans w' = spans w /\ heap w' = heap w /\ clock w' = clock w /\
    samples w' = samples w ++ client_samples st method d err (clock w) (ticks w).
Proof.
  intros Hk Hst Hlive.
  unfold ClientAPI.pushRequestMetrics, ClientAPI.deref, PushIfNotDone, ctx_Err, time_Now,
    bind, ret.
  rewrite Hk. destruct w as [p vs done smp sp h clk tk]. simpl in *. subst vs.
  destruct (ClientAPI.ctx c); simpl in Hlive; [discriminate | |];
    try (apply negb_true_iff in Hlive; subst done);
    destruct err as [e|]; simpl; eexists; (split; [reflexivity |]); simpl;
    repeat split; by rewrite <- ?app_assoc.
Qed.

(** Once the context of the virtual user is done the recorder still returns,
    and sends nothing. *)
Lemma pushRequestMetrics_done c method d err w st :
  ClientAPI.k6_state c = Some ClientAPI.vuState ->
  vu_State w = Some st ->
  ClientAPI.ctx c = VUContext ->
  vu_ctx_done w = true ->
  exists w',
    ClientAPI.pushRequestMetrics c method d err w = Ret tt w' /\
    peer w' = peer w /\ vu_State w' = vu_State w /\ vu_ctx_done w' = vu_ctx_done w /\
    spans w' = spans w /\ heap w' = heap w /\ samples w' = samples w.
Proof.
  intros Hk Hst Hctx Hdone.
  unfold ClientAPI.pushRequestMetrics, ClientAPI.deref, PushIfNotDone, ctx_Err, time_Now,
    bind, ret.
  rewrite Hk, Hctx. destruct w as [p vs done smp sp h clk tk]. simpl in *. subst vs done.
  destruct err as [e|]; simpl; by eexists.
Qed.

(** An instrumented call on a live context: the answer of the peer, and the
    samples of a call that took the time between the two clock readings
    around it. *)
Lemma instrumented_live {A} c method (rpc : S -> (error + A) * S) w st :
  usable c w ->
  vu_State w = Some st ->
  live (ClientAPI.ctx c) w = true ->
  exists w',
    ClientAPI.instrumented c method rpc w = Ret (fst (rpc (peer w))) w' /\
    peer w' = snd (rpc (peer w)) /\ vu_State w' = vu_State w /\
    vu_ctx_done w' = vu_ctx_done w /\ spans w' = spans w /\ heap w' = heap w /\
    clock w' = clock w /\
    samples w' = samples w
                 ++ client_samples st method (elapsed w) (err_of (fst (rpc (peer w))))
                      (clock w) (Datatypes.S (Datatypes.S (ticks w))).
Proof.
  intros ([sess Hs] & Hk & _ & Hctx) Hst Hlive.
  unfold ClientAPI.instrumented, ClientAPI.the_session, time_Since, time_Now, call.
  rewrite Hs. unfold bind at 1 2 3. unfold ret at 1. cbn beta iota.
  destruct (rpc (peer w)) as [r s'] eqn:Hrpc. cbn [peer set_ticks]. rewrite Hrpc.
  cbn beta iota. unfold bind at 1 2. unfold ret at 1. cbn beta iota.
  destruct (pushRequestMetrics_live c method (elapsed w) (err_of r)
              (set_ticks (Datatypes.S (Datatypes.S (ticks w)))
                 (set_peer s' (set_ticks (Datatypes.S (ticks w)) w))) st Hk Hst
              ltac:(by destruct (ClientAPI.ctx c)))
    as (w' & Hrun & Hp & Hvs & Hd & Hsp & Hh & Hc & Hsm).
  exists w'. split.
  - unfold bind. unfold elapsed in Hrun. simpl in Hrun. simpl. by rewrite Hrun.
  - by repeat split.
Qed.

(** The same once the context of the virtual user is done: the answer of
    the peer, and no sample. *)
Lemma instrumented_done {A} c method (rpc : S -> (error + A) * S) w :
  usable c w ->
  ClientAPI.ctx c = VUContext ->
  vu_ctx_done w = true ->
  exists w',
    ClientAPI.instrumented c method rpc w = Ret (fst (rpc (peer w))) w' /\
    peer w' = snd (rpc (peer w)) /\ samples w' = samples w.
Proof.
  intros ([sess Hs] & Hk & [st Hst] & _) Hctx Hdone.
  unfold ClientAPI.instrumented, ClientAPI.the_session, time_Since, time_Now, call.
  rewrite Hs. unfold bind at 1 2 3. unfold ret at 1. cbn beta iota.
  destruct (rpc (peer w)) as [r s'] eqn:Hrpc. cbn [peer set_ticks]. rewrite Hrpc.
  cbn beta iota. unfold bind at 1 2. unfold ret at 1. cbn beta iota.
  destruct (pushRequestMetrics_done c method (elapsed w) (err_of r)
              (set_ticks (Datatypes.S (Datatypes.S (ticks w)))
                 (set_peer s' (set_ticks (Datatypes.S (ticks w)) w))) st Hk Hst Hctx Hdone)
    as (w' & Hrun & Hp & _ & _ & _ & _ & Hsm).
  exists w'. split.
  - unfold bind. unfold elapsed in Hrun. simpl in Hrun. simpl. by rewrite Hrun.
  - by split.
Qed.

Lemma client_samples_metrics st method d err clk t :
  map metric_of (client_samples st method d err clk t)
  = ["mcp_request_duration"; "mcp_request_count"]
    ++ match err with Some _ => ["mcp_request_errors"] | None => [] end.
Proof. by destruct err. Qed.

Lemma client_samples_tagged st method d err clk t :
  Forall (fun s => tag_of "method" s = Some method /\
                   forall key, key <> "method" -> tag_of key s = state_Tags st !! key)
    (client_samples st method d err clk t).
Proof.
  assert (Htag : forall m ty time v,
             tag_of "method"
               (mkSample (mkTimeSeries (MustNewMetric m ty None)
                            (TagSet_With "method" method (state_Tags st))) time v)
             = Some method /\
             forall key, key <> "method" ->
               tag_of key
                 (mkSample (mkTimeSeries (MustNewMetric m ty None)
                              (TagSet_With "method" method (state_Tags st))) time v)
               = state_Tags st !! key).
  { intros m ty time v. unfold tag_of, TagSet_With. simpl. split.
    - apply lookup_insert_eq.
    - intros key Hkey. by apply lookup_insert_ne. }
  unfold client_samples, request_samples.
  destruct err; repeat constructor; apply Htag.
Qed.

End RecordedCalls.

(** X2.  Inside an iteration and on a context that is not done, each of the
    six instrumented methods of a client returns the answer of the session
    and sends exactly the samples of one call: a duration whose value is the
    time between the clock reading taken just before the call into the
    session and the one taken just after it, in milliseconds; a count of 1;
    and, only when the session answered with an error, an error count of 1.
    The samples carry the metric of the method and the next clock readings
    as their times. *)
Theorem methods_record_the_call {S} (P : mcp.Peer S) (c : ClientAPI.Client) (w : World S)
    (st : State) :
  usable c w ->
  vu_State w = Some st ->
  live (ClientAPI.ctx c) w = true ->
  (forall r, exists w',
      ClientAPI.ListTools P c r w
      = Ret (fst (mcp.session_ListTools P (peer w) (ClientAPI.ctx c) r)) w' /\
      emitted w w'
      = client_samples st "tools/list" (elapsed w)
          (err_of (fst (mcp.session_ListTools P (peer w) (ClientAPI.ctx c) r)))
          (clock w) (Datatypes.S (Datatypes.S (ticks w)))) /\
  (forall r, exists w',
      ClientAPI.CallTool P c r w
      = Ret (fst (mcp.session_CallTool P (peer w) (ClientAPI.ctx c) r)) w' /\
      emitted w w'
      = client_samples st "tools/call" (elapsed w)
          (err_of (fst (mcp.session_CallTool P (peer w) (ClientAPI.ctx c) r)))
          (clock w) (Datatypes.S (Datatypes.S (ticks w)))) /\
  (forall r, exists w',
      ClientAPI.ListResources P c r w
      = Ret (fst (mcp.session_ListResources P (peer w) (ClientAPI.ctx c) r)) w' /\
      emitted w w'
      = client_samples st "resources/list" (elapsed w)
          (err_of (fst (mcp.session_ListResources P (peer w) (ClientAPI.ctx c) r)))
          (clock w) (Datatypes.S (Datatypes.S (ticks w)))) /\
  (forall r, exists w',
      ClientAPI.ReadResource P c r w
      = Ret (fst (mcp.session_ReadResource P (peer w) (ClientAPI.ctx c) r)) w' /\
      emitted w w'
      = client_samples st "resources/read" (elapsed w)
          (err_of (fst (mcp.session_ReadResource P (peer w) (ClientAPI.ctx c) r)))
          (clock w) (Datatypes.S (Datatypes.S (ticks w)))) /\
  (forall r, exists w',
      ClientAPI.ListPrompts P c r w
      = Ret (fst (mcp.session_ListPrompts P (peer w) (ClientAPI.ctx c) r)) w' /\
      emitted w w'
      = client_samples st "prompts/list" (elapsed w)
          (err_of (fst (mcp.session_ListPrompts P (peer w) (ClientAPI.ctx c) r)))
          (clock w) (Datatypes.S (Datatypes.S (ticks w)))) /\
  (forall r, exists w',
      ClientAPI.GetPrompt P c r w
      = Ret (fst (mcp.session_GetPrompt P (peer w) (ClientAPI.ctx c) r)) w' /\
      emitted w w'
      = client_samples st "prompts/get" (elapsed w)
          (err_of (fst (mcp.session_GetPrompt P (peer w) (ClientAPI.ctx c) r)))
          (clock w) (Datatypes.S (Datatypes.S (ticks w)))).
Proof.
  intros Hu Hst Hlive. repeat split; intros r.
  all: unfold ClientAPI.ListTools, ClientAPI.CallTool, ClientAPI.ListResources,
         ClientAPI.ReadResource, ClientAPI.ListPrompts, ClientAPI.GetPrompt.
  all: match goal with
       | |- exists w', ClientAPI.instrumented _ ?m ?rpc ?w0 = _ /\ _ =>
           destruct (instrumented_live c m rpc w0 st Hu Hst Hlive)
             as (w' & Hrun & _ & _ & _ & _ & _ & _ & Hsm);
           exists w'; split; [exact Hrun | exact (emitted_app _ _ _ Hsm)]
       end.
Qed.

(** The two calls of the tests, one millisecond each on the clock of the
    example. *)
Lemma methods_record_the_call_witness :
  (exists w',
      ClientAPI.CallTool Examples.echo Examples.client
        (mcp.mkCallToolParams "myTool" ∅) (Examples.world tt)
      = Ret (inr (mcp.mkCallToolResult ["myTool"] false)) w' /\
      map (fun s => (metric_of s, sample_Value s, sample_Time s)) (emitted (Examples.world tt) w')
      = [("mcp_request_duration", 1%float, 2000000);
         ("mcp_request_count", 1%float, 3000000)]) /\
  (exists w',
      ClientAPI.CallTool Examples.echo Examples.client
        (mcp.mkCallToolParams "myToolbad" ∅) (Examples.world tt)
      = Ret (inl (errors_New "unknown tool")) w' /\
      map (fun s => (metric_of s, sample_Value s, sample_Time s)) (emitted (Examples.world tt) w')
      = [("mcp_request_duration", 1%float, 2000000);
         ("mcp_request_count", 1%float, 3000000);
         ("mcp_request_errors", 1%float, 4000000)]).
Proof.
  destruct (methods_record_the_call Examples.echo Examples.client (Examples.world tt)
              Examples.vu_state (usable_example _) eq_refl eq_refl)
    as (_ & Hcall & _).
  split.
  - destruct (Hcall (mcp.mkCallToolParams "myTool" ∅)) as (w' & Hrun & Hem).
    exists w'. split; [exact Hrun |]. rewrite Hem. reflexivity.
  - destruct (Hcall (mcp.mkCallToolParams "myToolbad" ∅)) as (w' & Hrun & Hem).
    exists w'. split; [exact Hrun |]. rewrite Hem. reflexivity.
Defined.



(** X4.  Once the context of the virtual user is done, each of the six
    instrumented methods still calls the session and returns its answer, and
    sends no sample at all: the call goes unrecorded. *)
Theorem methods_on_a_done_context {S} (P : mcp.Peer S) (c : ClientAPI.Client)
    (w : World S) :
  usable c w ->
  ClientAPI.ctx c = VUContext ->
  vu_ctx_done w = true ->
  (forall r, exists w',
      ClientAPI.ListTools P c r w
      = Ret (fst (mcp.session_ListTools P (peer w) VUContext r)) w' /\
      peer w' = snd (mcp.session_ListTools P (peer w) VUContext r) /\
      samples w' = samples w) /\
  (forall r, exists w',
      ClientAPI.CallTool P c r w
      = Ret (fst (mcp.session_CallTool P (peer w) VUContext r)) w' /\
      peer w' = snd (mcp.session_CallTool P (peer w) VUContext r) /\
      samples w' = samples w) /\
  (forall r, exists w',
      ClientAPI.ListResources P c r w
      = Ret (fst (mcp.session_ListResources P (peer w) VUContext r)) w' /\
      peer w' = snd (mcp.session_ListResources P (peer w) VUContext r) /\
      samples w' = samples w) /\
  (forall r, exists w',
      ClientAPI.ReadResource P c r w
      = Ret (fst (mcp.session_ReadResource P (peer w) VUContext r)) w' /\
      peer w' = snd (mcp.session_ReadResource P (peer w) VUContext r) /\
      samples w' = samples w) /\
  (forall r, exists w',
      ClientAPI.ListPrompts P c r w
      = Ret (fst (mcp.session_ListPrompts P (peer w) VUContext r)) w' /\
      peer w' = snd (mcp.session_ListPrompts P (peer w) VUContext r) /\
      samples w' = samples w) /\
  (forall r, exists w',
      ClientAPI.GetPrompt P c r w
      = Ret (fst (mcp.session_GetPrompt P (peer w) VUContext r)) w' /\
      peer w' = snd (mcp.session_GetPrompt P (peer w) VUContext r) /\
      samples w' = samples w).
Proof.
  intros Hu Hctx Hdone. repeat split; intros r.
  all: unfold ClientAPI.ListTools, ClientAPI.CallTool, ClientAPI.ListResources,
         ClientAPI.ReadResource, ClientAPI.ListPrompts, ClientAPI.GetPrompt.
  all: rewrite Hctx.
  all: match goal with
       | |- exists w', ClientAPI.instrumented _ ?m ?rpc ?w0 = _ /\ _ =>
           exact (instrumented_done c m rpc w0 Hu Hctx Hdone)
       end.
Qed.

(** The failing call of the tests after the iteration is over: the error
    comes back, the queue stays empty. *)
Lemma methods_on_a_done_context_witness :
  exists w',
    ClientAPI.CallTool Examples.echo Examples.client
      (mcp.mkCallToolParams "myToolbad" ∅) (Examples.world_done tt)
    = Ret (inl (errors_New "unknown tool")) w' /\
    peer w' = tt /\ samples w' = [].
Proof.
  destruct (methods_on_a_done_context Examples.echo Examples.client
              (Examples.world_done tt)
              ltac:(repeat split; [by eexists | by eexists | discriminate])
              eq_refl eq_refl) as (_ & Hcall & _).
  exact (Hcall (mcp.mkCallToolParams "myToolbad" ∅)).
Defined.

(** ** What an aggregate call sends *)

Section ListAllSamples.
Context {S PT RT T Result : Type}.
Variables (method : string)
          (rpc : Context -> PT -> S -> (error + RT) * S)
          (mkParams : mcp.Meta -> string -> PT)
          (items : RT -> list (option T))
          (NextCursor : RT -> string)
          (failed : string) (mkResult : list T -> Result).
Implicit Types (w : World S) (c : ClientAPI.Client).

Local Abbreviation loop := (ClientAPI.listAll_loop method rpc mkParams items NextCursor).

Lemma live_same ctx w w' : vu_ctx_done w' = vu_ctx_done w -> live ctx w' = live ctx w.
Proof. intros Hdone. destruct ctx; simpl; by rewrite ?Hdone. Qed.

(** One turn of the loop on a live context, with what it sends. *)
Lemma loop_step_live fuel c meta cursor all w st r s' :
  usable c w -> vu_State w = Some st -> live (ClientAPI.ctx c) w = true ->
  rpc (ClientAPI.ctx c) (mkParams meta cursor) (peer w) = (r, s') ->
  exists w' l,
    peer w' = s' /\ vu_State w' = vu_State w /\ vu_ctx_done w' = vu_ctx_done w /\
    samples w' = samples w ++ l /\
    map metric_of l
    = ["mcp_request_duration"; "mcp_request_count"]
      ++ match r with inl _ => ["mcp_request_errors"] | inr _ => [] end /\
    Forall (fun s => tag_of "method" s = Some method) l /\
    loop (Datatypes.S fuel) c meta cursor all w =
      match r with
      | inl err => Some (Ret (Some err, all) w')
      | inr result =>
          if String.eqb (NextCursor result) ""
          then Some (Ret (None, all ++ omap id (items result)) w')
          else loop fuel c meta (NextCursor result) (all ++ omap id (items result)) w'
      end.
Proof.
  intros Hu Hst Hlive Hrpc. simpl. rewrite sent_cursor.
  destruct (instrumented_live c method (rpc (ClientAPI.ctx c) (mkParams meta cursor)) w st
              Hu Hst Hlive) as (w' & -> & Hp & Hvs & Hd & _ & _ & _ & Hsm).
  rewrite Hrpc in *. simpl in *.
  eexists w', _. do 4 (split; [done |]). split; [| split].
  - rewrite client_samples_metrics. by destruct r.
  - eapply Forall_impl; [apply client_samples_tagged |]. by intros s [Htag _].
  - destruct r as [err|result]; [done |]. by rewrite append_items_spec.
Qed.

Lemma loop_serves_samples c meta st s cursor pages s' :
  Serves rpc mkParams NextCursor (ClientAPI.ctx c) meta s cursor pages s' ->
  forall fuel all w,
    usable c w -> vu_State w = Some st -> live (ClientAPI.ctx c) w = true ->
    peer w = s -> (List.length pages <= fuel)%nat ->
    exists w' l,
      loop fuel c meta cursor all w =
        Some (Ret (None, all ++ omap id (concat (map items pages))) w') /\
      samples w' = samples w ++ l /\
      map metric_of l = page_metrics pages /\
      Forall (fun s => tag_of "method" s = Some method) l.
Proof.
  induction 1 as [s cursor r s' Hrpc Hlast | s cursor r s1 pages s' Hrpc Hmore _ IH];
    intros fuel all w Hu Hst Hlive <- Hfuel;
    (destruct fuel as [|fuel]; [simpl in Hfuel; lia |]).
  - destruct (loop_step_live fuel c meta cursor all w st _ _ Hu Hst Hlive Hrpc)
      as (w' & l & _ & _ & _ & Hsm & Hm & Ht & ->).
    rewrite Hlast. simpl. rewrite app_nil_r. by exists w', l.
  - destruct (loop_step_live fuel c meta cursor all w st _ _ Hu Hst Hlive Hrpc)
      as (w' & l & Hp & Hvs & Hd & Hsm & Hm & Ht & ->).
    rewrite (eqb_empty _ Hmore).
    destruct (IH fuel (all ++ omap id (items r)) w') as (w'' & l' & -> & Hsm' & Hm' & Ht').
    + by eapply usable_same.
    + by rewrite Hvs.
    + by rewrite (live_same _ _ _ Hd).
    + done.
    + simpl in Hfuel. lia.
    + exists w'', (l ++ l'). split; [| split; [| split]].
      * simpl. by rewrite omap_app, app_assoc.
      * by rewrite Hsm', Hsm, app_assoc.
      * rewrite map_app, Hm, Hm'. reflexivity.
      * by apply Forall_app.
Qed.

Lemma loop_fails_samples c meta st s cursor pages e s' :
  FailsAfter rpc mkParams NextCursor (ClientAPI.ctx c) meta s cursor pages e s' ->
  forall fuel all w,
    usable c w -> vu_State w = Some st -> live (ClientAPI.ctx c) w = true ->
    peer w = s -> (List.length pages < fuel)%nat ->
    exists w' l all',
      loop fuel c meta cursor all w = Some (Ret (Some e, all') w') /\
      samples w' = samples w ++ l /\
      map metric_of l
      = page_metrics pages
        ++ ["mcp_request_duration"; "mcp_request_count"; "mcp_request_errors"] /\
      Forall (fun s => tag_of "method" s = Some method) l.
Proof.
  induction 1 as [s cursor e s' Hrpc | s cursor r s1 pages e s' Hrpc Hmore _ IH];
    intros fuel all w Hu Hst Hlive <- Hfuel;
    (destruct fuel as [|fuel]; [simpl in Hfuel; lia |]).
  - destruct (loop_step_live fuel c meta cursor all w st _ _ Hu Hst Hlive Hrpc)
      as (w' & l & _ & _ & _ & Hsm & Hm & Ht & ->).
    by exists w', l, all.
  - destruct (loop_step_live fuel c meta cursor all w st _ _ Hu Hst Hlive Hrpc)
      as (w' & l & Hp & Hvs & Hd & Hsm & Hm & Ht & ->).
    rewrite (eqb_empty _ Hmore).
    destruct (IH fuel (all ++ omap id (items r)) w')
      as (w'' & l' & all' & -> & Hsm' & Hm' & Ht').
    + by eapply usable_same.
    + by rewrite Hvs.
    + by rewrite (live_same _ _ _ Hd).
    + done.
    + simpl in Hfuel. lia.
    + exists w'', (l ++ l'), all'. split; [done |]. split; [| split].
      * by rewrite Hsm', Hsm, app_assoc.
      * rewrite map_app, Hm, Hm'. reflexivity.
      * by apply Forall_app.
Qed.

Local Abbreviation all_pages :=
  (ClientAPI.listAll method rpc mkParams items NextCursor failed mkResult).

Lemma listAll_serves_samples c r_Meta w st pages s' fuel :
  usable c w -> vu_State w = Some st -> live (ClientAPI.ctx c) w = true ->
  Serves rpc mkParams NextCursor (ClientAPI.ctx c) (ClientAPI.nonNilMeta r_Meta) (peer w) ""
    pages s' ->
  (List.length pages <= fuel)%nat ->
  exists w',
    all_pages fuel c r_Meta w =
      Some (Ret (inr (mkResult (omap id (concat (map items pages))))) w') /\
    map metric_of (emitted w w') = page_metrics pages /\
    Forall (fun s => tag_of "method" s = Some method) (emitted w w').
Proof.
  intros Hu Hst Hlive Hserves Hfuel. unfold ClientAPI.listAll.
  destruct (loop_serves_samples c _ st _ _ _ _ Hserves fuel [] w Hu Hst Hlive eq_refl Hfuel)
    as (w' & l & -> & Hsm & Hm & Ht).
  exists w'. rewrite (emitted_app _ _ _ Hsm). by repeat split.
Qed.

Lemma listAll_fails_samples c r_Meta w st pages e s' fuel :
  usable c w -> vu_State w = Some st -> live (ClientAPI.ctx c) w = true ->
  FailsAfter rpc mkParams NextCursor (ClientAPI.ctx c) (ClientAPI.nonNilMeta r_Meta) (peer w) ""
    pages e s' ->
  (List.length pages < fuel)%nat ->
  exists w',
    all_pages fuel c r_Meta w = Some (Ret (inl (fmt_Errorf_w failed e)) w') /\
    map metric_of (emitted w w')
    = page_metrics pages
      ++ ["mcp_request_duration"; "mcp_request_count"; "mcp_request_errors"] /\
    Forall (fun s => tag_of "method" s = Some method) (emitted w w').
Proof.
  intros Hu Hst Hlive Hfails Hfuel. unfold ClientAPI.listAll.
  destruct (loop_fails_samples c _ st _ _ _ _ _ Hfails fuel [] w Hu Hst Hlive eq_refl Hfuel)
    as (w' & l & all' & -> & Hsm & Hm & Ht).
  exists w'. rewrite (emitted_app _ _ _ Hsm). by repeat split.
Qed.

End ListAllSamples.

(** X5.  An aggregate call records every page fetch like a single call of
    the page method: on a live context, when the peer serves [n] pages,
    [ListAllTools] sends [2 n] samples, a duration and a count per fetch in
    the order of the fetches, all tagged with the method [tools/list]; there
    is no sample for the aggregate call as a whole.  Likewise
    [ListAllResources] under [resources/list] and [ListAllPrompts] under
    [prompts/list]. *)
Theorem ListAll_records_each_fetch {S} (P : mcp.Peer S) (c : ClientAPI.Client)
    (w : World S) (st : State) :
  usable c w ->
  vu_State w = Some st ->
  live (ClientAPI.ctx c) w = true ->
  (forall r pages s' fuel,
      Serves (rpcTools P) mcp.mkListToolsParams mcp.lt_NextCursor (ClientAPI.ctx c)
        (ClientAPI.nonNilMeta (ClientAPI.lat_Meta r)) (peer w) "" pages s' ->
      (List.length pages <= fuel)%nat ->
      exists w',
        ClientAPI.ListAllTools P fuel c r w =
          Some (Ret (inr (ClientAPI.mkListAllToolsResult
                            (omap id (concat (map mcp.Tools pages))))) w') /\
        map metric_of (emitted w w') = page_metrics pages /\
        Forall (fun s => tag_of "method" s = Some "tools/list") (emitted w w')) /\
  (forall r pages s' fuel,
      Serves (rpcResources P) mcp.mkListResourcesParams mcp.lr_NextCursor (ClientAPI.ctx c)
        (ClientAPI.nonNilMeta (ClientAPI.lar_Meta r)) (peer w) "" pages s' ->
      (List.length pages <= fuel)%nat ->
      exists w',
        ClientAPI.ListAllResources P fuel c r w =
          Some (Ret (inr (ClientAPI.mkListAllResourcesResult
                            (omap id (concat (map mcp.Resources pages))))) w') /\
        map metric_of (emitted w w') = page_metrics pages /\
        Forall (fun s => tag_of "method" s = Some "resources/list") (emitted w w')) /\
  (forall r pages s' fuel,
      Serves (rpcPrompts P) mcp.mkListPromptsParams mcp.lp_NextCursor (ClientAPI.ctx c)
        (ClientAPI.nonNilMeta (ClientAPI.lap_Meta r)) (peer w) "" pages s' ->
      (List.length pages <= fuel)%nat ->
      exists w',
        ClientAPI.ListAllPrompts P fuel c r w =
          Some (Ret (inr (ClientAPI.mkListAllPromptsResult
                            (omap id (concat (map mcp.Prompts pages))))) w') /\
        map metric_of (emitted w w') = page_metrics pages /\
        Forall (fun s => tag_of "method" s = Some "prompts/list") (emitted w w')).
Proof.
  intros Hu Hst Hlive. repeat split; intros r pages s' fuel Hserves Hfuel.
  - exact (listAll_serves_samples _ _ _ _ _ _ _ c _ w st pages s' fuel
             Hu Hst Hlive Hserves Hfuel).
  - exact (listAll_serves_samples _ _ _ _ _ _ _ c _ w st pages s' fuel
             Hu Hst Hlive Hserves Hfuel).
  - exact (listAll_serves_samples _ _ _ _ _ _ _ c _ w st pages s' fuel
             Hu Hst Hlive Hserves Hfuel).
Qed.

(** Two pages of tools: four samples. *)
Lemma ListAll_records_each_fetch_witness :
  exists w',
    ClientAPI.ListAllTools Examples.scripted 2 Examples.client
      (ClientAPI.mkListAllToolsParams None) (Examples.world Examples.two_pages) =
      Some (Ret (inr (ClientAPI.mkListAllToolsResult
                        [Examples.t1; Examples.t2; Examples.t3])) w') /\
    map metric_of (emitted (Examples.world Examples.two_pages) w')
    = ["mcp_request_duration"; "mcp_request_count";
       "mcp_request_duration"; "mcp_request_count"] /\
    Forall (fun s => tag_of "method" s = Some "tools/list")
      (emitted (Examples.world Examples.two_pages) w').
Proof.
  exact (proj1 (ListAll_records_each_fetch Examples.scripted Examples.client
                  (Examples.world Examples.two_pages) Examples.vu_state
                  (usable_example _) eq_refl eq_refl)
           (ClientAPI.mkListAllToolsParams None) _ _ 2%nat two_pages_served (le_n 2)).
Defined.

(** X6.  When the fetch after [k] served pages fails, the aggregate call has
    sent the [2 k] samples of the pages and then the three samples of the
    failed fetch, the last of them the error count, all under the method of
    the page call; the error it returns is recorded once, as a failure of
    that single fetch. *)
Theorem ListAll_records_the_failed_fetch {S} (P : mcp.Peer S) (c : ClientAPI.Client)
    (w : World S) (st : State) :
  usable c w ->
  vu_State w = Some st ->
  live (ClientAPI.ctx c) w = true ->
  (forall r pages e s' fuel,
      FailsAfter (rpcTools P) mcp.mkListToolsParams mcp.lt_NextCursor (ClientAPI.ctx c)
        (ClientAPI.nonNilMeta (ClientAPI.lat_Meta r)) (peer w) "" pages e s' ->
      (List.length pages < fuel)%nat ->
      exists w',
        ClientAPI.ListAllTools P fuel c r w =
          Some (Ret (inl (fmt_Errorf_w "failed to list tools: " e)) w') /\
        map metric_of (emitted w w')
        = page_metrics pages
          ++ ["mcp_request_duration"; "mcp_request_count"; "mcp_request_errors"] /\
        Forall (fun s => tag_of "method" s = Some "tools/list") (emitted w w')) /\
  (forall r pages e s' fuel,
      FailsAfter (rpcResources P) mcp.mkListResourcesParams mcp.lr_NextCursor
        (ClientAPI.ctx c) (ClientAPI.nonNilMeta (ClientAPI.lar_Meta r)) (peer w) ""
        pages e s' ->
      (List.length pages < fuel)%nat ->
      exists w',
        ClientAPI.ListAllResources P fuel c r w =
          Some (Ret (inl (fmt_Errorf_w "failed to list resources: " e)) w') /\
        map metric_of (emitted w w')
        = page_metrics pages
          ++ ["mcp_request_duration"; "mcp_request_count"; "mcp_request_errors"] /\
        Forall (fun s => tag_of "method" s = Some "resources/list") (emitted w w')) /\
  (forall r pages e s' fuel,
      FailsAfter (rpcPrompts P) mcp.mkListPromptsParams mcp.lp_NextCursor (ClientAPI.ctx c)
        (ClientAPI.nonNilMeta (ClientAPI.lap_Meta r)) (peer w) "" pages e s' ->
      (List.length pages < fuel)%nat ->
      exists w',
        ClientAPI.ListAllPrompts P fuel c r w =
          Some (Ret (inl (fmt_Errorf_w "failed to list prompts: " e)) w') /\
        map metric_of (emitted w w')
        = page_metrics pages
          ++ ["mcp_request_duration"; "mcp_request_count"; "mcp_request_errors"] /\
        Forall (fun s => tag_of "method" s = Some "prompts/list") (emitted w w')).
Proof.
  intros Hu Hst Hlive. repeat split; intros r pages e s' fuel Hfails Hfuel.
  - exact (listAll_fails_samples _ _ _ _ _ _ _ c _ w st pages e s' fuel
             Hu Hst Hlive Hfails Hfuel).
  - exact (listAll_fails_samples _ _ _ _ _ _ _ c _ w st pages e s' fuel
             Hu Hst Hlive Hfails Hfuel).
  - exact (listAll_fails_samples _ _ _ _ _ _ _ c _ w st pages e s' fuel
             Hu Hst Hlive Hfails Hfuel).
Qed.

(** One page, then a failure: two samples and three. *)
Lemma ListAll_records_the_failed_fetch_witness :
  exists w',
    ClientAPI.ListAllTools Examples.scripted 2 Examples.client
      (ClientAPI.mkListAllToolsParams None) (Examples.world Examples.second_page_fails) =
      Some (Ret (inl (fmt_Errorf_w "failed to list tools: "
                        (errors_New "connection reset"))) w') /\
    map metric_of (emitted (Examples.world Examples.second_page_fails) w')
    = ["mcp_request_duration"; "mcp_request_count";
       "mcp_request_duration"; "mcp_request_count"; "mcp_request_errors"] /\
    Forall (fun s => tag_of "method" s = Some "tools/list")
      (emitted (Examples.world Examples.second_page_fails) w').
Proof.
  exact (proj1 (ListAll_records_the_failed_fetch Examples.scripted Examples.client
                  (Examples.world Examples.second_page_fails) Examples.vu_state
                  (usable_example _) eq_refl eq_refl)
           (ClientAPI.mkListAllToolsParams None) _ _ _ 2%nat second_page_fails_run
           (le_n 2)).
Defined.

(** ** Clients and where they were built *)

Section BuiltClients.
Context {S : Type} (P : mcp.Peer S).
Implicit Types (w : World S) (c : ClientAPI.Client) (cfg : ClientAPI.ClientConfig).

(** A client whose [k6_state] is [nil] panics in the recorder, after the
    call into the session. *)
Lemma instrumented_nil_state {A} (session : mcp.ClientSession) (ctx : Context)
    method (rpc : S -> (error + A) * S) w :
  exists w',
    ClientAPI.instrumented (ClientAPI.mkClient (Some session) None ctx) method rpc w
    = Panic nil_dereference w' /\
    peer w' = snd (rpc (peer w)) /\ samples w' = samples w.
Proof.
  unfold ClientAPI.instrumented, ClientAPI.the_session, ClientAPI.pushRequestMetrics,
    ClientAPI.deref, time_Since, time_Now, call, bind, ret. simpl.
  destruct (rpc (peer w)) as [r s']. simpl. by eexists.
Qed.

End BuiltClients.

(** X7.  A stdio client built while the virtual user has no state (outside
    an iteration) is returned without complaint, with the session the SDK
    gave and a [nil] [k6_state].  From then on, in whatever world, [Ping]
    still answers, but each of the six instrumented methods and each of the
    three aggregate methods sends its request to the session and then panics
    on the [nil] state in the recorder, before any sample is sent and without
    returning the answer; an aggregate method does so at its first fetch. *)
Theorem client_built_without_state {S} (P : mcp.Peer S) (os : exec.OS)
    (cfg : ClientAPI.ClientConfig) (w : World S) (c : ClientAPI.Client) (w1 : World S) :
  vu_State w = None ->
  ClientAPI.newStdioClient P os (inr cfg) w = Ret c w1 ->
  ClientAPI.k6_state c = None /\
  session_given P (mcp.CommandTransport (ClientAPI.stdioCommand os cfg)) (peer w) c (peer w1) /\
  forall w2 : World S,
    (exists w3,
        ClientAPI.Ping P c w2
        = Ret (match fst (mcp.session_Ping P (peer w2) VUContext) with
               | None => true
               | Some _ => false
               end) w3) /\
    (forall r, exists w3,
        ClientAPI.ListTools P c r w2 = Panic nil_dereference w3 /\
        peer w3 = snd (mcp.session_ListTools P (peer w2) VUContext r) /\
        samples w3 = samples w2) /\
    (forall r, exists w3,
        ClientAPI.CallTool P c r w2 = Panic nil_dereference w3 /\
        peer w3 = snd (mcp.session_CallTool P (peer w2) VUContext r) /\
        samples w3 = samples w2) /\
    (forall r, exists w3,
        ClientAPI.ListResources P c r w2 = Panic nil_dereference w3 /\
        peer w3 = snd (mcp.session_ListResources P (peer w2) VUContext r) /\
        samples w3 = samples w2) /\
    (forall r, exists w3,
        ClientAPI.ReadResource P c r w2 = Panic nil_dereference w3 /\
        peer w3 = snd (mcp.session_ReadResource P (peer w2) VUContext r) /\
        samples w3 = samples w2) /\
    (forall r, exists w3,
        ClientAPI.ListPrompts P c r w2 = Panic nil_dereference w3 /\
        peer w3 = snd (mcp.session_ListPrompts P (peer w2) VUContext r) /\
        samples w3 = samples w2) /\
    (forall r, exists w3,
        ClientAPI.GetPrompt P c r w2 = Panic nil_dereference w3 /\
        peer w3 = snd (mcp.session_GetPrompt P (peer w2) VUContext r) /\
        samples w3 = samples w2) /\
    (forall r fuel, exists w3,
        ClientAPI.ListAllTools P (Datatypes.S fuel) c r w2 = Some (Panic nil_dereference w3) /\
        peer w3
        = snd (mcp.session_ListTools P (peer w2) VUContext
                 (mcp.mkListToolsParams (ClientAPI.nonNilMeta (ClientAPI.lat_Meta r)) "")) /\
        samples w3 = samples w2) /\
    (forall r fuel, exists w3,
        ClientAPI.ListAllResources P (Datatypes.S fuel) c r w2
        = Some (Panic nil_dereference w3) /\
        peer w3
        = snd (mcp.session_ListResources P (peer w2) VUContext
                 (mcp.mkListResourcesParams (ClientAPI.nonNilMeta (ClientAPI.lar_Meta r)) "")) /\
        samples w3 = samples w2) /\
    (forall r fuel, exists w3,
        ClientAPI.ListAllPrompts P (Datatypes.S fuel) c r w2
        = Some (Panic nil_dereference w3) /\
        peer w3
        = snd (mcp.session_ListPrompts P (peer w2) VUContext
                 (mcp.mkListPromptsParams (ClientAPI.nonNilMeta (ClientAPI.lap_Meta r)) "")) /\
        samples w3 = samples w2).
Proof.
  intros Hst Hnew. rewrite newStdioClient_steps in Hnew.
  destruct (connected_Ret _ _ _ _ Hnew) as (session & Hfst & -> & ->).
  rewrite Hst. split; [reflexivity |]. split.
  { exists session. split; [| reflexivity].
    destruct (mcp.client_Connect _ _ _ _) as [r s']. simpl in *. by subst r. }
  intros w2. split.
  { unfold ClientAPI.Ping, ClientAPI.the_session, call, bind, ret. simpl.
    destruct (mcp.session_Ping P (peer w2) VUContext) as [err s']. by eexists. }
  split; [intros r;
          exact (instrumented_nil_state session VUContext ClientAPI.listToolsMethodName
                   (fun s => mcp.session_ListTools P s VUContext r) w2) |].
  split; [intros r;
          exact (instrumented_nil_state session VUContext ClientAPI.callToolMethodName
                   (fun s => mcp.session_CallTool P s VUContext r) w2) |].
  split; [intros r;
          exact (instrumented_nil_state session VUContext ClientAPI.listResourcesMethodName
                   (fun s => mcp.session_ListResources P s VUContext r) w2) |].
  split; [intros r;
          exact (instrumented_nil_state session VUContext ClientAPI.readResourceMethodName
                   (fun s => mcp.session_ReadResource P s VUContext r) w2) |].
  split; [intros r;
          exact (instrumented_nil_state session VUContext ClientAPI.listPromptsMethodName
                   (fun s => mcp.session_ListPrompts P s VUContext r) w2) |].
  split; [intros r;
          exact (instrumented_nil_state session VUContext ClientAPI.getPromptMethodName
                   (fun s => mcp.session_GetPrompt P s VUContext r) w2) |].
  split; [| split].
  - intros r fuel. unfold ClientAPI.ListAllTools, ClientAPI.listAll.
    cbn [ClientAPI.listAll_loop ClientAPI.ctx String.eqb].
    destruct (instrumented_nil_state session VUContext ClientAPI.listToolsMethodName
                (fun s => mcp.session_ListTools P s VUContext
                            (mcp.mkListToolsParams
                               (ClientAPI.nonNilMeta (ClientAPI.lat_Meta r)) "")) w2)
      as (w3 & Hrun & Hp & Hsm).
    exists w3. rewrite Hrun. by repeat split.
  - intros r fuel. unfold ClientAPI.ListAllResources, ClientAPI.listAll.
    cbn [ClientAPI.listAll_loop ClientAPI.ctx String.eqb].
    destruct (instrumented_nil_state session VUContext ClientAPI.listResourcesMethodName
                (fun s => mcp.session_ListResources P s VUContext
                            (mcp.mkListResourcesParams
                               (ClientAPI.nonNilMeta (ClientAPI.lar_Meta r)) "")) w2)
      as (w3 & Hrun & Hp & Hsm).
    exists w3. rewrite Hrun. by repeat split.
  - intros r fuel. unfold ClientAPI.ListAllPrompts, ClientAPI.listAll.
    cbn [ClientAPI.listAll_loop ClientAPI.ctx String.eqb].
    destruct (instrumented_nil_state session VUContext ClientAPI.listPromptsMethodName
                (fun s => mcp.session_ListPrompts P s VUContext
                            (mcp.mkListPromptsParams
                               (ClientAPI.nonNilMeta (ClientAPI.lap_Meta r)) "")) w2)
      as (w3 & Hrun & Hp & Hsm).
    exists w3. rewrite Hrun. by repeat split.
Qed.

(** A server command connected outside an iteration, and calls through the
    client later, inside one. *)
Lemma client_built_without_state_witness :
  exists c w1,
    ClientAPI.newStdioClient Examples.recording Examples.unix (inr Examples.stdio_cfg)
      (Examples.world_init []) = Ret c w1 /\
    ClientAPI.k6_state c = None /\
    ClientAPI.session c = Some 1%nat /\
    (exists w3,
        ClientAPI.CallTool Examples.recording c (mcp.mkCallToolParams "myTool" ∅)
          (Examples.world []) = Panic nil_dereference w3 /\
        samples w3 = []) /\
    (exists w3,
        ClientAPI.ListAllPrompts Examples.recording 5 c (ClientAPI.mkListAllPromptsParams None)
          (Examples.world []) = Some (Panic nil_dereference w3) /\
        samples w3 = []).
Proof.
  assert (Hnew : exists c w1,
             ClientAPI.newStdioClient Examples.recording Examples.unix
               (inr Examples.stdio_cfg) (Examples.world_init []) = Ret c w1)
    by (vm_compute; by do 2 eexists).
  destruct Hnew as (c & w1 & Hnew). exists c, w1. split; [exact Hnew |].
  destruct (client_built_without_state Examples.recording Examples.unix Examples.stdio_cfg
              (Examples.world_init []) c w1 eq_refl Hnew) as (Hk & Hgiven & Hcalls).
  split; [exact Hk |]. split.
  { destruct Hgiven as (session & Hconn & Hs). rewrite Hs. f_equal.
    vm_compute in Hconn. by injection Hconn as <- _. }
  destruct (Hcalls (Examples.world [])) as (_ & _ & Hcall & _ & _ & _ & _ & _ & _ & Hall).
  split.
  - destruct (Hcall (mcp.mkCallToolParams "myTool" ∅)) as (w3 & Hrun & _ & Hsm).
    exists w3. by split.
  - destruct (Hall (ClientAPI.mkListAllPromptsParams None) 4%nat) as (w3 & Hrun & _ & Hsm).
    exists w3. by split.
Defined.

(** X8.  Inside an iteration, a client that any of the three constructors
    returns holds the session the SDK gave when it was asked to connect the
    transport of that constructor: the command for [newStdioClient], the
    endpoint [cfg.BaseURL] over an HTTP client that is in the heap for the
    other two.  It holds the context of the virtual user and a pointer to its
    state; it is usable, so its methods return instead of panicking:
    [CallTool], for one, hands back the answer of the session. *)
Theorem constructed_client_works {S} (P : mcp.Peer S) (os : exec.OS)
    (cfg : ClientAPI.ClientConfig) (w : World S) (c : ClientAPI.Client) (w1 : World S) :
  is_Some (vu_State w) ->
  (ClientAPI.newStdioClient P os (inr cfg) w = Ret c w1 ->
   session_given P (mcp.CommandTransport (ClientAPI.stdioCommand os cfg)) (peer w) c
     (peer w1) /\
   heap w1 = heap w) /\
  (ClientAPI.newSSEClient P (inr cfg) w = Ret c w1 ->
   exists httpClient cl,
     heap w1 !! httpClient = Some (ObjHTTPClient cl) /\
     session_given P (mcp.SSEClientTransport (ClientAPI.cfg_BaseURL cfg) httpClient)
       (peer w) c (peer w1)) /\
  (ClientAPI.newStreamableHTTPClient P (inr cfg) w = Ret c w1 ->
   exists httpClient cl,
     heap w1 !! httpClient = Some (ObjHTTPClient cl) /\
     session_given P (mcp.StreamableClientTransport (ClientAPI.cfg_BaseURL cfg) httpClient)
       (peer w) c (peer w1)) /\
  (ClientAPI.newStdioClient P os (inr cfg) w = Ret c w1 \/
   ClientAPI.newSSEClient P (inr cfg) w = Ret c w1 \/
   ClientAPI.newStreamableHTTPClient P (inr cfg) w = Ret c w1 ->
   usable c w1 /\
   ClientAPI.ctx c = VUContext /\
   ClientAPI.k6_state c = Some ClientAPI.vuState /\
   forall r, exists w2,
     ClientAPI.CallTool P c r w1
     = Ret (fst (mcp.session_CallTool P (peer w1) VUContext r)) w2).
Proof.
  intros [st Hst].
  assert (Hgiven : forall (t : mcp.Transport) (w0 : World S),
             connected (mcp.client_Connect P (peer w0) VUContext t) w0 = Ret c w1 ->
             session_given P t (peer w0) c (peer w1) /\ heap w1 = heap w0).
  { intros t w0 Hret. destruct (connected_Ret _ _ _ _ Hret) as (session & Hfst & -> & ->).
    split; [| reflexivity]. exists session. split; [| reflexivity].
    destruct (mcp.client_Connect P (peer w0) VUContext t) as [r s']. simpl in *. by subst r. }
  assert (Hhttp : forall httpClient w0,
             ClientAPI.newk6HTTPClient cfg w = Ret httpClient w0 ->
             peer w0 = peer w /\ vu_State w0 = Some st /\
             exists cl, heap w0 !! httpClient = Some (ObjHTTPClient cl)).
  { intros httpClient w0 Hrun. destruct (state_Dialer st) as [d|] eqn:Hd.
    - destruct (newk6HTTPClient_returns cfg w st d Hst Hd) as (a & h1 & Hrun' & Hcl & _).
      rewrite Hrun' in Hrun. injection Hrun as <- <-. by repeat split.
    - rewrite newk6HTTPClient_panics in Hrun; [discriminate | by rewrite Hst]. }
  assert (Hsse : forall (mk : addr -> mcp.Transport),
             match ClientAPI.newk6HTTPClient cfg w with
             | Ret httpClient w0 =>
                 connected (mcp.client_Connect P (peer w0) VUContext (mk httpClient)) w0
             | Panic e w0 => Panic e w0
             end = Ret c w1 ->
             exists httpClient w0,
               vu_State w0 = Some st /\
               connected (mcp.client_Connect P (peer w0) VUContext (mk httpClient)) w0
               = Ret c w1 /\
               exists cl, heap w1 !! httpClient = Some (ObjHTTPClient cl) /\
                          session_given P (mk httpClient) (peer w) c (peer w1)).
  { intros mk Hnew.
    destruct (ClientAPI.newk6HTTPClient cfg w) as [httpClient w0|e w0] eqn:Hrun;
      [| discriminate].
    destruct (Hhttp httpClient w0 eq_refl) as (Hp & Hst0 & cl & Hcl).
    destruct (Hgiven _ _ Hnew) as [Hs Hh].
    exists httpClient, w0. split; [exact Hst0 |]. split; [exact Hnew |].
    exists cl. rewrite Hh, <- Hp. by split. }
  split; [| split; [| split]].
  - rewrite newStdioClient_steps. apply Hgiven.
  - rewrite newSSEClient_steps. intros Hnew.
    destruct (Hsse (mcp.SSEClientTransport (ClientAPI.cfg_BaseURL cfg)) Hnew)
      as (httpClient & w0 & _ & _ & cl & Hcl & Hs).
    by exists httpClient, cl.
  - rewrite newStreamableHTTPClient_steps. intros Hnew.
    destruct (Hsse (mcp.StreamableClientTransport (ClientAPI.cfg_BaseURL cfg)) Hnew)
      as (httpClient & w0 & _ & _ & cl & Hcl & Hs).
    by exists httpClient, cl.
  - intros Hnew.
    assert (Hc : exists r (w0 : World S), vu_State w0 = Some st /\ connected r w0 = Ret c w1).
    { destruct Hnew as [Hnew | [Hnew | Hnew]].
      - rewrite newStdioClient_steps in Hnew. by eexists _, w.
      - rewrite newSSEClient_steps in Hnew.
        destruct (Hsse _ Hnew) as (httpClient & w0 & Hst0 & Hret & _). by eexists _, w0.
      - rewrite newStreamableHTTPClient_steps in Hnew.
        destruct (Hsse _ Hnew) as (httpClient & w0 & Hst0 & Hret & _). by eexists _, w0. }
    destruct Hc as (r & w0 & Hst0 & Hret).
    assert (Hu : usable c w1)
      by (eapply constructed_client_usable; [by eexists | exact Hret]).
    destruct (connected_Ret _ _ _ _ Hret) as (session & _ & Hceq & _).
    rewrite Hst0 in Hceq. subst c.
    split; [exact Hu |]. do 2 (split; [reflexivity |]).
    intros r0. unfold ClientAPI.CallTool.
    destruct (mcp.session_CallTool P (peer w1) VUContext r0) as [a s'] eqn:Hrpc.
    destruct (instrumented_run _ ClientAPI.callToolMethodName
                (fun s => mcp.session_CallTool P s VUContext r0) w1 a s' Hu Hrpc)
      as (w2 & Hrun & _).
    by exists w2.
Qed.

(** A streamable client built inside an iteration, and a call through it. *)
Lemma constructed_client_works_witness :
  exists c w1,
    ClientAPI.newStreamableHTTPClient Examples.recording (inr Examples.http_cfg)
      (Examples.world []) = Ret c w1 /\
    usable c w1 /\
    ClientAPI.session c = Some 1%nat /\
    peer w1 = [mcp.StreamableClientTransport "http://localhost:3000/mcp" 1%nat] /\
    exists w2,
      ClientAPI.CallTool Examples.recording c (mcp.mkCallToolParams "myTool" ∅) w1
      = Ret (inl (errors_New "method not found")) w2.
Proof.
  assert (Hnew : exists c w1,
             ClientAPI.newStreamableHTTPClient Examples.recording (inr Examples.http_cfg)
               (Examples.world []) = Ret c w1 /\
             ClientAPI.session c = Some 1%nat /\
             peer w1 = [mcp.StreamableClientTransport "http://localhost:3000/mcp" 1%nat])
    by (vm_compute; by do 2 eexists).
  destruct Hnew as (c & w1 & Hnew & Hs & Hp). exists c, w1. split; [exact Hnew |].
  destruct (constructed_client_works Examples.recording Examples.unix Examples.http_cfg
              (Examples.world []) c w1 ltac:(by eexists)) as (_ & _ & _ & Hworks).
  destruct (Hworks (or_intror (or_intror Hnew))) as (Hu & _ & _ & Hcall).
  split; [exact Hu |]. split; [exact Hs |]. split; [exact Hp |].
  exact (Hcall (mcp.mkCallToolParams "myTool" ∅)).
Defined.

(** ** The module revision at work *)

Section ModuleCalls.
Context {S : Type} (P : mcp.Peer S).
Implicit Types (w : World S) (m : ModuleAPI.MCP).

(** A traced call, in full: the answer of the peer, the tracer kept in the
    module, one span, and the samples of the call when the virtual user has a
    state, whether or not its context is done. *)
Lemma traced_full {A} m (spanName method : string) (rpc : S -> (error + A) * S) w :
  exists w',
    ModuleAPI.traced m spanName method rpc w
    = Ret (fst (rpc (peer w)),
           ModuleAPI.mkMCP (ModuleAPI.session m) (Some (chosen_tracer m w))
             (ModuleAPI.metrics m)) w' /\
    peer w' = snd (rpc (peer w)) /\
    vu_State w' = vu_State w /\ vu_ctx_done w' = vu_ctx_done w /\ heap w' = heap w /\
    spans w' = spans w ++ [mkSpan (chosen_tracer m w) spanName method] /\
    samples w' = samples w
                 ++ module_samples (ModuleAPI.metrics m) (vu_State w) method (elapsed w)
                      (err_of (fst (rpc (peer w)))) (clock w)
                      (Datatypes.S (Datatypes.S (ticks w))).
Proof.
  destruct w as [p vs done smp sp h clk tk]. destruct m as [s [t|] ms].
  all: unfold ModuleAPI.traced, ModuleAPI.getTracer, ModuleAPI.pushRequestMetrics,
         PushIfNotDone, ctx_Err, span_End, time_Since, time_Now, call, vu_State_get,
         chosen_tracer, module_samples, request_samples, elapsed, bind, ret; simpl.
  all: destruct (rpc p) as [[e|a] s']; destruct vs; simpl.
  all: eexists; (split; [reflexivity |]); simpl.
  all: repeat split; by rewrite <- ?app_assoc, ?app_nil_r.
Qed.

(** [getTracer] answers with the tracer it caches. *)
Lemma getTracer_run m w :
  ModuleAPI.getTracer m w
  = Ret (chosen_tracer m w,
         ModuleAPI.mkMCP (ModuleAPI.session m) (Some (chosen_tracer m w))
           (ModuleAPI.metrics m)) w.
Proof.
  unfold ModuleAPI.getTracer, chosen_tracer, vu_State_get, bind, ret.
  destruct m as [s [t|] ms]; simpl; [reflexivity |]. by destruct (vu_State w).
Qed.

(** The wrapping of an HTTP client that is in the heap never panics. *)
Lemma withBearerToken_returns (T : string) (a : addr) (cl : http.Client) w :
  heap w !! a = Some (ObjHTTPClient cl) ->
  exists a' h', withBearerToken T a w = Ret a' (set_heap (heap w ++ h') w) /\
    (exists cl', (heap w ++ h') !! a' = Some (ObjHTTPClient cl')) /\
    (T = "" -> a' = a /\ h' = []) /\
    (T <> "" -> a' = (List.length (heap w) + 1)%nat /\ List.length h' = 2%nat).
Proof.
  intros Ha. unfold withBearerToken.
  destruct (String.eqb_spec T "") as [-> | HT]; simpl.
  - exists a, []. rewrite app_nil_r. split; [by destruct w |].
    split; [by exists cl |]. split; [done |]. by intros [].
  - unfold NewClient, alloc. rewrite Ha. simpl. rewrite length_app, <- app_assoc. simpl.
    eexists _, _. split; [reflexivity |]. split; [| split; [done |]].
    + rewrite lookup_app_plus. by eexists.
    + intros _. by split.
Qed.

End ModuleCalls.

(** X9.  On a module that has a session, [ListTools] and [CallTool] return
    the answer of the session and leave the session in place; each ends
    exactly one span, named after the method and carrying its [rpc.method],
    and, when the virtual user has a state, sends the samples of the call
    (duration, count and, on error, error count), also when the context of
    the virtual user is done; without a state it sends none. *)
Theorem Module_calls_when_connected :
  forall (S : Type) (P : mcp.Peer S) (session : mcp.ClientSession) (t : option Tracer)
         (ms : ModuleAPI.mcpMetrics) (w : World S),
    (forall params, exists w',
        ModuleAPI.ListTools P params (ModuleAPI.mkMCP (Some session) t ms) w
        = Ret (fst (mcp.session_ListTools P (peer w) Background params),
               ModuleAPI.mkMCP (Some session)
                 (Some (chosen_tracer (ModuleAPI.mkMCP (Some session) t ms) w)) ms) w' /\
        peer w' = snd (mcp.session_ListTools P (peer w) Background params) /\
        emitted w w'
        = module_samples ms (vu_State w) "tools/list" (elapsed w)
            (err_of (fst (mcp.session_ListTools P (peer w) Background params)))
            (clock w) (Datatypes.S (Datatypes.S (ticks w))) /\
        spans w' = spans w
                   ++ [mkSpan (chosen_tracer (ModuleAPI.mkMCP (Some session) t ms) w)
                         "ListTools" "tools/list"]) /\
    (forall params, exists w',
        ModuleAPI.CallTool P params (ModuleAPI.mkMCP (Some session) t ms) w
        = Ret (fst (mcp.session_CallTool P (peer w) Background params),
               ModuleAPI.mkMCP (Some session)
                 (Some (chosen_tracer (ModuleAPI.mkMCP (Some session) t ms) w)) ms) w' /\
        peer w' = snd (mcp.session_CallTool P (peer w) Background params) /\
        emitted w w'
        = module_samples ms (vu_State w) "tools/call" (elapsed w)
            (err_of (fst (mcp.session_CallTool P (peer w) Background params)))
            (clock w) (Datatypes.S (Datatypes.S (ticks w))) /\
        spans w' = spans w
                   ++ [mkSpan (chosen_tracer (ModuleAPI.mkMCP (Some session) t ms) w)
                         "CallTool" "tools/call"]).
Proof.
  intros S P session t ms w. split; intros params.
  - destruct (traced_full (ModuleAPI.mkMCP (Some session) t ms) ModuleAPI.listToolsSpanName
                ModuleAPI.listToolsMethodName
                (fun s => mcp.session_ListTools P s ModuleAPI.getContext params) w)
      as (w' & Hrun & Hp & _ & _ & _ & Hsp & Hsm).
    exists w'. split; [exact Hrun |]. split; [exact Hp |].
    split; [exact (emitted_app _ _ _ Hsm) | exact Hsp].
  - destruct (traced_full (ModuleAPI.mkMCP (Some session) t ms) ModuleAPI.callToolSpanName
                ModuleAPI.callToolMethodName
                (fun s => mcp.session_CallTool P s ModuleAPI.getContext params) w)
      as (w' & Hrun & Hp & _ & _ & _ & Hsp & Hsm).
    exists w'. split; [exact Hrun |]. split; [exact Hp |].
    split; [exact (emitted_app _ _ _ Hsm) | exact Hsp].
Qed.

(** X10.  [getTracer] picks the tracer once: from the provider of the state
    when the virtual user has one at that moment, from the provider of the
    init environment otherwise; it stores it in the module and changes
    nothing else, and every later call returns the stored tracer, whatever
    the state of the virtual user has become. *)
Theorem getTracer_is_sticky :
  forall (S : Type) (m : ModuleAPI.MCP) (w : World S),
    exists t m',
      ModuleAPI.getTracer m w = Ret (t, m') w /\
      ModuleAPI.tracer m' = Some t /\
      ModuleAPI.session m' = ModuleAPI.session m /\
      ModuleAPI.metrics m' = ModuleAPI.metrics m /\
      (ModuleAPI.tracer m = None ->
       t = match vu_State w with None => InitEnvTracer | Some _ => StateTracer end) /\
      forall w2 : World S, ModuleAPI.getTracer m' w2 = Ret (t, m') w2.
Proof.
  intros S m w. rewrite getTracer_run. do 2 eexists. split; [reflexivity |].
  do 3 (split; [reflexivity |]). split.
  - unfold chosen_tracer. by intros ->.
  - intros w2. reflexivity.
Qed.

(** X11.  A [Connect] on a module without session builds an HTTP client,
    leaves it in the heap and asks the SDK to connect a streamable transport
    to [cfg.BaseURL], whatever that is, over it.  It returns the error of the
    SDK as it is, or [nil]; it keeps the session only when there was no
    error; it ends one span [Connect] and records the attempt under the
    method [connect] like any other call.  After an error the module still
    refuses [ListTools], so the next [Connect] tries again. *)
Theorem first_Connect :
  forall (S : Type) (P : mcp.Peer S) (cfg : ModuleAPI.Config) (t : option Tracer)
         (ms : ModuleAPI.mcpMetrics) (w : World S),
    exists (httpClient : addr) (m' : ModuleAPI.MCP) (w' : World S),
      ModuleAPI.Connect P cfg (ModuleAPI.mkMCP None t ms) w
      = Ret (err_of (fst (mcp.client_Connect P (peer w) Background
                            (mcp.StreamableClientTransport (ModuleAPI.cfg_BaseURL cfg)
                               httpClient))), m') w' /\
      peer w'
      = snd (mcp.client_Connect P (peer w) Background
               (mcp.StreamableClientTransport (ModuleAPI.cfg_BaseURL cfg) httpClient)) /\
      ModuleAPI.session m'
      = match fst (mcp.client_Connect P (peer w) Background
                     (mcp.StreamableClientTransport (ModuleAPI.cfg_BaseURL cfg)
                        httpClient)) with
        | inr session => Some session
        | inl _ => None
        end /\
      (exists cl, heap w' !! httpClient = Some (ObjHTTPClient cl)) /\
      emitted w w'
      = module_samples ms (vu_State w) "connect" (elapsed w)
          (err_of (fst (mcp.client_Connect P (peer w) Background
                          (mcp.StreamableClientTransport (ModuleAPI.cfg_BaseURL cfg)
                             httpClient))))
          (clock w) (Datatypes.S (Datatypes.S (ticks w))) /\
      spans w' = spans w
                 ++ [mkSpan (chosen_tracer (ModuleAPI.mkMCP None t ms) w) "Connect" "connect"]
      /\
      (ModuleAPI.session m' = None ->
       forall params,
         ModuleAPI.ListTools P params m' w'
         = Ret (inl (errors_New "must call `Connect()` before calling `ListTools()`"), m')
             w').
Proof.
  intros S P cfg t ms w.
  unfold ModuleAPI.Connect, bind. simpl.
  match goal with
  | |- context [withBearerToken ?T ?a ?w1] =>
      destruct (withBearerToken_returns T a (http.mkClient (List.length (heap w)) 0) w1)
        as (a' & h' & Hwrap & Hclient & _)
  end.
  { simpl. by apply list_lookup_middle. }
  rewrite Hwrap. cbn beta iota.
  match goal with
  | |- context [ModuleAPI.traced ?m ?sp ?me ?rpc ?w1] =>
      destruct (traced_full m sp me rpc w1)
        as (w' & Hrun & Hp & Hvs & _ & Hh & Hspans & Hsm)
  end.
  rewrite Hrun. unfold ModuleAPI.getContext in *. simpl in Hp, Hspans, Hsm, Hh, Hclient.
  rewrite <- Hh in Hclient. cbn [peer set_heap].
  set (ans := mcp.client_Connect P (peer w) Background
                (mcp.StreamableClientTransport (ModuleAPI.cfg_BaseURL cfg) a')) in *.
  exists a',
    (ModuleAPI.mkMCP (match fst ans with inr session => Some session | inl _ => None end)
       (Some (chosen_tracer (ModuleAPI.mkMCP None t ms) w)) ms), w'.
  fold ans.
  split; [by destruct (fst ans) |]. split; [exact Hp |]. split; [reflexivity |].
  split; [exact Hclient |]. split; [exact (emitted_app _ _ _ Hsm) |].
  split; [exact Hspans |].
  cbn [ModuleAPI.session]. intros Hnone. rewrite Hnone. reflexivity.
Qed.

(** ** The recorder of package [metrics], besides the failed call *)

(** X12.  For a call that succeeded, [K6Metrics.Push] on a live context
    sends exactly two samples, the duration in milliseconds and the count 1,
    tagged with the tags the recorder was built with plus the method, whatever
    tags the virtual user has by then.  On the context of the virtual user
    once it is done it sends nothing, for a failed call as for a successful
    one, and still returns. *)
Theorem Push_success_and_done_context :
  forall (S : Type) (k : metrics.K6Metrics) (method : string) (d : Duration)
         (w : World S),
    (forall ctx, live ctx w = true ->
       exists w',
         metrics.Push k ctx method d None w = Ret tt w' /\
         peer w' = peer w /\
         emitted w w'
         = [mkSample
              (mkTimeSeries (metrics.requestDuration k)
                 (TagSet_With "method" method (metrics.tagsAndMeta k)))
              (clock w (ticks w)) (milliseconds d);
            mkSample
              (mkTimeSeries (metrics.requestCount k)
                 (TagSet_With "method" method (metrics.tagsAndMeta k)))
              (clock w (Datatypes.S (ticks w))) PrimFloat.one]) /\
    (vu_ctx_done w = true ->
     forall err, exists w',
       metrics.Push k VUContext method d err w = Ret tt w' /\
       peer w' = peer w /\ samples w' = samples w).
Proof.
  intros S k method d w. split.
  - intros ctx Hlive.
    unfold metrics.Push, PushIfNotDone, ctx_Err, time_Now, bind, ret.
    destruct w as [p vs done smp sp h clk tk].
    destruct ctx; simpl in Hlive; [discriminate | |];
      try (apply negb_true_iff in Hlive; subst done); simpl.
    all: eexists; (split; [reflexivity |]); split; [reflexivity |].
    all: apply emitted_app; simpl; by rewrite <- app_assoc.
  - intros Hdone err.
    unfold metrics.Push, PushIfNotDone, ctx_Err, time_Now, bind, ret.
    destruct w as [p vs done smp sp h clk tk]. simpl in Hdone. subst done.
    destruct err; simpl; by eexists.
Qed.

(** The successful call of the tests, and a failed one after the iteration. *)
Lemma Push_success_and_done_context_witness :
  (exists w',
      metrics.Push (metrics.NewK6Metrics {[ "group" := "" ]}) VUContext "tools/call"
        2500000 None (Examples.world tt) = Ret tt w' /\
      map (fun s => (metric_of s, sample_Value s, tag_of "method" s))
        (emitted (Examples.world tt) w')
      = [("mcp_request_duration", 2.5%float, Some "tools/call");
         ("mcp_request_count", 1%float, Some "tools/call")]) /\
  (exists w',
      metrics.Push (metrics.NewK6Metrics {[ "group" := "" ]}) VUContext "tools/call"
        2500000 (Some (errors_New "unknown tool")) (Examples.world_done tt) = Ret tt w' /\
      samples w' = []).
Proof.
  destruct (Push_success_and_done_context unit (metrics.NewK6Metrics {[ "group" := "" ]})
              "tools/call" 2500000 (Examples.world tt)) as [Hlive _].
  destruct (Push_success_and_done_context unit (metrics.NewK6Metrics {[ "group" := "" ]})
              "tools/call" 2500000 (Examples.world_done tt)) as [_ Hdone].
  split.
  - destruct (Hlive VUContext eq_refl) as (w' & Hrun & _ & Hem).
    exists w'. split; [exact Hrun |]. rewrite Hem. reflexivity.
  - destruct (Hdone eq_refl (Some (errors_New "unknown tool"))) as (w' & Hrun & _ & Hsm).
    exists w'. split; [exact Hrun | exact Hsm].
Defined.

(** ** The HTTP client builder across the revisions *)

Section Builders.
Context {S : Type}.
Implicit Types (w : World S).

(** Two allocations, the transport and the client over it, and then the
    block of the bearer token. *)
Lemma built_over (T : string) (bt : http.Transport) (timeout : Duration) w :
  exists a h',
    bind (new (ObjHTTPTransport bt))
      (fun transport =>
         bind (new (ObjHTTPClient (http.mkClient transport timeout)))
           (withBearerToken T)) w
    = Ret a (set_heap (heap w ++ h') w) /\
    (exists cl, (heap w ++ h') !! a = Some (ObjHTTPClient cl)) /\
    (heap w ++ h') !! List.length (heap w) = Some (ObjHTTPTransport bt).
Proof.
  destruct w as [p vs done smp sp h clk tk].
  unfold new, alloc, bind. simpl.
  match goal with
  | |- context [withBearerToken T ?a ?w1] =>
      destruct (withBearerToken_returns T a (http.mkClient (List.length h) timeout) w1)
        as (a' & h' & Hwrap & [cl Hclient] & _)
  end.
  { simpl. by apply list_lookup_middle. }
  rewrite Hwrap. clear Hwrap.
  simpl in Hclient. rewrite <- !app_assoc in Hclient. simpl in Hclient.
  eexists a', _. split; [| split].
  - simpl. rewrite <- !app_assoc. simpl. reflexivity.
  - by exists cl.
  - rewrite <- (Nat.add_0_r (List.length h)) at 1. by rewrite lookup_app_plus.
Qed.

End Builders.

(** X13.  [newk6HTTPClient] in the three revisions.  The first revision
    checks for a state: outside an iteration it returns a client over a
    transport with no dial function and no TLS configuration that keeps
    connections alive; on a state with a dialer it returns a client over a
    transport that dials through it; on a state without a dialer, as the
    tests of package [metrics] build it, it panics on the [nil] dialer before
    it has built anything.  The client revision builds the same as the first
    on every state, for the same bearer token and no timeout, and panics
    outside an iteration.  The recorder revision builds the same as the first
    on a state with a dialer, returns a client over a transport with no dial
    function on a state without one, and panics outside an iteration. *)
Theorem first_revision_newk6HTTPClient :
  forall (S : Type) (cfg : FirstAPI.ClientConfig) (w : World S),
    match vu_State w with
    | None =>
        exists a h',
          FirstAPI.newk6HTTPClient cfg w = Ret a (set_heap (heap w ++ h') w) /\
          (exists cl, (heap w ++ h') !! a = Some (ObjHTTPClient cl)) /\
          (heap w ++ h') !! List.length (heap w)
          = Some (ObjHTTPTransport
                    {| http.DialContext := None;
                       http.ProxyFromEnvironment := true;
                       http.TLSClientConfig := None;
                       http.DisableKeepAlives := false |})
    | Some st =>
        match state_Dialer st with
        | None => FirstAPI.newk6HTTPClient cfg w = Panic nil_dereference w
        | Some d =>
            exists a h' bt,
              FirstAPI.newk6HTTPClient cfg w = Ret a (set_heap (heap w ++ h') w) /\
              (exists cl, (heap w ++ h') !! a = Some (ObjHTTPClient cl)) /\
              (heap w ++ h') !! List.length (heap w) = Some (ObjHTTPTransport bt) /\
              http.DialContext bt = Some d
        end
    end /\
    (forall cfg3 : ClientAPI.ClientConfig,
        ClientAPI.BearerToken (ClientAPI.cfg_Auth cfg3)
        = FirstAPI.BearerToken (FirstAPI.cfg_Auth cfg) ->
        ClientAPI.cfg_Timeout cfg3 = 0 ->
        match vu_State w with
        | Some _ => ClientAPI.newk6HTTPClient cfg3 w = FirstAPI.newk6HTTPClient cfg w
        | None => ClientAPI.newk6HTTPClient cfg3 w = Panic nil_dereference w
        end) /\
    (forall cfgR : RecorderAPI.ClientConfig,
        RecorderAPI.BearerToken (RecorderAPI.cfg_Auth cfgR)
        = FirstAPI.BearerToken (FirstAPI.cfg_Auth cfg) ->
        match vu_State w with
        | None => RecorderAPI.newk6HTTPClient cfgR w = Panic nil_dereference w
        | Some st =>
            match state_Dialer st with
            | Some _ => RecorderAPI.newk6HTTPClient cfgR w = FirstAPI.newk6HTTPClient cfg w
            | None =>
                exists a h' bt,
                  RecorderAPI.newk6HTTPClient cfgR w = Ret a (set_heap (heap w ++ h') w) /\
                  (exists cl, (heap w ++ h') !! a = Some (ObjHTTPClient cl)) /\
                  (heap w ++ h') !! List.length (heap w) = Some (ObjHTTPTransport bt) /\
                  http.DialContext bt = None
            end
        end).
Proof.
  intros S cfg w. split; [| split].
  - unfold FirstAPI.newk6HTTPClient, vu_State_get, Dialer_DialContext, bind, ret, panic.
    destruct (vu_State w) as [st|] eqn:Hst.
    + destruct (state_Dialer st) as [d|] eqn:Hd; [| reflexivity].
      match goal with
      | |- context [new (ObjHTTPTransport ?t)] =>
          destruct (built_over (FirstAPI.BearerToken (FirstAPI.cfg_Auth cfg)) t 0 w)
            as (a & h' & Hrun & Hcl & Htr)
      end.
      exists a, h'. eexists. split; [exact Hrun |]. split; [exact Hcl |].
      split; [exact Htr | reflexivity].
    + match goal with
      | |- context [new (ObjHTTPTransport ?t)] =>
          destruct (built_over (FirstAPI.BearerToken (FirstAPI.cfg_Auth cfg)) t 0 w)
            as (a & h' & Hrun & Hcl & Htr)
      end.
      exists a, h'. split; [exact Hrun |]. split; [exact Hcl | exact Htr].
  - intros cfg3 Htoken Htimeout.
    unfold ClientAPI.newk6HTTPClient, FirstAPI.newk6HTTPClient, vu_State_deref,
      vu_State_get, Dialer_DialContext, bind, ret, panic.
    destruct (vu_State w) as [st|]; [| reflexivity].
    rewrite Htoken, Htimeout. by destruct (state_Dialer st).
  - intros cfgR Htoken.
    unfold RecorderAPI.newk6HTTPClient, FirstAPI.newk6HTTPClient, vu_State_deref,
      vu_State_get, Dialer_DialContext, bind, ret, panic.
    destruct (vu_State w) as [st|] eqn:Hst; [| reflexivity].
    destruct (state_Dialer st) as [d|] eqn:Hd.
    + by rewrite Htoken.
    + match goal with
      | |- context [new (ObjHTTPTransport ?t)] =>
          destruct (built_over (RecorderAPI.BearerToken (RecorderAPI.cfg_Auth cfgR)) t 0 w)
            as (a & h' & Hrun & Hcl & Htr)
      end.
      exists a, h'. eexists. split; [exact Hrun |]. split; [exact Hcl |].
      split; [exact Htr | reflexivity].
Qed.

(** Outside an iteration, on the state of the tests and on a state with a
    dialer, with the token [T]. *)
Lemma first_revision_newk6HTTPClient_witness :
  (exists a h',
      FirstAPI.newk6HTTPClient
        (FirstAPI.mkClientConfig "" [] [] false "" (FirstAPI.mkAuthConfig "T"))
        (Examples.world_init tt) = Ret a (set_heap h' (Examples.world_init tt)) /\
      exists cl, h' !! a = Some (ObjHTTPClient cl)) /\
  FirstAPI.newk6HTTPClient
    (FirstAPI.mkClientConfig "" [] [] false "" (FirstAPI.mkAuthConfig "T"))
    (Examples.world_test tt) = Panic nil_dereference (Examples.world_test tt) /\
  ClientAPI.newk6HTTPClient Examples.cfg_token_only (Examples.world_init tt)
  = Panic nil_dereference (Examples.world_init tt) /\
  ClientAPI.newk6HTTPClient Examples.cfg_token_only (Examples.world_test tt)
  = Panic nil_dereference (Examples.world_test tt) /\
  ClientAPI.newk6HTTPClient Examples.cfg_token_only (Examples.world tt)
  = FirstAPI.newk6HTTPClient
      (FirstAPI.mkClientConfig "" [] [] false "" (FirstAPI.mkAuthConfig "T"))
      (Examples.world tt) /\
  (exists a h',
      RecorderAPI.newk6HTTPClient
        (RecorderAPI.mkClientConfig "" [] [] false "" (RecorderAPI.mkAuthConfig "T"))
        (Examples.world_test tt) = Ret a (set_heap h' (Examples.world_test tt)) /\
      exists cl, h' !! a = Some (ObjHTTPClient cl)).
Proof.
  pose (cfg := FirstAPI.mkClientConfig "" [] [] false "" (FirstAPI.mkAuthConfig "T")).
  pose (cfgR := RecorderAPI.mkClientConfig "" [] [] false "" (RecorderAPI.mkAuthConfig "T")).
  destruct (first_revision_newk6HTTPClient unit cfg (Examples.world_init tt))
    as ((a & h' & Hrun & Hcl & _) & Hinit & _).
  destruct (first_revision_newk6HTTPClient unit cfg (Examples.world_test tt))
    as (Hpanic & Htest & Hrec).
  destruct (first_revision_newk6HTTPClient unit cfg (Examples.world tt))
    as (_ & Hvu & _).
  destruct (Hrec cfgR eq_refl) as (aR & hR & bt & HrunR & HclR & _).
  split; [by exists a, h' |].
  split; [exact Hpanic |].
  split; [exact (Hinit Examples.cfg_token_only eq_refl eq_refl) |].
  split; [exact (eq_trans (Htest Examples.cfg_token_only eq_refl eq_refl) Hpanic) |].
  split; [exact (Hvu Examples.cfg_token_only eq_refl eq_refl) |].
  by exists aR, hR.
Defined.
